(** * Secure budget planner: authentication and encrypted ledger

    A shallow embedding of [auth_manager.py] (class [AuthManager]) and
    [database.py] (class [BudgetDatabase]).

    - The two SQLite files, the key file and the operating system's
      random source form one [world] record that every method threads.
    - Python text is [string], read as a sequence of code points below
      256; [bytes] is a list of bytes; [str.encode] / [bytes.decode] are
      UTF-8 on that alphabet.
    - Instants are integers counting microseconds (the resolution of
      [datetime]); the text form SQLite stores them in sorts in the same
      order.
    - [bcrypt], [cryptography.fernet], [jwt], [json], [float] and
      [datetime.strptime] are library code: they enter as type classes,
      and what is assumed about them is stated in separate law classes. *)

From Stdlib Require Import ZArith NArith List Bool Lia.
From Stdlib Require Import Strings.String Strings.Ascii Strings.Byte.
From Stdlib Require Import Sorting.Sorted Sorting.Permutation.
Import ListNotations.

Local Open Scope string_scope.
Local Open Scope list_scope.
Local Open Scope Z_scope.

(** ** Text and bytes *)

Definition bytes := list byte.

Definition byte_of_code (n : N) : byte := byte_of_ascii (ascii_of_N n).

(** [str.encode()] for one code point below 256: one byte below 128,
    the two-byte form otherwise. *)
Definition utf8_char (c : ascii) : bytes :=
  let n := N_of_ascii c in
  if (n <? 128)%N then [byte_of_ascii c]
  else [byte_of_code (192 + n / 64); byte_of_code (128 + n mod 64)].

Fixpoint encode (s : string) : bytes :=
  match s with
  | EmptyString => []
  | String c s' => utf8_char c ++ encode s'
  end.

(** [bytes.decode()]: [None] is [UnicodeDecodeError] (or a code point
    outside the alphabet of the model). *)
Fixpoint decode (b : bytes) : option string :=
  match b with
  | [] => Some EmptyString
  | b0 :: rest =>
      let n0 := Byte.to_N b0 in
      if (n0 <? 128)%N then option_map (String (ascii_of_byte b0)) (decode rest)
      else if ((n0 =? 194) || (n0 =? 195))%N then
        match rest with
        | b1 :: rest' =>
            let n1 := Byte.to_N b1 in
            if ((128 <=? n1) && (n1 <? 192))%N
            then option_map (String (ascii_of_N ((n0 - 192) * 64 + (n1 - 128))))
                            (decode rest')
            else None
        | [] => None
        end
      else None
  end.

(** [str.lower()] on the code points below 256: A-Z and the accented
    capitals 192-222 (but not the multiplication sign 215) move up by 32. *)
Definition lower_char (c : ascii) : ascii :=
  let n := N_of_ascii c in
  if (((65 <=? n) && (n <=? 90)) ||
      ((192 <=? n) && (n <=? 222) && negb (n =? 215)))%N
  then ascii_of_N (n + 32) else c.

Fixpoint lower (s : string) : string :=
  match s with
  | EmptyString => EmptyString
  | String c s' => String (lower_char c) (lower s')
  end.

(** ** Library interfaces *)

(** [bcrypt.hashpw(password, salt)] and [bcrypt.checkpw(password, hashed)]. *)
Class Bcrypt := {
  salt : Type;
  hashpw : bytes -> salt -> bytes;
  checkpw : bytes -> bytes -> bool
}.

Class BcryptLaws `{Bcrypt} : Prop := {
  checkpw_hashpw : forall p s, checkpw p (hashpw p s) = true
}.

(** [Fernet(key).encrypt(data)] draws an IV and reads the clock: both are
    the [nonce].  [fernet_decrypt] returns [None] where the library raises
    [InvalidToken]. *)
Class Fernet := {
  key : Type;
  nonce : Type;
  fernet_encrypt : key -> nonce -> bytes -> bytes;
  fernet_decrypt : key -> bytes -> option bytes
}.

(** Authenticated encryption, idealised: only what was encrypted under a
    key decrypts under it, and a ciphertext determines its key. *)
Class FernetLaws `{Fernet} : Prop := {
  fernet_correct : forall k n x, fernet_decrypt k (fernet_encrypt k n x) = Some x;
  fernet_authentic : forall k c x,
      fernet_decrypt k c = Some x -> exists n, c = fernet_encrypt k n x;
  fernet_key_binding : forall k k' n n' x x',
      fernet_encrypt k n x = fernet_encrypt k' n' x' -> k = k'
}.

(** The claim set that [login] signs. [claim_exp] is in whole seconds:
    PyJWT converts the [datetime] with [timegm(utctimetuple())]. *)
Record claims := {
  claim_user_id : Z;
  claim_username : string;
  claim_exp : Z
}.

Inductive jwt_outcome :=
  | JwtPayload (c : claims)
  | ExpiredSignatureError
  | InvalidTokenError.

(** [jwt.encode(payload, secret, algorithm='HS256')] and
    [jwt.decode(token, secret, algorithms=['HS256'])]; the last argument
    of [jwt_decode] is the clock the library reads, in microseconds. *)
Class JWT := {
  jwt_encode : claims -> string -> string;
  jwt_decode : string -> string -> Z -> jwt_outcome
}.

Definition second : Z := 1000000.
Definition minutes (n : Z) : Z := n * 60 * second.
Definition hours (n : Z) : Z := n * 60 * 60 * second.

(** The signature is checked first, then [exp <= now]. Signatures under
    distinct secrets are idealised as never matching. *)
Class JWTLaws `{JWT} : Prop := {
  jwt_decode_encode : forall c s now,
      jwt_decode (jwt_encode c s) s now
      = if claim_exp c * second <=? now then ExpiredSignatureError else JwtPayload c;
  jwt_decode_other_secret : forall c s s' now,
      s <> s' -> jwt_decode (jwt_encode c s) s' now = InvalidTokenError
}.

(** Python floats with [str(x)], [float(s)], [float(n)], [x == 0.0] and the
    literal [0.0]. In [float_of_string] [None] is [ValueError], in
    [float_of_int] it is [OverflowError]. *)
Class PyFloat := {
  float : Type;
  float_str : float -> string;
  float_of_string : string -> option float;
  float_of_int : Z -> option float;
  float_is_zero : float -> bool;
  float_zero : float
}.

(** [float(str(x))] gives [x] back: [str] prints the shortest decimal
    that reads back as the same float. *)
Class PyFloatLaws `{PyFloat} : Prop := {
  float_str_roundtrip : forall x, float_of_string (float_str x) = Some x
}.

(** What the process reads from its environment, by number of the read:
    the operating system's random source behind [bcrypt.gensalt()],
    [Fernet.generate_key()], [Fernet.encrypt] and [secrets.token_hex(32)],
    and SQLite's CURRENT_TIMESTAMP. *)
Class Environment `{Bcrypt} `{Fernet} := {
  gensalt : nat -> salt;
  generate_key : nat -> key;
  fernet_nonce : nat -> nonce;
  token_hex : nat -> string;
  current_timestamp : nat -> Z
}.

(** Two draws of [secrets.token_hex(32)] never give the same secret. *)
Class EnvironmentLaws `{Environment} : Prop := {
  token_hex_fresh : forall i j : nat, i <> j -> token_hex i <> token_hex j
}.

(** A calendar day. SQLite keeps it as the text YYYY-MM-DD and compares
    the text, which orders days as the calendar does. *)
Definition date := Z.

(** ** Python values that cross the JSON boundary *)

Unset Elimination Schemes.
Inductive pyval `{PyFloat} : Type :=
  | PNone
  | PBool (b : bool)
  | PInt (n : Z)
  | PFloat (x : float)
  | PStr (s : string)
  | PList (l : list pyval)
  | PDict (d : list (string * pyval)).
Set Elimination Schemes.

(** [json.loads] ([None] is [JSONDecodeError]), [datetime.strptime(s,
    '%Y-%m-%d').date()] ([None] is [ValueError]) and the text SQLite
    stores when a number is bound to a TEXT column. *)
Class Runtime `{PyFloat} := {
  json_loads : string -> option pyval;
  strptime_date : string -> option date;
  sqlite_text_of_int : Z -> string;
  sqlite_text_of_real : float -> string
}.

(** ** Exceptions and state *)

Inductive exn : Set :=
  | ValueError | TypeError | KeyError | AttributeError | OverflowError
  | UnicodeDecodeError | JSONDecodeError | FileNotFoundError
  | InvalidToken | IntegrityError | InterfaceError.

Inductive result (A : Type) : Type :=
  | Ok (a : A)
  | Raise (e : exn).
Arguments Ok {A} a.
Arguments Raise {A} e.

(** A computation over a store [S] that returns or raises; the store an
    exception leaves behind is the one reached when it was raised. *)
Definition M (S A : Type) : Type := S -> result A * S.

Definition ret {S A} (a : A) : M S A := fun w => (Ok a, w).

Definition raise {S A} (e : exn) : M S A := fun w => (Raise e, w).

Definition bind {S A B} (m : M S A) (f : A -> M S B) : M S B :=
  fun w => match m w with
           | (Ok a, w') => f a w'
           | (Raise e, w') => (Raise e, w')
           end.

Definition lift {S A} (r : result A) : M S A := fun w => (r, w).

Definition get {S} : M S S := fun w => (Ok w, w).

Definition modify {S} (f : S -> S) : M S unit := fun w => (Ok tt, f w).

(** [try: m except Exception: h] *)
Definition catch {S A} (m : M S A) (h : exn -> M S A) : M S A :=
  fun w => match m w with
           | (Ok a, w') => (Ok a, w')
           | (Raise e, w') => h e w'
           end.

Notation "x <- m ;; k" := (bind m (fun x => k))
  (at level 61, m at next level, right associativity).
Notation "m ;;; k" := (bind m (fun _ => k))
  (at level 61, right associativity).

(** [m] carries [P] from the store it starts in to the store it ends
    in, whether it returns or raises. *)
Definition preserves {S A} (P : S -> Prop) (m : M S A) : Prop :=
  forall w r w', m w = (r, w') -> P w -> P w'.

(** [for x in xs: body x] *)
Fixpoint for_each {S A} (xs : list A) (body : A -> M S unit) : M S unit :=
  match xs with
  | [] => ret tt
  | x :: xs' => body x ;;; for_each xs' body
  end.

(** ** Tables *)

Module Users.
Record row := {
  id : Z;
  username : string;
  password_hash : bytes;
  email : string;
  security_question : string;
  security_answer_hash : bytes;
  created_at : Z;
  last_login : option Z;
  failed_attempts : Z;
  locked_until : option Z
}.
End Users.

Module Sessions.
Record row := {
  id : Z;
  user_id : Z;
  token : string;
  expires_at : Z
}.
End Sessions.

Module Salary.
Record row := {
  id : Z;
  user_id : Z;
  amount_encrypted : bytes;
  updated_at : Z
}.
End Salary.

Module Transactions.
Record row := {
  id : Z;
  user_id : Z;
  date : date;
  amount_encrypted : bytes;
  category : string;
  description_encrypted : option bytes;
  created_at : Z
}.
End Transactions.

(** The rowid SQLite gives a row inserted into a table with an
    INTEGER PRIMARY KEY: one more than the largest in use. *)
Definition next_id {A} (id_of : A -> Z) (rows : list A) : Z :=
  1 + fold_right (fun r m => Z.max (id_of r) m) 0 rows.

(** What [verify_token] returns beside the flag: the payload, [None],
    or a message. *)
Inductive verify_info :=
  | Payload (c : claims)
  | NoInfo
  | Message (m : string).

Section Program.

Context {BC : Bcrypt} {FN : Fernet} {JW : JWT} {PF : PyFloat}
        {EN : Environment} {RT : Runtime}.

Record world := {
  users : list Users.row;
  sessions : list Sessions.row;
  salary : list Salary.row;
  transactions : list Transactions.row;
  key_file : option key;
  draws : nat
}.

Definition set_users (us : list Users.row) (w : world) : world :=
  {| users := us; sessions := sessions w; salary := salary w;
     transactions := transactions w; key_file := key_file w; draws := draws w |}.

Definition set_sessions (ss : list Sessions.row) (w : world) : world :=
  {| users := users w; sessions := ss; salary := salary w;
     transactions := transactions w; key_file := key_file w; draws := draws w |}.

Definition set_salary (sl : list Salary.row) (w : world) : world :=
  {| users := users w; sessions := sessions w; salary := sl;
     transactions := transactions w; key_file := key_file w; draws := draws w |}.

Definition set_transactions (ts : list Transactions.row) (w : world) : world :=
  {| users := users w; sessions := sessions w; salary := salary w;
     transactions := ts; key_file := key_file w; draws := draws w |}.

Definition set_key_file (k : key) (w : world) : world :=
  {| users := users w; sessions := sessions w; salary := salary w;
     transactions := transactions w; key_file := Some k; draws := draws w |}.

(** One more draw from the random source. *)
Definition drawn (w : world) : world :=
  {| users := users w; sessions := sessions w; salary := salary w;
     transactions := transactions w; key_file := key_file w; draws := S (draws w) |}.

(** ** auth_manager.py *)

Record AuthManager := {
  encryption_key : key;
  jwt_secret : string
}.

(** [AuthManager.__init__]. [JWT_SECRET] is the environment variable.
    [secrets.token_hex(32)] is the default argument of [os.environ.get],
    so it is drawn whether or not the variable is set. [init_db] only
    creates missing tables. *)
Definition AuthManager_init (JWT_SECRET : option string) (w : world)
  : AuthManager * world :=
  let '(k, w1) :=
    match key_file w with
    | None => let k := generate_key (draws w) in (k, set_key_file k (drawn w))
    | Some k => (k, w)
    end in
  let fallback := token_hex (draws w1) in
  ({| encryption_key := k;
      jwt_secret := match JWT_SECRET with Some s => s | None => fallback end |},
   drawn w1).

Definition hash_password (password : string) (w : world) : bytes * world :=
  (hashpw (encode password) (gensalt (draws w)), drawn w).

Definition verify_password (password : string) (password_hash : bytes) : bool :=
  checkpw (encode password) password_hash.

(** SELECT * FROM users WHERE username = ?, then [fetchone]. *)
Definition fetch_user (username : string) (w : world) : option Users.row :=
  find (fun u => (Users.username u =? username)%string) (users w).

(** UPDATE users SET ... WHERE id = ? *)
Definition update_users (uid : Z) (f : Users.row -> Users.row) (w : world) : world :=
  set_users (map (fun u => if Users.id u =? uid then f u else u) (users w)) w.

Definition create_user (self : AuthManager)
    (username password email security_question security_answer : string)
    (w : world) : bool * world :=
  let '(password_hash, w1) := hash_password password w in
  let '(answer_hash, w2) := hash_password (lower security_answer) w1 in
  if existsb (fun u => (Users.username u =? username)%string
                       || (Users.email u =? email)%string) (users w2)
  then (false, w2)
  else (true,
        set_users (users w2 ++
          [ {| Users.id := next_id Users.id (users w2);
               Users.username := username;
               Users.password_hash := password_hash;
               Users.email := email;
               Users.security_question := security_question;
               Users.security_answer_hash := answer_hash;
               Users.created_at := current_timestamp (draws w2);
               Users.last_login := None;
               Users.failed_attempts := 0;
               Users.locked_until := None |} ]) w2).

(** [user[9] and datetime.now() < datetime.fromisoformat(user[9])] *)
Definition is_locked (user : Users.row) (now : Z) : bool :=
  match Users.locked_until user with
  | Some t => now <? t
  | None => false
  end.

Definition set_lockout (failed_attempts : Z) (locked_until : option Z)
    (u : Users.row) : Users.row :=
  {| Users.id := Users.id u; Users.username := Users.username u;
     Users.password_hash := Users.password_hash u; Users.email := Users.email u;
     Users.security_question := Users.security_question u;
     Users.security_answer_hash := Users.security_answer_hash u;
     Users.created_at := Users.created_at u; Users.last_login := Users.last_login u;
     Users.failed_attempts := failed_attempts; Users.locked_until := locked_until |}.

Definition set_success (now : Z) (u : Users.row) : Users.row :=
  {| Users.id := Users.id u; Users.username := Users.username u;
     Users.password_hash := Users.password_hash u; Users.email := Users.email u;
     Users.security_question := Users.security_question u;
     Users.security_answer_hash := Users.security_answer_hash u;
     Users.created_at := Users.created_at u; Users.last_login := Some now;
     Users.failed_attempts := 0; Users.locked_until := None |}.

Definition set_password_hash (h : bytes) (u : Users.row) : Users.row :=
  {| Users.id := Users.id u; Users.username := Users.username u;
     Users.password_hash := h; Users.email := Users.email u;
     Users.security_question := Users.security_question u;
     Users.security_answer_hash := Users.security_answer_hash u;
     Users.created_at := Users.created_at u; Users.last_login := Users.last_login u;
     Users.failed_attempts := Users.failed_attempts u;
     Users.locked_until := Users.locked_until u |}.

(** [login]. [now] is [datetime.now()], [utcnow] is [datetime.utcnow()];
    one call reads each clock at one instant. The result is the tuple the
    method returns. *)
Definition login (self : AuthManager) (username password : string)
    (now utcnow : Z) (w : world) : (bool * string) * world :=
  match fetch_user username w with
  | None => ((false, "Invalid username or password"), w)
  | Some user =>
      if is_locked user now
      then ((false, "Account is locked. Try again later."), w)
      else if negb (verify_password password (Users.password_hash user)) then
        let failed_attempts := Users.failed_attempts user + 1 in
        let locked_until :=
          if 5 <=? failed_attempts then Some (now + minutes 30) else None in
        ((false, "Invalid username or password"),
         update_users (Users.id user) (set_lockout failed_attempts locked_until) w)
      else
        let w1 := update_users (Users.id user) (set_success now) w in
        let token :=
          jwt_encode {| claim_user_id := Users.id user;
                        claim_username := Users.username user;
                        claim_exp := (utcnow + hours 24) / second |}
                     (jwt_secret self) in
        let w2 :=
          set_sessions (sessions w1 ++
            [ {| Sessions.id := next_id Sessions.id (sessions w1);
                 Sessions.user_id := Users.id user;
                 Sessions.token := token;
                 Sessions.expires_at := utcnow + hours 24 |} ]) w1 in
        ((true, token), w2)
  end.

(** SELECT * FROM sessions WHERE token = ? AND expires_at > ? *)
Definition fetch_session (token : string) (utcnow : Z) (w : world)
  : option Sessions.row :=
  find (fun s => (Sessions.token s =? token)%string
                 && (utcnow <? Sessions.expires_at s)) (sessions w).

Definition verify_token (self : AuthManager) (token : string) (utcnow : Z)
    (w : world) : bool * verify_info :=
  match jwt_decode token (jwt_secret self) utcnow with
  | JwtPayload payload =>
      match fetch_session token utcnow w with
      | None => (false, NoInfo)
      | Some _ => (true, Payload payload)
      end
  | ExpiredSignatureError => (false, Message "Token has expired")
  | InvalidTokenError => (false, Message "Invalid token")
  end.

Definition reset_password (self : AuthManager)
    (username security_answer new_password : string) (w : world) : bool * world :=
  match fetch_user username w with
  | None => (false, w)
  | Some user =>
      if negb (verify_password (lower security_answer)
                               (Users.security_answer_hash user))
      then (false, w)
      else
        let '(new_password_hash, w1) := hash_password new_password w in
        (true, update_users (Users.id user) (set_password_hash new_password_hash) w1)
  end.

(** [encrypt_data]: [self.fernet.encrypt(data.encode())] *)
Definition encrypt_data (self : AuthManager) (data : string) (w : world)
  : bytes * world :=
  (fernet_encrypt (encryption_key self) (fernet_nonce (draws w)) (encode data),
   drawn w).

(** [decrypt_data]: [self.fernet.decrypt(encrypted_data).decode()] *)
Definition decrypt_data (self : AuthManager) (encrypted_data : bytes)
  : result string :=
  match fernet_decrypt (encryption_key self) encrypted_data with
  | None => Raise InvalidToken
  | Some b =>
      match decode b with
      | None => Raise UnicodeDecodeError
      | Some s => Ok s
      end
  end.

(** DELETE FROM sessions WHERE token = ? *)
Definition logout (self : AuthManager) (token : string) (w : world) : bool * world :=
  (true,
   set_sessions
     (filter (fun s => negb (Sessions.token s =? token)%string) (sessions w)) w).


(** ** database.py *)

Record BudgetDatabase := {
  user_id : option Z;
  auth_manager : AuthManager
}.

(** [BudgetDatabase.__init__]: a new [AuthManager()] of its own; the
    tables are created only when missing. *)
Definition BudgetDatabase_init (JWT_SECRET : option string) (user_id : option Z)
    (w : world) : BudgetDatabase * world :=
  let '(am, w1) := AuthManager_init JWT_SECRET w in
  ({| user_id := user_id; auth_manager := am |}, w1).

(** [if not self.user_id: raise ValueError("User not authenticated")]:
    [None] and [0] are both false. *)
Definition require_user (self : BudgetDatabase) : M world Z :=
  match user_id self with
  | Some uid => if uid =? 0 then raise ValueError else ret uid
  | None => raise ValueError
  end.

Definition encrypt (self : BudgetDatabase) (data : string) : M world bytes :=
  fun w => let '(c, w') := encrypt_data (auth_manager self) data w in (Ok c, w').

Definition decrypt (self : BudgetDatabase) (encrypted_data : bytes) : M world string :=
  lift (decrypt_data (auth_manager self) encrypted_data).

(** [float(s)] for a string *)
Definition parse_float (s : string) : result float :=
  match float_of_string s with
  | Some x => Ok x
  | None => Raise ValueError
  end.

(** DELETE FROM salary WHERE user_id = ? *)
Definition delete_salary (uid : Z) (w : world) : world :=
  set_salary (filter (fun r => negb (Salary.user_id r =? uid)) (salary w)) w.

(** DELETE FROM transactions WHERE user_id = ? *)
Definition delete_transactions (uid : Z) (w : world) : world :=
  set_transactions
    (filter (fun t => negb (Transactions.user_id t =? uid)) (transactions w)) w.

(** INSERT INTO salary (user_id, amount_encrypted) VALUES (?, ?) *)
Definition insert_salary (uid : Z) (encrypted_amount : bytes) (w : world) : world :=
  set_salary (salary w ++
    [ {| Salary.id := next_id Salary.id (salary w);
         Salary.user_id := uid;
         Salary.amount_encrypted := encrypted_amount;
         Salary.updated_at := current_timestamp (draws w) |} ]) w.

Definition update_salary (self : BudgetDatabase) (amount : float) : M world unit :=
  uid <- require_user self ;;
  encrypted_amount <- encrypt self (float_str amount) ;;
  modify (delete_salary uid) ;;;
  modify (insert_salary uid encrypted_amount).

(** ORDER BY updated_at DESC LIMIT 1. Among rows with the same
    [updated_at] SQLite may return any; the model keeps the first. *)
Definition latest (rows : list Salary.row) : option Salary.row :=
  fold_left (fun best r =>
               match best with
               | None => Some r
               | Some b => if Salary.updated_at b <? Salary.updated_at r
                           then Some r else Some b
               end) rows None.

Definition get_salary (self : BudgetDatabase) : M world float :=
  uid <- require_user self ;;
  w <- get ;;
  match latest (filter (fun r => Salary.user_id r =? uid) (salary w)) with
  | Some result =>
      decrypted_amount <- decrypt self (Salary.amount_encrypted result) ;;
      lift (parse_float decrypted_amount)
  | None => ret float_zero
  end.

(** [data.encode()] inside [encrypt_data] when [data] is not a [str] *)
Definition as_str (v : pyval) : result string :=
  match v with
  | PStr s => Ok s
  | _ => Raise AttributeError
  end.

(** Binding a Python value to the [category TEXT NOT NULL] column:
    numbers are stored as their text, [None] violates NOT NULL, lists and
    dicts cannot be bound. *)
Definition bind_category (v : pyval) : result string :=
  match v with
  | PStr s => Ok s
  | PInt n => Ok (sqlite_text_of_int n)
  | PBool b => Ok (sqlite_text_of_int (if b then 1 else 0))
  | PFloat x => Ok (sqlite_text_of_real x)
  | PNone => Raise IntegrityError
  | PList _ | PDict _ => Raise InterfaceError
  end.

Definition insert_transaction (uid : Z) (date : date) (encrypted_amount : bytes)
    (category : string) (encrypted_description : bytes) (w : world) : world :=
  set_transactions (transactions w ++
    [ {| Transactions.id := next_id Transactions.id (transactions w);
         Transactions.user_id := uid;
         Transactions.date := date;
         Transactions.amount_encrypted := encrypted_amount;
         Transactions.category := category;
         Transactions.description_encrypted := Some encrypted_description;
         Transactions.created_at := current_timestamp (draws w) |} ]) w.

(** [add_transaction(date, amount, category, description="")]:
    [description = None] here is the argument left out. *)
Definition add_transaction (self : BudgetDatabase) (date : date) (amount : float)
    (category : pyval) (description : option pyval) : M world unit :=
  let description := match description with Some d => d | None => PStr "" end in
  uid <- require_user self ;;
  encrypted_amount <- encrypt self (float_str amount) ;;
  text <- lift (as_str description) ;;
  encrypted_description <- encrypt self text ;;
  category_text <- lift (bind_category category) ;;
  modify (insert_transaction uid date encrypted_amount category_text
                             encrypted_description).

(** ORDER BY date DESC: latest date first, rows of equal date in the
    order of the table (rowid order). A row is put in front of the first
    row whose date is not later than its own. *)
Fixpoint insert_desc (t : Transactions.row) (sorted : list Transactions.row)
  : list Transactions.row :=
  match sorted with
  | [] => [t]
  | t' :: rest =>
      if Transactions.date t' <=? Transactions.date t
      then t :: t' :: rest
      else t' :: insert_desc t rest
  end.

Definition order_by_date_desc (rows : list Transactions.row) : list Transactions.row :=
  fold_right insert_desc [] rows.

(** SELECT * FROM transactions WHERE user_id = ?
    [AND date BETWEEN ? AND ?] ORDER BY date DESC; the range is added
    under [if start_date and end_date]. *)
Definition select_transactions (uid : Z) (start_date end_date : option date)
    (w : world) : list Transactions.row :=
  let mine := filter (fun t => Transactions.user_id t =? uid) (transactions w) in
  let ranged :=
    match start_date, end_date with
    | Some s, Some e =>
        filter (fun t => (s <=? Transactions.date t) && (Transactions.date t <=? e)) mine
    | _, _ => mine
    end in
  order_by_date_desc ranged.

(** One entry of the list [get_transactions] returns: the columns of the
    row and the two decrypted fields. *)
Record transaction := {
  row : Transactions.row;
  amount : float;
  description : string
}.

Definition decrypt_transaction (self : BudgetDatabase) (trans : Transactions.row)
  : M world transaction :=
  decrypted_amount <- decrypt self (Transactions.amount_encrypted trans) ;;
  amount <- lift (parse_float decrypted_amount) ;;
  description <-
    match Transactions.description_encrypted trans with
    | Some c => decrypt self c
    | None => raise TypeError
    end ;;
  ret {| row := trans; amount := amount; description := description |}.

Fixpoint decrypt_all (self : BudgetDatabase) (rows : list Transactions.row)
  : M world (list transaction) :=
  match rows with
  | [] => ret []
  | trans :: rest =>
      t <- decrypt_transaction self trans ;;
      ts <- decrypt_all self rest ;;
      ret (t :: ts)
  end.

Definition get_transactions (self : BudgetDatabase) (start_date end_date : option date)
  : M world (list transaction) :=
  uid <- require_user self ;;
  w <- get ;;
  decrypt_all self (select_transactions uid start_date end_date w).

(** [d[k]] *)
Definition getitem (d : pyval) (k : string) : result pyval :=
  match d with
  | PDict items =>
      match find (fun kv => (fst kv =? k)%string) items with
      | Some kv => Ok (snd kv)
      | None => Raise KeyError
      end
  | _ => Raise TypeError
  end.

(** [if v:] *)
Definition truthy (v : pyval) : bool :=
  match v with
  | PNone => false
  | PBool b => b
  | PInt n => negb (n =? 0)
  | PFloat x => negb (float_is_zero x)
  | PStr s => negb (s =? "")%string
  | PList l => match l with [] => false | _ => true end
  | PDict d => match d with [] => false | _ => true end
  end.

(** [float(v)] *)
Definition to_float (v : pyval) : result float :=
  match v with
  | PFloat x => Ok x
  | PInt n => match float_of_int n with Some x => Ok x | None => Raise OverflowError end
  | PBool b => match float_of_int (if b then 1 else 0) with
               | Some x => Ok x | None => Raise OverflowError end
  | PStr s => parse_float s
  | PNone | PList _ | PDict _ => Raise TypeError
  end.

Fixpoint characters (s : string) : list pyval :=
  match s with
  | EmptyString => []
  | String c s' => PStr (String c EmptyString) :: characters s'
  end.

(** [for trans in v]: the elements of a list, the keys of a dict, the
    characters of a string. *)
Definition iterate (v : pyval) : result (list pyval) :=
  match v with
  | PList l => Ok l
  | PDict d => Ok (map (fun kv => PStr (fst kv)) d)
  | PStr s => Ok (characters s)
  | PNone | PBool _ | PInt _ | PFloat _ => Raise TypeError
  end.

(** [datetime.strptime(v, '%Y-%m-%d').date()] *)
Definition parse_date (v : pyval) : result date :=
  match v with
  | PStr s => match strptime_date s with Some d => Ok d | None => Raise ValueError end
  | _ => Raise TypeError
  end.

Definition import_transaction (self : BudgetDatabase) (trans : pyval) : M world unit :=
  d <- lift (getitem trans "date") ;;
  date <- lift (parse_date d) ;;
  a <- lift (getitem trans "amount") ;;
  amount <- lift (to_float a) ;;
  category <- lift (getitem trans "category") ;;
  description <- lift (getitem trans "description") ;;
  add_transaction self date amount category (Some description).

(** What [import_database] does once the blob is decrypted and parsed. *)
Definition restore (self : BudgetDatabase) (uid : Z) (data : pyval) : M world unit :=
  modify (delete_salary uid) ;;;
  modify (delete_transactions uid) ;;;
  s <- lift (getitem data "salary") ;;
  (if truthy s
   then (x <- lift (to_float s) ;; update_salary self x)
   else ret tt) ;;;
  ts <- lift (getitem data "transactions") ;;
  items <- lift (iterate ts) ;;
  for_each items (import_transaction self).

(** The body of the [try]. [backup_file] is what is read at
    [backup_path]: [None] when it cannot be opened. *)
Definition import_body (self : BudgetDatabase) (uid : Z) (backup_file : option bytes)
  : M world bool :=
  encrypted_data <-
    lift (match backup_file with Some b => Ok b | None => Raise FileNotFoundError end) ;;
  decrypted_data <- decrypt self encrypted_data ;;
  data <-
    lift (match json_loads decrypted_data with
          | Some v => Ok v
          | None => Raise JSONDecodeError
          end) ;;
  restore self uid data ;;;
  ret true.

Definition import_database (self : BudgetDatabase) (backup_file : option bytes)
  : M world bool :=
  uid <- require_user self ;;
  catch (import_body self uid backup_file) (fun _ => ret false).

(** ** Callers *)

(** The two failures [login] reports. *)
Definition invalid_credentials : bool * string :=
  (false, "Invalid username or password").

Definition account_locked : bool * string :=
  (false, "Account is locked. Try again later.").

(** The password of an attempt does not verify against the row. *)
Definition wrong (u : Users.row) (a : string * Z * Z) : Prop :=
  verify_password (fst (fst a)) (Users.password_hash u) = false.

(** The lockout columns of every row, by id. *)
Definition lockout_state (w : world) : list (Z * Z * option Z) :=
  map (fun r => (Users.id r, Users.failed_attempts r, Users.locked_until r)) (users w).

(** The identity a [BudgetDatabase] is bound to: a user id that Python
    takes as true. *)
Definition bound (self : BudgetDatabase) (uid : Z) : Prop :=
  user_id self = Some uid /\ uid <> 0.

(** A row whose two encrypted columns hold ciphertexts under [k] of an
    amount and of a description. *)
Definition sealed (k : key) (t : Transactions.row) : Prop :=
  exists n n' x d,
    Transactions.amount_encrypted t = fernet_encrypt k n (encode (float_str x))
    /\ Transactions.description_encrypted t = Some (fernet_encrypt k n' (encode d)).

(** The rows the query of [get_transactions] keeps before it sorts. *)
Definition selected (uid : Z) (start_date end_date : option date)
    (t : Transactions.row) : bool :=
  (Transactions.user_id t =? uid)
  && match start_date, end_date with
     | Some s, Some e => (s <=? Transactions.date t) && (Transactions.date t <=? e)
     | _, _ => true
     end.

(** The order of ORDER BY date DESC. *)
Definition later_first (a b : Transactions.row) : Prop :=
  Transactions.date b <= Transactions.date a.

(** The two decrypted fields of an entry are the texts its row encrypts. *)
Definition opened (k : key) (t : transaction) : Prop :=
  exists n n',
    Transactions.amount_encrypted (row t)
    = fernet_encrypt k n (encode (float_str (amount t)))
    /\ Transactions.description_encrypted (row t)
       = Some (fernet_encrypt k n' (encode (description t))).

(** Every row of the transactions table has [Q]. *)
Definition all_rows (Q : Transactions.row -> Prop) (w : world) : Prop :=
  Forall Q (transactions w).

(** The date range as the sentence on [get_transactions] words it, each
    date a bound of its own: a start date that is given is not after the
    date of the row, an end date that is given is not before it. *)
Definition bounded_by_each_date (start_date end_date : option date)
    (t : Transactions.row) : Prop :=
  (forall s, start_date = Some s -> s <= Transactions.date t)
  /\ (forall e, end_date = Some e -> Transactions.date t <= e).

(** A caller that calls [login] for one username with each
    (password, now, utcnow) in turn. *)
Fixpoint login_attempts (self : AuthManager) (username : string)
    (attempts : list (string * Z * Z)) (w : world) : list (bool * string) * world :=
  match attempts with
  | [] => ([], w)
  | (password, now, utcnow) :: rest =>
      let '(r, w1) := login self username password now utcnow w in
      let '(rs, w2) := login_attempts self username rest w1 in
      (r :: rs, w2)
  end.

End Program.

(** ** A small concrete instance of the library interfaces

    It shows that the laws assumed of the libraries can be met together,
    and lets every statement below be run on a concrete world. Nothing is
    secure about it: a hash is the salt followed by the password, a
    ciphertext is the key followed by the nonce and the plaintext, a
    token spells out its secret and its claims. *)

Module Toy.

(** [n] times "1", then "0", then [rest] *)
Fixpoint put_nat (n : nat) (rest : string) : string :=
  match n with
  | O => String "0" rest
  | S n' => String "1" (put_nat n' rest)
  end.

Fixpoint take_nat (s : string) : option (nat * string) :=
  match s with
  | EmptyString => None
  | String c rest =>
      if (c =? "0")%char then Some (O, rest)
      else if (c =? "1")%char then
        match take_nat rest with
        | Some (n, r) => Some (S n, r)
        | None => None
        end
      else None
  end.

Definition put_Z (z : Z) (rest : string) : string :=
  put_nat (if z <? 0 then 1 else 0) (put_nat (Z.abs_nat z) rest).

Definition take_Z (s : string) : option (Z * string) :=
  match take_nat s with
  | Some (sign, r) =>
      match take_nat r with
      | Some (n, r') =>
          Some (match sign with O => Z.of_nat n | S _ => - Z.of_nat n end, r')
      | None => None
      end
  | None => None
  end.

Fixpoint split_at (n : nat) (s : string) : option (string * string) :=
  match n with
  | O => Some (EmptyString, s)
  | S n' =>
      match s with
      | EmptyString => None
      | String c r =>
          match split_at n' r with
          | Some (a, b) => Some (String c a, b)
          | None => None
          end
      end
  end.

Definition put_str (a rest : string) : string :=
  put_nat (String.length a) (a ++ rest)%string.

Definition take_str (s : string) : option (string * string) :=
  match take_nat s with
  | Some (n, r) => split_at n r
  | None => None
  end.

Fixpoint bytes_eqb (a b : bytes) : bool :=
  match a, b with
  | [], [] => true
  | x :: a', y :: b' => Byte.eqb x y && bytes_eqb a' b'
  | _, _ => false
  end.

Definition bcrypt : Bcrypt := {|
  salt := byte;
  hashpw := fun p s => s :: p;
  checkpw := fun p h => match h with _ :: p' => bytes_eqb p p' | [] => false end
|}.

Definition fernet : Fernet := {|
  key := byte;
  nonce := byte;
  fernet_encrypt := fun k n x => k :: n :: x;
  fernet_decrypt := fun k c =>
    match c with
    | k' :: _ :: x => if Byte.eqb k k' then Some x else None
    | _ => None
    end
|}.

Definition toy_encode (c : claims) (secret : string) : string :=
  put_str secret
    (put_Z (claim_user_id c) (put_Z (claim_exp c) (put_str (claim_username c) ""))).

Definition toy_decode (token secret : string) (now : Z) : jwt_outcome :=
  match take_str token with
  | Some (s, r1) =>
      match take_Z r1 with
      | Some (uid, r2) =>
          match take_Z r2 with
          | Some (exp, r3) =>
              match take_str r3 with
              | Some (name, EmptyString) =>
                  if negb (s =? secret)%string then InvalidTokenError
                  else if exp * second <=? now then ExpiredSignatureError
                  else JwtPayload {| claim_user_id := uid;
                                     claim_username := name;
                                     claim_exp := exp |}
              | _ => InvalidTokenError
              end
          | None => InvalidTokenError
          end
      | None => InvalidTokenError
      end
  | None => InvalidTokenError
  end.

Definition jwt : JWT := {| jwt_encode := toy_encode; jwt_decode := toy_decode |}.

(** Amounts are integers here, printed in the notation above. *)
Definition pyfloat : PyFloat := {|
  float := Z;
  float_str := fun x => put_Z x "";
  float_of_string := fun s =>
    match take_Z s with
    | Some (x, EmptyString) => Some x
    | _ => None
    end;
  float_of_int := fun n => Some n;
  float_is_zero := fun x => x =? 0;
  float_zero := 0
|}.

Definition environment : @Environment bcrypt fernet := {|
  gensalt := fun _ => ("000"%byte : @salt bcrypt);
  generate_key := fun _ => ("042"%byte : @key fernet);
  fernet_nonce := fun _ => ("000"%byte : @nonce fernet);
  token_hex := fun n => put_nat n "";
  current_timestamp := fun n => Z.of_nat n * second
|}.

(** A parser that knows three texts. *)
Definition toy_loads (s : string) : option (@pyval pyfloat) :=
  if (s =? "empty")%string then
    Some (PDict [("salary", PInt 0); ("transactions", PList [])])
  else if (s =? "one")%string then
    Some (PDict [("salary", PFloat (7 : @float pyfloat));
                 ("transactions",
                  PList [PDict [("date", PStr "d01110"); ("amount", PInt 50);
                                ("category", PStr "Needs");
                                ("description", PStr "rent")]])])
  else if (s =? "[]")%string then Some (PList [])
  else None.

Definition runtime : @Runtime pyfloat := {|
  json_loads := toy_loads;
  strptime_date := fun s =>
    match s with
    | String "d" r => match take_Z r with Some (d, EmptyString) => Some d | _ => None end
    | _ => None
    end;
  sqlite_text_of_int := fun n => put_Z n "";
  sqlite_text_of_real := fun x => put_Z x ""
|}.

#[local] Existing Instances bcrypt fernet jwt pyfloat environment runtime.

Definition empty_world : world :=
  {| users := []; sessions := []; salary := []; transactions := [];
     key_file := None; draws := 0 |}.

Definition auth : AuthManager := fst (AuthManager_init None empty_world).

(** alice registers with password "pw" and the answer "Rex". *)
Definition registered : world :=
  snd (create_user auth "alice" "pw" "a@x" "pet" "Rex"
         (snd (AuthManager_init None empty_world))).

Definition alice : Users.row :=
  match fetch_user "alice" registered with
  | Some u => u
  | None => {| Users.id := 0; Users.username := ""; Users.password_hash := [];
               Users.email := ""; Users.security_question := "";
               Users.security_answer_hash := []; Users.created_at := 0;
               Users.last_login := None; Users.failed_attempts := 0;
               Users.locked_until := None |}
  end.

(** A ledger bound to alice, and her ledger after one transaction. *)
Definition db : BudgetDatabase := {| user_id := Some 1; auth_manager := auth |}.

Definition ledger : world :=
  snd (add_transaction db 3 (50 : @float pyfloat) (PStr "Needs")
         (Some (PStr "rent")) registered).

(** An instance with another key and another secret. *)
Definition stranger : AuthManager :=
  {| encryption_key := ("007"%byte : @key fernet); jwt_secret := "other" |}.

End Toy.

(** ** The rest of database.py and the handlers of app.py *)

(** [x + y] on floats. *)
Class PyFloatAdd `{PyFloat} := {
  float_add : float -> float -> float
}.

(** [json.dumps] of a value without bytes, [str(n)] of an integer,
    [strftime('%Y%m%d_%H%M%S')], [os.path.join], and the texts SQLite
    returns for a DATE and a TIMESTAMP column. *)
Class Formatting `{PyFloat} := {
  json_dumps : pyval -> string;
  str_of_int : Z -> string;
  strftime_stamp : Z -> string;
  path_join : string -> string -> string;
  date_text : date -> string;
  timestamp_text : Z -> string
}.

(** One entry of [list_backups]. *)
Record backup := {
  filename : string;
  path : string;
  created_at : Z
}.

(** [st.session_state] of app.py. *)
Record session_state := {
  authenticated : bool;
  state_user_id : option Z;
  state_token : option string
}.

Section Extensions.

Context {BC : Bcrypt} {FN : Fernet} {JW : JWT} {PF : PyFloat}
        {EN : Environment} {RT : Runtime} {FA : PyFloatAdd} {FM : Formatting}.

(** [totals[k] = v] on a dict kept in insertion order *)
Fixpoint dict_set (k : string) (v : float) (d : list (string * float))
  : list (string * float) :=
  match d with
  | [] => [(k, v)]
  | (k', v') :: rest =>
      if (k' =? k)%string then (k, v) :: rest else (k', v') :: dict_set k v rest
  end.

(** [totals.get(k)] *)
Definition dict_get (k : string) (d : list (string * float)) : option float :=
  match find (fun kv => (fst kv =? k)%string) d with
  | Some kv => Some (snd kv)
  | None => None
  end.

(** The body of the loop of [get_category_totals]:
    [totals[category] = totals.get(category, 0) + amount]; the integer
    [0] is converted to [0.0] by the addition. *)
Definition add_to_totals (totals : list (string * float)) (trans : transaction)
  : list (string * float) :=
  let category := Transactions.category (row trans) in
  let amount := amount trans in
  dict_set category
    (float_add (match dict_get category totals with
                | Some x => x
                | None => float_zero
                end) amount)
    totals.

Definition get_category_totals (self : BudgetDatabase)
    (start_date end_date : option date) : M world (list (string * float)) :=
  _ <- require_user self ;;
  transactions <- get_transactions self start_date end_date ;;
  ret (fold_left add_to_totals transactions []).

(** [dict(trans)] with the two added keys: the values [json.dumps] will
    meet, the two BLOB columns as bytes. *)
Definition transaction_dict (t : transaction) : list (string * (pyval + bytes)) :=
  [ ("id", inl (PInt (Transactions.id (row t))));
    ("user_id", inl (PInt (Transactions.user_id (row t))));
    ("date", inl (PStr (date_text (Transactions.date (row t)))));
    ("amount_encrypted", inr (Transactions.amount_encrypted (row t)));
    ("category", inl (PStr (Transactions.category (row t))));
    ("description_encrypted",
     match Transactions.description_encrypted (row t) with
     | Some c => inr c
     | None => inl PNone
     end);
    ("created_at", inl (PStr (timestamp_text (Transactions.created_at (row t)))));
    ("amount", inl (PFloat (amount t)));
    ("description", inl (PStr (description t))) ].

(** The encoder of [json.dumps] walking a dict: bytes are not
    serializable. *)
Fixpoint serializable (d : list (string * (pyval + bytes)))
  : result (list (string * pyval)) :=
  match d with
  | [] => Ok []
  | (k, inl v) :: rest =>
      match serializable rest with
      | Ok rest' => Ok ((k, v) :: rest')
      | Raise e => Raise e
      end
  | (_, inr _) :: _ => Raise TypeError
  end.

Fixpoint serializable_all (ts : list transaction) : result (list pyval) :=
  match ts with
  | [] => Ok []
  | t :: rest =>
      match serializable (transaction_dict t) with
      | Ok d =>
          match serializable_all rest with
          | Ok ds => Ok (PDict d :: ds)
          | Raise e => Raise e
          end
      | Raise e => Raise e
      end
  end.

(** [json.dumps({'salary': salary, 'transactions': transactions})] *)
Definition dumps_backup (salary : float) (transactions : list transaction)
  : result string :=
  match serializable_all transactions with
  | Ok ds => Ok (json_dumps (PDict [("salary", PFloat salary);
                                    ("transactions", PList ds)]))
  | Raise e => Raise e
  end.

(** [export_database(backup_name=None)]. [now] is [datetime.now()]; the
    result is the path returned and the bytes written there. *)
Definition export_database (self : BudgetDatabase) (backup_name : option string)
    (now : Z) : M world (string * bytes) :=
  uid <- require_user self ;;
  let backup_name :=
    match backup_name with
    | Some n => n
    | None => ("budget_backup_" ++ str_of_int uid ++ "_"
               ++ strftime_stamp now ++ ".db")%string
    end in
  let backup_path := path_join "backups" backup_name in
  salary <- get_salary self ;;
  transactions <- get_transactions self None None ;;
  text <- lift (dumps_backup salary transactions) ;;
  encrypted_data <- encrypt self text ;;
  ret (backup_path, encrypted_data).

(** [sorted(backups, key=created_at, reverse=True)]: newest first,
    files of equal time in the order they were listed. *)
Fixpoint insert_newest (b : backup) (sorted : list backup) : list backup :=
  match sorted with
  | [] => [b]
  | b' :: rest =>
      if created_at b' <=? created_at b
      then b :: b' :: rest
      else b' :: insert_newest b rest
  end.

Definition newest_first (backups : list backup) : list backup :=
  fold_right insert_newest [] backups.

(** [list_backups]. [listing] is [os.listdir(self.backup_dir)] with the
    modification time of each file. *)
Definition list_backups (self : BudgetDatabase) (listing : list (string * Z))
  : M world (list backup) :=
  uid <- require_user self ;;
  let mine :=
    filter (fun f => String.prefix ("budget_backup_" ++ str_of_int uid ++ "_")%string
                                   (fst f)) listing in
  ret (newest_first
         (map (fun f => {| filename := fst f;
                           path := path_join "backups" (fst f);
                           created_at := snd f |}) mine)).

(** app.py, the Login button. The result is the message shown and the
    session state. *)
Definition login_submit (auth : AuthManager) (username password : string)
    (now utcnow : Z) (state : session_state) (w : world)
  : (string * session_state) * world :=
  let '((success, result), w') := login auth username password now utcnow w in
  if success then
    let '(valid, payload) := verify_token auth result utcnow w' in
    ("Login successful!",
     {| authenticated := true;
        state_user_id :=
          match valid, payload with
          | true, Payload c => Some (claim_user_id c)
          | _, _ => state_user_id state
          end;
        state_token := Some result |},
     w')
  else (result, state, w').

(** app.py, the Register button. *)
Definition register_submit (auth : AuthManager)
    (new_username new_password confirm_password email
     security_question security_answer : string) (w : world) : string * world :=
  if negb (new_password =? confirm_password)%string
  then ("Passwords do not match!", w)
  else if (String.length new_password <? 8)%nat
  then ("Password must be at least 8 characters long!", w)
  else
    let '(created, w') :=
      create_user auth new_username new_password email
                  security_question security_answer w in
    if created
    then ("Registration successful! Please login.", w')
    else ("Username or email already exists!", w').

(** app.py, the Reset Password button. *)
Definition reset_submit (auth : AuthManager)
    (reset_username security_answer new_password confirm_new_password : string)
    (w : world) : string * world :=
  if negb (new_password =? confirm_new_password)%string
  then ("Passwords do not match!", w)
  else if (String.length new_password <? 8)%nat
  then ("Password must be at least 8 characters long!", w)
  else
    let '(changed, w') :=
      reset_password auth reset_username security_answer new_password w in
    if changed
    then ("Password reset successful! Please login.", w')
    else ("Invalid username or security answer!", w').

(** app.py, [get_date_range]. [today] is the day of [datetime.now()]. *)
Definition get_date_range (period : string) (today : date) : date * date :=
  let start_date :=
    if (period =? "Weekly")%string then today - 7
    else if (period =? "Monthly")%string then today - 30
    else today - 365 in
  (start_date, today).

(** app.py, the Reports page: the transactions it lists. *)
Definition report_transactions (db : BudgetDatabase) (report_period : string)
    (today : date) : M world (list transaction) :=
  let '(start_date, end_date) := get_date_range report_period today in
  get_transactions db (Some start_date) (Some end_date).

(** ** Predicates of the statements below *)

(** Ids, usernames and emails of the users table are pairwise distinct
    and the ids are positive: what PRIMARY KEY and UNIQUE stand for. *)
Definition unique_users (w : world) : Prop :=
  NoDup (map Users.id (users w))
  /\ NoDup (map Users.username (users w))
  /\ NoDup (map Users.email (users w))
  /\ Forall (fun u => 0 < Users.id u) (users w).

(** A salary row whose amount is a ciphertext under [k]. *)
Definition sealed_salary (k : key) (r : Salary.row) : Prop :=
  exists n x, Salary.amount_encrypted r = fernet_encrypt k n (encode (float_str x)).

(** The rows of the two ledger tables that belong to other users, and
    the two tables of the authentication database. *)
Definition others (uid : Z) (w : world)
  : list Salary.row * list Transactions.row * list Users.row * list Sessions.row :=
  (filter (fun r => negb (Salary.user_id r =? uid)) (salary w),
   filter (fun t => negb (Transactions.user_id t =? uid)) (transactions w),
   users w, sessions w).

(** What an entry of [get_transactions] shows: date, amount, category,
    description. *)
Definition shown (t : transaction) : date * float * string * string :=
  (Transactions.date (row t), amount t, Transactions.category (row t), description t).

(** What a row shows once its two ciphertexts are decrypted under the
    key of [self]; [0.0] and the empty text stand in where that fails. *)
Definition columns (self : BudgetDatabase) (r : Transactions.row)
  : date * float * string * string :=
  (Transactions.date r,
   match decrypt_data (auth_manager self) (Transactions.amount_encrypted r) with
   | Ok text => match float_of_string text with Some x => x | None => float_zero end
   | Raise _ => float_zero
   end,
   Transactions.category r,
   match Transactions.description_encrypted r with
   | Some c => match decrypt_data (auth_manager self) c with
               | Ok text => text
               | Raise _ => ""
               end
   | None => ""
   end).

(** An element of a snapshot's transaction list that [import_database]
    reads as the date [d], the amount [a], the category [c] and the
    description [s]. *)
Definition reads_as (trans : pyval) (e : date * float * string * string) : Prop :=
  let '(d, a, c, s) := e in
  exists dv av cv,
    getitem trans "date" = Ok dv /\ parse_date dv = Ok d
    /\ getitem trans "amount" = Ok av /\ to_float av = Ok a
    /\ getitem trans "category" = Ok cv /\ bind_category cv = Ok c
    /\ getitem trans "description" = Ok (PStr s).

(** A row of [uid] that stores [e] under [k]. *)
Definition stores (k : key) (uid : Z) (t : Transactions.row)
    (e : date * float * string * string) : Prop :=
  let '(d, a, c, s) := e in
  Transactions.user_id t = uid
  /\ Transactions.date t = d
  /\ Transactions.category t = c
  /\ (exists n, Transactions.amount_encrypted t
                = fernet_encrypt k n (encode (float_str a)))
  /\ (exists n, Transactions.description_encrypted t
                = Some (fernet_encrypt k n (encode s))).

(** The sum [get_category_totals] reports for [c]: the amounts of the
    entries of that category, added in the order listed, from [0.0]. *)
Definition category_sum (c : string) (l : list transaction) : float :=
  fold_left (fun acc t =>
               if (Transactions.category (row t) =? c)%string
               then float_add acc (amount t) else acc) l float_zero.

Definition newer_first (a b : backup) : Prop := created_at b <= created_at a.

End Extensions.

(** A second concrete instance, for addition and formatting, whose
    parser reads back what its printer prints for an empty ledger. *)
Module Toy2.

Definition pyfloat_add : @PyFloatAdd Toy.pyfloat :=
  {| float_add := (Z.add : @float Toy.pyfloat -> @float Toy.pyfloat
                           -> @float Toy.pyfloat) |}.

Definition toy_dumps (v : @pyval Toy.pyfloat) : string :=
  match v with
  | PDict [(_, PFloat s); (_, PList [])] => String "S" (Toy.put_Z s "")
  | _ => "?"
  end.

Definition toy_loads (s : string) : option (@pyval Toy.pyfloat) :=
  match s with
  | String "S" r =>
      match Toy.take_Z r with
      | Some (x, EmptyString) =>
          Some (PDict [("salary", PFloat (x : @float Toy.pyfloat));
                       ("transactions", PList [])])
      | _ => None
      end
  | _ => Toy.toy_loads s
  end.

Definition formatting : @Formatting Toy.pyfloat := {|
  json_dumps := toy_dumps;
  str_of_int := fun n => Toy.put_Z n "";
  strftime_stamp := fun t => Toy.put_Z t "";
  path_join := fun a b => (a ++ "/" ++ b)%string;
  date_text := fun d => Toy.put_Z d "";
  timestamp_text := fun t => Toy.put_Z t ""
|}.

Definition runtime : @Runtime Toy.pyfloat := {|
  json_loads := toy_loads;
  strptime_date := @strptime_date Toy.pyfloat Toy.runtime;
  sqlite_text_of_int := @sqlite_text_of_int Toy.pyfloat Toy.runtime;
  sqlite_text_of_real := @sqlite_text_of_real Toy.pyfloat Toy.runtime
|}.

#[local] Existing Instances Toy.bcrypt Toy.fernet Toy.jwt Toy.pyfloat
  Toy.environment Toy.runtime pyfloat_add formatting.

(** alice after five wrong passwords, the fifth at instant 10. *)
Definition locked : world :=
  snd (login_attempts Toy.auth "alice"
         [("a", 1, 1); ("b", 2, 2); ("c", 3, 3); ("d", 4, 4); ("e", 10, 10)]
         Toy.registered).

Definition alice_locked : Users.row :=
  match fetch_user "alice" locked with
  | Some u => u
  | None => Toy.alice
  end.

(** An instant whose day-later expiry falls in second 2, and one five
    microseconds later. *)
Definition early : Z := 2 * second - hours 24.

Definition early' : Z := 2 * second + 5 - hours 24.

(** A ledger that is bound to nobody, and alice's ledger opened with the
    stranger's key. *)
Definition nobody : BudgetDatabase := {| user_id := None; auth_manager := Toy.auth |}.

Definition rekeyed : BudgetDatabase :=
  {| user_id := Some 1; auth_manager := Toy.stranger |}.

(** The row of alice's one transaction. *)
Definition rent_row : Transactions.row :=
  match transactions Toy.ledger with
  | t :: _ => t
  | [] => {| Transactions.id := 0; Transactions.user_id := 0; Transactions.date := 0;
             Transactions.amount_encrypted := []; Transactions.category := "";
             Transactions.description_encrypted := None;
             Transactions.created_at := 0 |}
  end.

(** alice's ledger with a salary of 7 and no transaction. *)
Definition salaried : world :=
  snd (update_salary Toy.db (7 : @float Toy.pyfloat) Toy.registered).

End Toy2.

(** * Properties *)

(** ** Text *)

Lemma decode_utf8_char (c : ascii) (rest : bytes) :
  decode (utf8_char c ++ rest) = option_map (String c) (decode rest).
Proof.
  destruct c as [[] [] [] [] [] [] [] []]; reflexivity.
Qed.

Lemma decode_encode (s : string) : decode (encode s) = Some s.
Proof.
  induction s as [|c s IH]; simpl.
  - reflexivity.
  - rewrite decode_utf8_char, IH. reflexivity.
Qed.

Lemma lower_idempotent (s : string) : lower (lower s) = lower s.
Proof.
  induction s as [|c s IH]; simpl.
  - reflexivity.
  - rewrite IH. f_equal.
    destruct c as [[] [] [] [] [] [] [] []]; reflexivity.
Qed.

(** ** Rows found after an update *)

Lemma find_map_preserving {A} (p : A -> bool) (f : A -> A) (l : list A) :
  (forall a, p (f a) = p a) ->
  find p (map f l) = option_map f (find p l).
Proof.
  intros Hp. induction l as [|a l IH]; simpl.
  - reflexivity.
  - rewrite Hp. destruct (p a); [reflexivity | exact IH].
Qed.

Section Lockout.

Context {BC : Bcrypt} {FN : Fernet} {JW : JWT} {PF : PyFloat}
        {EN : Environment} {RT : Runtime}.

Lemma fetch_user_update_users (name : string) (f : Users.row -> Users.row)
    (u : Users.row) (w : world) :
  (forall r, Users.username (f r) = Users.username r) ->
  fetch_user name w = Some u ->
  fetch_user name (update_users (Users.id u) f w) = Some (f u).
Proof.
  intros Hf Hu. unfold fetch_user, update_users in *. simpl.
  rewrite find_map_preserving.
  - rewrite Hu. simpl. rewrite Z.eqb_refl. reflexivity.
  - intros r. destruct (Users.id r =? Users.id u); [rewrite Hf|]; reflexivity.
Qed.

Lemma login_unknown self name password now utcnow w :
  fetch_user name w = None ->
  login self name password now utcnow w = (invalid_credentials, w).
Proof. intros H. unfold login. rewrite H. reflexivity. Qed.

Lemma login_locked self name password now utcnow w u :
  fetch_user name w = Some u ->
  is_locked u now = true ->
  login self name password now utcnow w = (account_locked, w).
Proof. intros H L. unfold login. rewrite H, L. reflexivity. Qed.

Lemma login_wrong_password self name password now utcnow w u :
  fetch_user name w = Some u ->
  is_locked u now = false ->
  verify_password password (Users.password_hash u) = false ->
  login self name password now utcnow w
  = (invalid_credentials,
     update_users (Users.id u)
       (set_lockout (Users.failed_attempts u + 1)
          (if 5 <=? Users.failed_attempts u + 1
           then Some (now + minutes 30) else None)) w).
Proof. intros H L V. unfold login. rewrite H, L, V. reflexivity. Qed.

Lemma login_right_password self name password now utcnow w u :
  fetch_user name w = Some u ->
  is_locked u now = false ->
  verify_password password (Users.password_hash u) = true ->
  exists token w',
    login self name password now utcnow w = ((true, token), w')
    /\ fetch_user name w' = Some (set_success now u)
    /\ token = jwt_encode {| claim_user_id := Users.id u;
                             claim_username := Users.username u;
                             claim_exp := (utcnow + hours 24) / second |}
                          (jwt_secret self)
    /\ sessions w' = sessions w ++
         [ {| Sessions.id := next_id Sessions.id (sessions w);
              Sessions.user_id := Users.id u;
              Sessions.token := token;
              Sessions.expires_at := utcnow + hours 24 |} ].
Proof.
  intros H L V. unfold login. rewrite H, L, V. simpl.
  eexists _, _. split; [reflexivity|]. split; [|split; reflexivity].
  apply (fetch_user_update_users name (set_success now) u w); auto.
Qed.

Lemma login_attempts_app self name xs ys w :
  login_attempts self name (xs ++ ys) w
  = (fst (login_attempts self name xs w)
       ++ fst (login_attempts self name ys (snd (login_attempts self name xs w))),
     snd (login_attempts self name ys (snd (login_attempts self name xs w)))).
Proof.
  revert w. induction xs as [|[[p t] t'] xs IH]; intros w; simpl.
  - destruct (login_attempts self name ys w); reflexivity.
  - destruct (login self name p t t' w) as [r w1]. rewrite IH.
    destruct (login_attempts self name xs w1) as [rs w2]. simpl.
    reflexivity.
Qed.

(** Fewer than five failures in a row count up and lock nothing. *)
Lemma failures_below_five self name attempts : forall w u,
  fetch_user name w = Some u ->
  Users.locked_until u = None ->
  Users.failed_attempts u + Z.of_nat (List.length attempts) < 5 ->
  Forall (wrong u) attempts ->
  Forall (eq invalid_credentials) (fst (login_attempts self name attempts w))
  /\ exists u',
       fetch_user name (snd (login_attempts self name attempts w)) = Some u'
       /\ Users.failed_attempts u'
          = Users.failed_attempts u + Z.of_nat (List.length attempts)
       /\ Users.locked_until u' = None
       /\ Users.password_hash u' = Users.password_hash u.
Proof.
  induction attempts as [|[[p t] t'] rest IH]; intros w u Hu Hl Hn Hw.
  - simpl. split; [constructor|]. exists u. repeat split; auto. lia.
  - inversion Hw as [|a l Hp Hrest]; subst. unfold wrong in Hp; simpl in Hp.
    assert (L : is_locked u t = false) by (unfold is_locked; rewrite Hl; reflexivity).
    cbn [login_attempts].
    rewrite (login_wrong_password self name p t t' w u Hu L Hp).
    simpl List.length in Hn. rewrite Nat2Z.inj_succ in Hn.
    replace (5 <=? Users.failed_attempts u + 1) with false
      by (symmetry; apply Z.leb_gt; lia).
    set (u1 := set_lockout (Users.failed_attempts u + 1) None u).
    set (w1 := update_users (Users.id u) _ w).
    assert (Hu1 : fetch_user name w1 = Some u1)
      by (apply fetch_user_update_users; auto).
    destruct (IH w1 u1 Hu1) as [Hres [u' [Hf [Hfa [Hlu Hph]]]]]; auto.
    + unfold u1. simpl Users.failed_attempts. lia.
    + destruct (login_attempts self name rest w1) as [rs w2] eqn:E.
      cbn [fst snd] in *.
      split; [constructor; auto|].
      exists u'. repeat split; auto. rewrite Hfa.
      unfold u1. simpl Users.failed_attempts. simpl List.length.
      rewrite Nat2Z.inj_succ. lia.
Qed.

(** C1. Five wrong passwords in a row, counted from zero, answer
    "Invalid username or password" each time and leave the row with
    [failed_attempts = 5] and [locked_until] thirty minutes after the
    fifth. Until then every [login], whatever the password, answers
    "Account is locked" and changes nothing; from then on the right
    password logs in and puts the row back to [0] and [NULL]. *)
Theorem five_failures_lock_for_thirty_minutes
    self name w u earlier p5 t5 t5' :
  fetch_user name w = Some u ->
  Users.failed_attempts u = 0 ->
  Users.locked_until u = None ->
  List.length earlier = 4%nat ->
  Forall (wrong u) (earlier ++ [(p5, t5, t5')]) ->
  let run := login_attempts self name (earlier ++ [(p5, t5, t5')]) w in
  Forall (eq invalid_credentials) (fst run)
  /\ (exists u5,
        fetch_user name (snd run) = Some u5
        /\ Users.failed_attempts u5 = 5
        /\ Users.locked_until u5 = Some (t5 + minutes 30))
  /\ (forall p now utcnow,
        now < t5 + minutes 30 ->
        login self name p now utcnow (snd run) = (account_locked, snd run))
  /\ (forall p now utcnow,
        t5 + minutes 30 <= now ->
        verify_password p (Users.password_hash u) = true ->
        exists token w6 u6,
          login self name p now utcnow (snd run) = ((true, token), w6)
          /\ fetch_user name w6 = Some u6
          /\ Users.failed_attempts u6 = 0
          /\ Users.locked_until u6 = None).
Proof.
  intros Hu Hfa Hlu Hlen Hw run.
  apply Forall_app in Hw. destruct Hw as [Hearly Hlast].
  inversion Hlast as [|a l Hp5 _]; subst a l. unfold wrong in Hp5; simpl in Hp5.
  destruct (failures_below_five self name earlier w u Hu Hlu) as [Hres [u4 [Hu4 [Hfa4 [Hlu4 Hph4]]]]];
    [rewrite Hfa, Hlen; reflexivity | exact Hearly |].
  rewrite Hfa, Hlen in Hfa4. simpl in Hfa4.
  set (w4 := snd (login_attempts self name earlier w)) in *.
  assert (L4 : is_locked u4 t5 = false)
    by (unfold is_locked; rewrite Hlu4; reflexivity).
  rewrite <- Hph4 in Hp5.
  pose proof (login_wrong_password self name p5 t5 t5' w4 u4 Hu4 L4 Hp5) as Hstep.
  rewrite Hfa4 in Hstep. simpl (5 <=? 4 + 1) in Hstep. cbv iota in Hstep.
  set (u5 := set_lockout (4 + 1) (Some (t5 + minutes 30)) u4) in *.
  set (w5 := update_users (Users.id u4) (set_lockout (4 + 1) (Some (t5 + minutes 30))) w4) in *.
  assert (Hrun : run = (fst (login_attempts self name earlier w) ++ [invalid_credentials], w5)).
  { unfold run. rewrite login_attempts_app. fold w4.
    cbn [login_attempts]. rewrite Hstep. reflexivity. }
  assert (Hu5 : fetch_user name w5 = Some u5)
    by (apply fetch_user_update_users; auto).
  rewrite Hrun. cbn [fst snd].
  split; [apply Forall_app; split; [exact Hres | repeat constructor]|].
  split; [exists u5; repeat split; auto|].
  split.
  - intros p now utcnow Hnow.
    apply (login_locked self name p now utcnow w5 u5 Hu5).
    unfold is_locked, u5. simpl. apply Z.ltb_lt. exact Hnow.
  - intros p now utcnow Hnow Hp.
    assert (L5 : is_locked u5 now = false)
      by (unfold is_locked, u5; simpl; apply Z.ltb_ge; exact Hnow).
    assert (Hp' : verify_password p (Users.password_hash u5) = true)
      by (unfold u5; simpl; rewrite Hph4; exact Hp).
    destruct (login_right_password self name p now utcnow w5 u5 Hu5 L5 Hp')
      as [token [w6 [Hlogin [Hu6 _]]]].
    exists token, w6, (set_success now u5). repeat split; auto.
Qed.

(** C8. An unknown username and a known, unlocked username with a wrong
    password get the very same answer from [login]; a locked account gets
    a different one. *)
Theorem login_hides_unknown_usernames
    self w unknown known u password password' now utcnow :
  fetch_user unknown w = None ->
  fetch_user known w = Some u ->
  is_locked u now = false ->
  verify_password password' (Users.password_hash u) = false ->
  fst (login self unknown password now utcnow w) = invalid_credentials
  /\ fst (login self known password' now utcnow w)
     = fst (login self unknown password now utcnow w)
  /\ (forall locked v p t t',
        fetch_user locked w = Some v ->
        is_locked v t = true ->
        fst (login self locked p t t' w) = account_locked
        /\ account_locked <> invalid_credentials).
Proof.
  intros Hn Hk L V.
  rewrite (login_unknown self unknown password now utcnow w Hn).
  rewrite (login_wrong_password self known password' now utcnow w u Hk L V).
  cbn [fst]. repeat split.
  - rewrite (login_locked self locked p t t' w v); auto.
  - discriminate.
Qed.

End Lockout.

(** ** Finding rows in a table that grew or shrank *)

Lemma find_app_none {A} (p : A -> bool) (l l' : list A) :
  find p l = None -> find p (l ++ l') = find p l'.
Proof.
  induction l as [|a l IH]; simpl; [reflexivity|].
  destruct (p a); [discriminate | exact IH].
Qed.

Lemma find_app_last {A} (p : A -> bool) (l : list A) (x : A) :
  p x = true -> exists y, find p (l ++ [x]) = Some y.
Proof.
  intros Hx. induction l as [|a l IH]; simpl.
  - rewrite Hx. eauto.
  - destruct (p a); eauto.
Qed.

Lemma find_filter_none {A} (p q : A -> bool) (l : list A) :
  (forall a, q a = true -> p a = false) ->
  find p (filter q l) = None.
Proof.
  intros H. induction l as [|a l IH]; simpl; [reflexivity|].
  destruct (q a) eqn:Q; [simpl; rewrite (H a Q)|]; exact IH.
Qed.

Lemma existsb_false_find {A} (p q : A -> bool) (l : list A) :
  (forall a, q a = true -> p a = true) ->
  existsb p l = false -> find q l = None.
Proof.
  intros H. induction l as [|a l IH]; simpl; [reflexivity|].
  intros E. apply orb_false_iff in E. destruct E as [Ea El].
  destruct (q a) eqn:Q; [rewrite (H a Q) in Ea; discriminate | auto].
Qed.

Section Password.

Context {BC : Bcrypt} {FN : Fernet} {JW : JWT} {PF : PyFloat}
        {EN : Environment} {RT : Runtime}.

(** What [create_user] leaves in the table when it returns [True]. *)
Lemma create_user_registers self name password email question answer w w' :
  create_user self name password email question answer w = (true, w') ->
  exists u,
    fetch_user name w' = Some u
    /\ Users.password_hash u = hashpw (encode password) (gensalt (draws w))
    /\ Users.security_answer_hash u
       = hashpw (encode (lower answer)) (gensalt (S (draws w)))
    /\ Users.failed_attempts u = 0
    /\ Users.locked_until u = None.
Proof.
  unfold create_user, hash_password. cbn [draws drawn users].
  destruct (existsb _ (users w)) eqn:E; intros H; inversion H; subst w'; clear H.
  eexists. split.
  - unfold fetch_user. cbn [users set_users].
    rewrite find_app_none.
    + simpl. rewrite String.eqb_refl. reflexivity.
    + apply (existsb_false_find _ _ _ (fun a Q => orb_true_intro _ _ (or_introl Q)) E).
  - repeat split; reflexivity.
Qed.

Lemma lockout_state_set_password_hash uid h w :
  lockout_state (update_users uid (set_password_hash h) w) = lockout_state w.
Proof.
  unfold lockout_state, update_users. cbn [users set_users].
  rewrite map_map. apply map_ext. intros r.
  destruct (Users.id r =? uid); reflexivity.
Qed.

(** C6. [reset_password] takes the username, the answer and the new
    password, and no current password. An answer that lower-cases to the
    registered one is accepted and the new password then verifies; an
    answer that does not verify, or an unknown username, returns [False]
    and leaves the whole world as it was, so every [login] answers as
    before; no call changes [failed_attempts] or [locked_until] of any
    row. *)
Theorem reset_password_checks_the_answer_without_case
    (BL : BcryptLaws) self name w :
  (forall u registered s answer new_password,
      fetch_user name w = Some u ->
      Users.security_answer_hash u = hashpw (encode (lower registered)) s ->
      lower answer = lower registered ->
      exists w' u',
        reset_password self name answer new_password w = (true, w')
        /\ fetch_user name w' = Some u'
        /\ verify_password new_password (Users.password_hash u') = true
        /\ Users.failed_attempts u' = Users.failed_attempts u
        /\ Users.locked_until u' = Users.locked_until u)
  /\ (forall u answer new_password,
        fetch_user name w = Some u ->
        verify_password (lower answer) (Users.security_answer_hash u) = false ->
        reset_password self name answer new_password w = (false, w)
        /\ forall p now utcnow,
             login self name p now utcnow
                   (snd (reset_password self name answer new_password w))
             = login self name p now utcnow w)
  /\ (forall answer new_password,
        fetch_user name w = None ->
        reset_password self name answer new_password w = (false, w))
  /\ (forall answer new_password,
        lockout_state (snd (reset_password self name answer new_password w))
        = lockout_state w).
Proof.
  repeat split.
  - intros u registered s answer new_password Hu Hreg Hcase.
    unfold reset_password, verify_password. rewrite Hu, Hreg, Hcase.
    rewrite checkpw_hashpw. cbn [negb hash_password].
    eexists _, _. split; [reflexivity|].
    split; [apply fetch_user_update_users; [reflexivity|exact Hu]|].
    cbn. repeat split. apply checkpw_hashpw.
  - unfold reset_password. rewrite H, H0. reflexivity.
  - intros p now utcnow. unfold reset_password. rewrite H, H0. reflexivity.
  - intros answer new_password Hn. unfold reset_password. rewrite Hn. reflexivity.
  - intros answer new_password. unfold reset_password.
    destruct (fetch_user name w) as [u|]; [|reflexivity].
    destruct (negb _); [reflexivity|].
    cbn [hash_password snd].
    rewrite lockout_state_set_password_hash. reflexivity.
Qed.

End Password.

Section Sessions.

Context {BC : Bcrypt} {FN : Fernet} {JW : JWT} {PF : PyFloat}
        {EN : Environment} {RT : Runtime}.

(** A successful [login] went through the last branch. *)
Lemma login_success_inv self name password now utcnow w token w' :
  login self name password now utcnow w = ((true, token), w') ->
  exists u,
    fetch_user name w = Some u
    /\ token = jwt_encode {| claim_user_id := Users.id u;
                             claim_username := Users.username u;
                             claim_exp := (utcnow + hours 24) / second |}
                          (jwt_secret self)
    /\ sessions w' = sessions w ++
         [ {| Sessions.id := next_id Sessions.id (sessions w);
              Sessions.user_id := Users.id u;
              Sessions.token := token;
              Sessions.expires_at := utcnow + hours 24 |} ].
Proof.
  unfold login. destruct (fetch_user name w) as [u|]; [|discriminate].
  destruct (is_locked u now); [discriminate|].
  destruct (negb _); [discriminate|].
  intros H. inversion H; subst. exists u. repeat split.
Qed.

(** The signed expiry, in whole seconds, lies after the issuing instant
    and not after the expiry of the row. *)
Lemma exp_bounds (utcnow : Z) :
  utcnow < (utcnow + hours 24) / second * second
  /\ (utcnow + hours 24) / second * second <= utcnow + hours 24.
Proof.
  pose proof (Z.div_mod (utcnow + hours 24) second) as D.
  pose proof (Z.mod_pos_bound (utcnow + hours 24) second) as B.
  unfold hours, second in *. lia.
Qed.

Lemma fetch_session_in token t w s :
  fetch_session token t w = Some s ->
  In s (sessions w) /\ Sessions.token s = token /\ t < Sessions.expires_at s.
Proof.
  unfold fetch_session. intros H. apply find_some in H.
  destruct H as [Hin Hp]. apply andb_true_iff in Hp. destruct Hp as [Ht He].
  repeat split; [exact Hin | apply String.eqb_eq; exact Ht | apply Z.ltb_lt; exact He].
Qed.

Lemma fetch_session_logout self token t w :
  fetch_session token t (snd (logout self token w)) = None.
Proof.
  unfold fetch_session, logout. cbn [snd sessions set_sessions].
  apply find_filter_none. intros s Q.
  apply negb_true_iff in Q. rewrite Q. reflexivity.
Qed.

(** C2. [verify_token] returns [True] only for a token that decodes
    under the instance's secret and has a row with that token and a later
    [expires_at]; a token that does not decode is answered "Invalid
    token". A token that [login] returned verifies at the instant it was
    issued and until its signed expiry; from the signed expiry on it is
    answered "Token has expired"; and once [logout] has deleted its row
    it is answered [(False, None)] although it has not expired. *)
Theorem verify_token_needs_signature_and_row (JL : JWTLaws) self :
  (forall token t w info,
      verify_token self token t w = (true, info) ->
      exists c s,
        jwt_decode token (jwt_secret self) t = JwtPayload c
        /\ info = Payload c
        /\ In s (sessions w)
        /\ Sessions.token s = token
        /\ t < Sessions.expires_at s)
  /\ (forall token t w,
        jwt_decode token (jwt_secret self) t = InvalidTokenError ->
        verify_token self token t w = (false, Message "Invalid token"))
  /\ (forall name password now utcnow w token w',
        login self name password now utcnow w = ((true, token), w') ->
        exists c,
          claim_exp c = (utcnow + hours 24) / second
          /\ verify_token self token utcnow w' = (true, Payload c)
          /\ (forall t, t < claim_exp c * second ->
                verify_token self token t w' = (true, Payload c))
          /\ (forall t w'', claim_exp c * second <= t ->
                verify_token self token t w'' = (false, Message "Token has expired"))
          /\ (forall t w'', t < claim_exp c * second ->
                verify_token self token t (snd (logout self token w''))
                = (false, NoInfo))).
Proof.
  split; [|split].
  - intros token t w info. unfold verify_token.
    destruct (jwt_decode token (jwt_secret self) t) as [c| |]; try discriminate.
    destruct (fetch_session token t w) as [s|] eqn:F; [|discriminate].
    intros H. inversion H; subst info.
    apply fetch_session_in in F. destruct F as [Hin [Ht He]].
    exists c, s. repeat split; assumption.
  - intros token t w H. unfold verify_token. rewrite H. reflexivity.
  - intros name password now utcnow w token w' Hlogin.
    apply login_success_inv in Hlogin.
    destruct Hlogin as [u [Hu [Htok Hsess]]].
    set (c := {| claim_user_id := Users.id u;
                 claim_username := Users.username u;
                 claim_exp := (utcnow + hours 24) / second |}) in *.
    destruct (exp_bounds utcnow) as [Hlo Hhi].
    assert (Fresh : forall t, t < claim_exp c * second ->
                    verify_token self token t w' = (true, Payload c)).
    { intros t Ht. unfold verify_token. rewrite Htok, jwt_decode_encode.
      replace (claim_exp c * second <=? t) with false
        by (symmetry; apply Z.leb_gt; exact Ht).
      rewrite <- Htok. unfold fetch_session. rewrite Hsess.
      destruct (find_app_last
                  (fun s => (Sessions.token s =? token)%string
                            && (t <? Sessions.expires_at s))
                  (sessions w)
                  {| Sessions.id := next_id Sessions.id (sessions w);
                     Sessions.user_id := Users.id u;
                     Sessions.token := token;
                     Sessions.expires_at := utcnow + hours 24 |}) as [y Hy].
      - cbn [Sessions.token Sessions.expires_at].
        rewrite String.eqb_refl. apply Z.ltb_lt.
        unfold c in Ht. cbn [claim_exp] in Ht. lia.
      - rewrite Hy. reflexivity. }
    exists c. split; [reflexivity|]. split; [apply Fresh; exact Hlo|].
    split; [exact Fresh|]. split.
    + intros t w'' Ht. unfold verify_token. rewrite Htok, jwt_decode_encode.
      replace (claim_exp c * second <=? t) with true
        by (symmetry; apply Z.leb_le; exact Ht).
      reflexivity.
    + intros t w'' Ht. unfold verify_token.
      rewrite fetch_session_logout.
      rewrite Htok, jwt_decode_encode.
      replace (claim_exp c * second <=? t) with false
        by (symmetry; apply Z.leb_gt; exact Ht).
      reflexivity.
Qed.

End Sessions.

Section Encryption.

Context {BC : Bcrypt} {FN : Fernet} {JW : JWT} {PF : PyFloat}
        {EN : Environment} {RT : Runtime}.

Lemma decrypt_encrypt_data (FL : FernetLaws) self x w :
  decrypt_data self (fst (encrypt_data self x w)) = Ok x.
Proof.
  unfold decrypt_data, encrypt_data. cbn [fst].
  rewrite fernet_correct, decode_encode. reflexivity.
Qed.

Lemma fernet_decrypt_other_key (FL : FernetLaws) k k' n x :
  k <> k' -> fernet_decrypt k' (fernet_encrypt k n x) = None.
Proof.
  intros Hk. destruct (fernet_decrypt k' (fernet_encrypt k n x)) as [y|] eqn:E;
    [|reflexivity].
  apply fernet_authentic in E. destruct E as [n' E].
  apply fernet_key_binding in E. contradiction.
Qed.

(** C3. Under one key [decrypt_data] returns the text that
    [encrypt_data] was given, the empty text included. A ciphertext made
    under another key, and any bytes that are not a ciphertext of the
    key, make [decrypt_data] raise [InvalidToken]. *)
Theorem decrypt_data_inverts_encrypt_data (FL : FernetLaws) self :
  (forall x w, decrypt_data self (fst (encrypt_data self x w)) = Ok x)
  /\ (forall w, decrypt_data self (fst (encrypt_data self "" w)) = Ok "")
  /\ (forall other x w,
        encryption_key other <> encryption_key self ->
        decrypt_data self (fst (encrypt_data other x w)) = Raise InvalidToken)
  /\ (forall c,
        (forall n b, c <> fernet_encrypt (encryption_key self) n b) ->
        decrypt_data self c = Raise InvalidToken).
Proof.
  split; [|split; [|split]].
  - intros x w. apply decrypt_encrypt_data. exact FL.
  - intros w. apply decrypt_encrypt_data. exact FL.
  - intros other x w Hk. unfold decrypt_data, encrypt_data. cbn [fst].
    rewrite fernet_decrypt_other_key; [reflexivity | exact FL | exact Hk].
  - intros c Hc. unfold decrypt_data.
    destruct (fernet_decrypt (encryption_key self) c) as [b|] eqn:E; [|reflexivity].
    apply fernet_authentic in E. destruct E as [n E].
    exfalso. exact (Hc n b E).
Qed.

Lemma AuthManager_init_loads env w k :
  key_file w = Some k ->
  AuthManager_init env w
  = ({| encryption_key := k;
        jwt_secret := match env with Some s => s | None => token_hex (draws w) end |},
     drawn w).
Proof. intros K. unfold AuthManager_init. rewrite K. reflexivity. Qed.

Lemma AuthManager_init_generates env w :
  key_file w = None ->
  AuthManager_init env w
  = ({| encryption_key := generate_key (draws w);
        jwt_secret := match env with
                      | Some s => s
                      | None => token_hex (S (draws w))
                      end |},
     drawn (set_key_file (generate_key (draws w)) (drawn w))).
Proof. intros K. unfold AuthManager_init. rewrite K. reflexivity. Qed.


End Encryption.

(** ** The store monad *)

Lemma preserves_ret {S A} (P : S -> Prop) (a : A) : preserves P (ret a).
Proof. intros w r w' H. inversion H; subst. auto. Qed.

Lemma preserves_raise {S A} (P : S -> Prop) (e : exn) : preserves P (@raise S A e).
Proof. intros w r w' H. inversion H; subst. auto. Qed.

Lemma preserves_lift {S A} (P : S -> Prop) (x : result A) : preserves P (lift x).
Proof. intros w r w' H. inversion H; subst. auto. Qed.

Lemma preserves_modify {S} (P : S -> Prop) (f : S -> S) :
  (forall w, P w -> P (f w)) -> preserves P (modify f).
Proof. intros Hf w r w' H. inversion H; subst. auto. Qed.

Lemma preserves_bind {S A B} (P : S -> Prop) (m : M S A) (f : A -> M S B) :
  preserves P m -> (forall a, preserves P (f a)) -> preserves P (bind m f).
Proof.
  intros Hm Hf w r w' H Pw. unfold bind in H.
  destruct (m w) as [[a|e] w1] eqn:E.
  - exact (Hf a w1 r w' H (Hm w _ w1 E Pw)).
  - inversion H; subst. exact (Hm w _ w' E Pw).
Qed.

Lemma preserves_catch {S A} (P : S -> Prop) (m : M S A) (h : exn -> M S A) :
  preserves P m -> (forall e, preserves P (h e)) -> preserves P (catch m h).
Proof.
  intros Hm Hh w r w' H Pw. unfold catch in H.
  destruct (m w) as [[a|e] w1] eqn:E.
  - inversion H; subst. exact (Hm w _ w' E Pw).
  - exact (Hh e w1 r w' H (Hm w _ w1 E Pw)).
Qed.

Lemma preserves_for_each {S A} (P : S -> Prop) (xs : list A) (body : A -> M S unit) :
  (forall x, preserves P (body x)) -> preserves P (for_each xs body).
Proof.
  intros Hb. induction xs as [|x xs IH]; simpl.
  - apply preserves_ret.
  - apply preserves_bind; [apply Hb | intros _; exact IH].
Qed.

(** ** Filters over a table *)

Lemma filter_filter_negb {A} (p : A -> bool) (l : list A) :
  filter p (filter (fun a => negb (p a)) l) = [].
Proof.
  induction l as [|a l IH]; simpl; [reflexivity|].
  destruct (p a) eqn:E; simpl; [|rewrite E]; exact IH.
Qed.

Lemma filter_negb_filter_negb {A} (p : A -> bool) (l : list A) :
  filter (fun a => negb (p a)) (filter (fun a => negb (p a)) l)
  = filter (fun a => negb (p a)) l.
Proof.
  induction l as [|a l IH]; simpl; [reflexivity|].
  destruct (p a) eqn:E; simpl; [|rewrite E; simpl; f_equal]; exact IH.
Qed.

Section Ledger.

Context {BC : Bcrypt} {FN : Fernet} {JW : JWT} {PF : PyFloat}
        {EN : Environment} {RT : Runtime}.

Lemma require_user_bound self uid w :
  bound self uid -> require_user self w = (Ok uid, w).
Proof.
  intros [Hu Hz]. unfold require_user. rewrite Hu.
  apply Z.eqb_neq in Hz. rewrite Hz. reflexivity.
Qed.

Lemma update_salary_bound self uid amount w :
  bound self uid ->
  update_salary self amount w
  = (Ok tt,
     insert_salary uid
       (fernet_encrypt (encryption_key (auth_manager self))
                       (fernet_nonce (draws w)) (encode (float_str amount)))
       (delete_salary uid (drawn w))).
Proof.
  intros B. unfold update_salary, bind. rewrite (require_user_bound self uid w B).
  reflexivity.
Qed.

Lemma decrypt_sealed (FL : FernetLaws) self n text w :
  decrypt self
    (fernet_encrypt (encryption_key (auth_manager self)) n (encode text)) w
  = (Ok text, w).
Proof.
  unfold decrypt, lift, decrypt_data.
  rewrite fernet_correct, decode_encode. reflexivity.
Qed.

(** C5. For a bound user [get_salary] returns [0.0] when the table has
    no row of the user. [update_salary] returns, leaves exactly one row
    of the user and the rows of everyone else as they were, and
    [get_salary] then returns the amount that was given. *)
Theorem get_salary_returns_the_salary_set
    (FL : FernetLaws) (PL : PyFloatLaws) self uid w :
  bound self uid ->
  (filter (fun r => Salary.user_id r =? uid) (salary w) = [] ->
   get_salary self w = (Ok float_zero, w))
  /\ (forall a,
        let w' := snd (update_salary self a w) in
        fst (update_salary self a w) = Ok tt
        /\ get_salary self w' = (Ok a, w')
        /\ List.length (filter (fun r => Salary.user_id r =? uid) (salary w')) = 1%nat
        /\ filter (fun r => negb (Salary.user_id r =? uid)) (salary w')
           = filter (fun r => negb (Salary.user_id r =? uid)) (salary w)).
Proof.
  intros B. split.
  - intros Hnone. unfold get_salary, bind, get.
    rewrite (require_user_bound self uid w B). rewrite Hnone. reflexivity.
  - intros a w'. unfold w'. rewrite (update_salary_bound self uid a w B).
    cbn [fst snd].
    set (c := fernet_encrypt _ _ _).
    assert (Hmine : filter (fun r => Salary.user_id r =? uid)
                           (salary (insert_salary uid c (delete_salary uid (drawn w))))
                    = [ {| Salary.id := next_id Salary.id (salary (delete_salary uid (drawn w)));
                           Salary.user_id := uid;
                           Salary.amount_encrypted := c;
                           Salary.updated_at :=
                             current_timestamp (draws (delete_salary uid (drawn w))) |} ]).
    { unfold insert_salary. cbn [salary set_salary].
      rewrite filter_app. unfold delete_salary at 1. cbn [salary set_salary drawn].
      rewrite (filter_filter_negb (fun r => Salary.user_id r =? uid)).
      cbn. rewrite Z.eqb_refl. reflexivity. }
    split; [reflexivity|]. split; [|split].
    + unfold get_salary, bind, get. rewrite (require_user_bound self uid _ B).
      rewrite Hmine. cbn [latest fold_left Salary.amount_encrypted].
      unfold c. rewrite (decrypt_sealed FL).
      unfold lift, parse_float. rewrite float_str_roundtrip. reflexivity.
    + rewrite Hmine. reflexivity.
    + unfold insert_salary, delete_salary. cbn [salary set_salary drawn].
      rewrite filter_app. cbn. rewrite Z.eqb_refl. cbn. rewrite app_nil_r.
      apply filter_negb_filter_negb with (p := fun r => Salary.user_id r =? uid).
Qed.

End Ledger.

(** ** ORDER BY date DESC *)

Lemma insert_desc_permutation t l : Permutation (insert_desc t l) (t :: l).
Proof.
  induction l as [|t' l IH]; simpl.
  - apply Permutation_refl.
  - destruct (Transactions.date t' <=? Transactions.date t).
    + apply Permutation_refl.
    + apply Permutation_trans with (t' :: t :: l).
      * apply perm_skip. exact IH.
      * apply perm_swap.
Qed.

Lemma insert_desc_sorted t l :
  StronglySorted later_first l -> StronglySorted later_first (insert_desc t l).
Proof.
  induction l as [|t' l IH]; intros Hs; simpl.
  - constructor; constructor.
  - inversion Hs as [|x xs Hrest Hall]; subst.
    destruct (Transactions.date t' <=? Transactions.date t) eqn:E.
    + apply Z.leb_le in E. constructor; [exact Hs|].
      constructor; [unfold later_first; lia|].
      eapply Forall_impl; [|exact Hall].
      unfold later_first. intros a Ha. lia.
    + apply Z.leb_gt in E. constructor; [apply IH; exact Hrest|].
      eapply Permutation_Forall;
        [apply Permutation_sym; apply insert_desc_permutation|].
      constructor; [unfold later_first; lia | exact Hall].
Qed.

Lemma order_by_date_desc_permutation l : Permutation (order_by_date_desc l) l.
Proof.
  induction l as [|t l IH]; simpl.
  - apply Permutation_refl.
  - eapply Permutation_trans; [apply insert_desc_permutation|].
    apply perm_skip. exact IH.
Qed.

Lemma order_by_date_desc_sorted l : StronglySorted later_first (order_by_date_desc l).
Proof.
  induction l as [|t l IH]; simpl.
  - constructor.
  - apply insert_desc_sorted. exact IH.
Qed.

(** Rows of one date come out in the order they went in. *)
Lemma order_by_date_desc_keeps_ties d l :
  Forall (fun t => Transactions.date t = d) l -> order_by_date_desc l = l.
Proof.
  induction 1 as [|t l Ht Hl IH]; [reflexivity|].
  cbn [order_by_date_desc fold_right]. fold (order_by_date_desc l). rewrite IH.
  destruct Hl as [|t' l' Ht' _]; [reflexivity|].
  cbn [insert_desc]. rewrite Ht, Ht', Z.leb_refl. reflexivity.
Qed.

Lemma filter_filter_andb {A} (p q : A -> bool) (l : list A) :
  filter q (filter p l) = filter (fun a => p a && q a) l.
Proof.
  induction l as [|a l IH]; simpl; [reflexivity|].
  destruct (p a); simpl; [destruct (q a); rewrite IH|]; auto.
Qed.

Lemma Forall_filter_keeps {A} (P : A -> Prop) (p : A -> bool) (l : list A) :
  Forall P l -> Forall P (filter p l).
Proof.
  intros H. apply Forall_forall. intros a Ha.
  apply filter_In in Ha. destruct Ha as [Ha _].
  exact (proj1 (Forall_forall P l) H a Ha).
Qed.

Section Listing.

Context {BC : Bcrypt} {FN : Fernet} {JW : JWT} {PF : PyFloat}
        {EN : Environment} {RT : Runtime}.

Lemma select_transactions_selected uid start_date end_date w :
  Permutation (select_transactions uid start_date end_date w)
              (filter (selected uid start_date end_date) (transactions w)).
Proof.
  unfold select_transactions.
  eapply Permutation_trans; [apply order_by_date_desc_permutation|].
  unfold selected.
  destruct start_date as [s|], end_date as [e|];
    try rewrite filter_filter_andb;
    try (erewrite filter_ext; [apply Permutation_refl|];
         intros t; simpl; rewrite ?andb_true_r; reflexivity).
Qed.

Lemma decrypt_transaction_sealed (FL : FernetLaws) (PL : PyFloatLaws) self t w :
  sealed (encryption_key (auth_manager self)) t ->
  exists a d n n',
    decrypt_transaction self t w
    = (Ok {| row := t; amount := a; description := d |}, w)
    /\ Transactions.amount_encrypted t
       = fernet_encrypt (encryption_key (auth_manager self)) n (encode (float_str a))
    /\ Transactions.description_encrypted t
       = Some (fernet_encrypt (encryption_key (auth_manager self)) n' (encode d)).
Proof.
  intros [n [n' [x [d [Ha Hd]]]]]. exists x, d, n, n'.
  split; [|split; assumption].
  unfold decrypt_transaction, bind. rewrite Ha, Hd.
  rewrite (decrypt_sealed FL). unfold lift at 1, parse_float.
  rewrite float_str_roundtrip. rewrite (decrypt_sealed FL). reflexivity.
Qed.

Lemma decrypt_all_sealed (FL : FernetLaws) (PL : PyFloatLaws) self rows w :
  Forall (sealed (encryption_key (auth_manager self))) rows ->
  exists l,
    decrypt_all self rows w = (Ok l, w)
    /\ map row l = rows
    /\ Forall (opened (encryption_key (auth_manager self))) l.
Proof.
  induction rows as [|t rows IH]; intros Hs.
  - exists []. repeat split. constructor.
  - inversion Hs as [|x xs Ht Hrest]; subst.
    destruct (decrypt_transaction_sealed FL PL self t w Ht)
      as [a [d [n [n' [Hrun [Ha Hd]]]]]].
    destruct (IH Hrest) as [l [Hl [Hrows Hopen]]].
    exists ({| row := t; amount := a; description := d |} :: l).
    split; [|split].
    + cbn [decrypt_all]. unfold bind at 1. rewrite Hrun.
      unfold bind at 1. rewrite Hl. reflexivity.
    + simpl. rewrite Hrows. reflexivity.
    + constructor; [exists n, n'; split; assumption | exact Hopen].
Qed.

(** Over sealed rows of the user the loop of [get_transactions] decrypts
    every selected row. *)
Lemma get_transactions_sealed (FL : FernetLaws) (PL : PyFloatLaws)
    self uid start_date end_date w :
  bound self uid ->
  Forall (sealed (encryption_key (auth_manager self)))
         (filter (fun t => Transactions.user_id t =? uid) (transactions w)) ->
  exists l,
    get_transactions self start_date end_date w = (Ok l, w)
    /\ map row l = select_transactions uid start_date end_date w
    /\ Forall (opened (encryption_key (auth_manager self))) l.
Proof.
  intros B Hsealed.
  assert (Hsel : Forall (sealed (encryption_key (auth_manager self)))
                        (select_transactions uid start_date end_date w)).
  { eapply Permutation_Forall;
      [apply Permutation_sym; apply select_transactions_selected|].
    apply Forall_forall. intros t Ht. apply filter_In in Ht.
    destruct Ht as [Hin Hs]. unfold selected in Hs.
    apply andb_true_iff in Hs. destruct Hs as [Hu _].
    apply (proj1 (Forall_forall _ _) Hsealed). apply filter_In. split; assumption. }
  destruct (decrypt_all_sealed FL PL self _ w Hsel) as [l [Hrun [Hrows Hopen]]].
  exists l. split; [|split; assumption].
  unfold get_transactions, bind, get.
  rewrite (require_user_bound self uid w B). exact Hrun.
Qed.

(** C7, amended. For a bound user whose rows were written under the
    key, [get_transactions] returns, and every entry belongs to the
    user, carries the decrypted amount and description of its row, and
    the entries come latest date first. When both dates are given the
    rows of the entries are, up to order, the rows of the user dated
    from [start_date] to [end_date] inclusive. When one of the dates or
    both are left out no date is applied: the rows of the entries are,
    up to order, all the rows of the user. *)
Theorem get_transactions_lists_own_rows_latest_first
    (FL : FernetLaws) (PL : PyFloatLaws) self uid start_date end_date w :
  bound self uid ->
  Forall (sealed (encryption_key (auth_manager self)))
         (filter (fun t => Transactions.user_id t =? uid) (transactions w)) ->
  exists l,
    get_transactions self start_date end_date w = (Ok l, w)
    /\ Forall (fun t => Transactions.user_id (row t) = uid) l
    /\ (forall s e, start_date = Some s -> end_date = Some e ->
          Permutation (map row l)
            (filter (fun t => (Transactions.user_id t =? uid)
                              && ((s <=? Transactions.date t)
                                  && (Transactions.date t <=? e)))
                    (transactions w))
          /\ Forall (fun t => s <= Transactions.date (row t) <= e) l)
    /\ (start_date = None \/ end_date = None ->
        Permutation (map row l)
          (filter (fun t => Transactions.user_id t =? uid) (transactions w)))
    /\ StronglySorted later_first (map row l)
    /\ Forall (opened (encryption_key (auth_manager self))) l.
Proof.
  intros B Hsealed.
  pose proof (select_transactions_selected uid start_date end_date w) as Hperm.
  destruct (get_transactions_sealed FL PL self uid start_date end_date w B Hsealed)
    as [l [Hrun [Hrows Hopen]]].
  assert (Hall : Forall (fun r => selected uid start_date end_date r = true) (map row l)).
  { rewrite Hrows. eapply Permutation_Forall; [apply Permutation_sym; exact Hperm|].
    apply Forall_forall. intros t Ht. apply filter_In in Ht. tauto. }
  rewrite Forall_map in Hall.
  exists l. split; [exact Hrun|]. split; [|split; [|split; [|split]]].
  - eapply Forall_impl; [|exact Hall]. intros t Ht. cbn beta in Ht.
    unfold selected in Ht. apply andb_true_iff in Ht. destruct Ht as [Hu _].
    apply Z.eqb_eq. exact Hu.
  - intros s e Hs He. subst. split.
    + rewrite Hrows. exact Hperm.
    + eapply Forall_impl; [|exact Hall].
      intros t Ht. cbn beta in Ht. unfold selected in Ht.
      apply andb_true_iff in Ht. destruct Ht as [_ Hr].
      apply andb_true_iff in Hr. destruct Hr as [H1 H2].
      apply Z.leb_le in H1. apply Z.leb_le in H2. split; assumption.
  - intros Hnone. rewrite Hrows.
    eapply Permutation_trans; [exact Hperm|].
    erewrite filter_ext; [apply Permutation_refl|].
    intros t. unfold selected.
    destruct Hnone as [Hn|Hn]; rewrite Hn;
      [|destruct start_date]; apply andb_true_r.
  - rewrite Hrows. apply order_by_date_desc_sorted.
  - exact Hopen.
Qed.

End Listing.

Section Restore.

Context {BC : Bcrypt} {FN : Fernet} {JW : JWT} {PF : PyFloat}
        {EN : Environment} {RT : Runtime}.

(** [add_transaction] for a bound user, by what its arguments are. *)
Lemma add_transaction_bound self uid date amount category description w :
  bound self uid ->
  add_transaction self date amount category description w
  = match as_str (match description with Some d => d | None => PStr "" end) with
    | Raise e => (Raise e, drawn w)
    | Ok text =>
        match bind_category category with
        | Raise e => (Raise e, drawn (drawn w))
        | Ok c =>
            (Ok tt,
             insert_transaction uid date
               (fernet_encrypt (encryption_key (auth_manager self))
                               (fernet_nonce (draws w)) (encode (float_str amount)))
               c
               (fernet_encrypt (encryption_key (auth_manager self))
                               (fernet_nonce (S (draws w))) (encode text))
               (drawn (drawn w)))
        end
    end.
Proof.
  intros B. unfold add_transaction, bind.
  rewrite (require_user_bound self uid w B).
  cbn [encrypt encrypt_data]. unfold lift at 1.
  destruct (as_str _) as [text|e]; [|reflexivity].
  cbn [encrypt encrypt_data drawn draws]. unfold lift.
  destruct (bind_category category) as [c|e]; reflexivity.
Qed.

Section Invariant.

(** A property of rows that every sealed row has. *)
Variable k : key.
Variable Q : Transactions.row -> Prop.
Hypothesis sealed_Q : forall t, sealed k t -> Q t.

Lemma add_transaction_preserves self uid date amount category description :
  bound self uid ->
  encryption_key (auth_manager self) = k ->
  preserves (all_rows Q) (add_transaction self date amount category description).
Proof.
  intros B K w r w' H Pw.
  rewrite (add_transaction_bound self uid date amount category description w B) in H.
  destruct (as_str _) as [text|e]; [|inversion H; subst r w'; exact Pw].
  destruct (bind_category category) as [c|e]; inversion H; subst r w'; [|exact Pw].
  unfold all_rows, insert_transaction. cbn [transactions set_transactions drawn].
  apply Forall_app. split; [exact Pw|].
  constructor; [|constructor].
  apply sealed_Q. rewrite K. eexists _, _, _, _. split; reflexivity.
Qed.

Lemma update_salary_preserves self uid amount :
  bound self uid -> preserves (all_rows Q) (update_salary self amount).
Proof.
  intros B w r w' H Pw. rewrite (update_salary_bound self uid amount w B) in H.
  inversion H; subst r w'. exact Pw.
Qed.

Lemma restore_preserves self uid uid' data :
  bound self uid ->
  encryption_key (auth_manager self) = k ->
  preserves (all_rows Q) (restore self uid' data).
Proof.
  intros B K. unfold restore.
  apply preserves_bind; [apply preserves_modify; intros w Pw; exact Pw | intros _].
  apply preserves_bind;
    [apply preserves_modify; intros w Pw; unfold all_rows, delete_transactions;
     cbn [transactions set_transactions]; apply Forall_filter_keeps; exact Pw
    | intros _].
  apply preserves_bind; [apply preserves_lift | intros s].
  apply preserves_bind.
  { destruct (truthy s); [|apply preserves_ret].
    apply preserves_bind; [apply preserves_lift | intros x].
    apply (update_salary_preserves self uid x B). }
  intros _.
  apply preserves_bind; [apply preserves_lift | intros ts].
  apply preserves_bind; [apply preserves_lift | intros items].
  apply preserves_for_each. intros trans. unfold import_transaction.
  repeat (apply preserves_bind; [apply preserves_lift | intros ?]).
  apply (add_transaction_preserves self uid); assumption.
Qed.

Lemma import_database_preserves self uid backup_file :
  bound self uid ->
  encryption_key (auth_manager self) = k ->
  preserves (all_rows Q) (import_database self backup_file).
Proof.
  intros B K. unfold import_database.
  apply preserves_bind.
  { intros w r w' H Pw. rewrite (require_user_bound self uid w B) in H.
    inversion H; subst r w'. exact Pw. }
  intros uid'. apply preserves_catch; [|intros e; apply preserves_ret].
  unfold import_body.
  apply preserves_bind; [apply preserves_lift | intros c].
  apply preserves_bind; [unfold decrypt; apply preserves_lift | intros s].
  apply preserves_bind; [apply preserves_lift | intros data].
  apply preserves_bind; [|intros _; apply preserves_ret].
  apply (restore_preserves self uid uid' data B K).
Qed.

End Invariant.

(** C10. For a bound user [add_transaction] either raises and inserts
    nothing, or appends one row of the user whose
    [description_encrypted] is the ciphertext of the description it was
    given; with the description left out it is the ciphertext of the
    empty text. So every row that [add_transaction] or [import_database]
    adds to the table is sealed; and over a table of sealed rows
    [get_transactions] returns, for any dates, entries that carry the
    decrypted description of their row. *)
Theorem add_transaction_always_encrypts_a_description
    (FL : FernetLaws) (PL : PyFloatLaws) self uid :
  bound self uid ->
  let k := encryption_key (auth_manager self) in
  (forall date amount category description w,
      (exists e w',
          add_transaction self date amount category description w = (Raise e, w')
          /\ transactions w' = transactions w)
      \/ (exists t text w',
            add_transaction self date amount category description w = (Ok tt, w')
            /\ transactions w' = transactions w ++ [t]
            /\ Transactions.user_id t = uid
            /\ as_str (match description with Some d => d | None => PStr "" end)
               = Ok text
            /\ Transactions.description_encrypted t
               = Some (fernet_encrypt k (fernet_nonce (S (draws w))) (encode text))
            /\ sealed k t))
  /\ (forall date amount category c w,
        bind_category category = Ok c ->
        exists t w',
          add_transaction self date amount category None w = (Ok tt, w')
          /\ transactions w' = transactions w ++ [t]
          /\ Transactions.description_encrypted t
             = Some (fernet_encrypt k (fernet_nonce (S (draws w))) (encode "")))
  /\ (forall date amount category description w r w',
        add_transaction self date amount category description w = (r, w') ->
        Forall (fun t => In t (transactions w) \/ sealed k t) (transactions w'))
  /\ (forall backup_file w r w',
        import_database self backup_file w = (r, w') ->
        Forall (fun t => In t (transactions w) \/ sealed k t) (transactions w'))
  /\ (forall start_date end_date w,
        all_rows (sealed k) w ->
        exists l,
          get_transactions self start_date end_date w = (Ok l, w)
          /\ Forall (opened k) l).
Proof.
  intros B k.
  assert (Old : forall w, all_rows (fun t => In t (transactions w) \/ sealed k t) w).
  { intros w. apply Forall_forall. intros t Ht. left. exact Ht. }
  split; [|split; [|split; [|split]]].
  - intros date amount category description w.
    rewrite (add_transaction_bound self uid date amount category description w B).
    destruct (as_str _) as [text|e];
      [|left; exists e, (drawn w); split; reflexivity].
    destruct (bind_category category) as [c|e];
      [|left; exists e, (drawn (drawn w)); split; reflexivity].
    right. eexists _, text, _. split; [reflexivity|].
    split; [reflexivity|]. split; [reflexivity|]. split; [reflexivity|].
    split; [reflexivity|]. eexists _, _, _, _. split; reflexivity.
  - intros date amount category c w Hc.
    rewrite (add_transaction_bound self uid date amount category None w B).
    cbn [as_str]. rewrite Hc. eexists _, _. repeat split.
  - intros date amount category description w r w' H.
    exact (add_transaction_preserves k _ (fun t S => or_intror S)
             self uid date amount category description B eq_refl w r w' H (Old w)).
  - intros backup_file w r w' H.
    exact (import_database_preserves k _ (fun t S => or_intror S)
             self uid backup_file B eq_refl w r w' H (Old w)).
  - intros start_date end_date w Hall.
    destruct (get_transactions_sealed FL PL self uid start_date end_date w B
                (Forall_filter_keeps _ _ _ Hall))
      as [l [Hrun [_ Hopen]]].
    exists l. split; assumption.
Qed.

(** C4. For a bound user [import_database] never raises. When the file
    cannot be read, does not decrypt, or decrypts to text that
    [json.loads] rejects, it returns [False] and the world is the one it
    started from, all salary and transaction rows included. It returns
    [True] only when the blob decrypted and parsed and the restore that
    followed ran to its end; a restore that raises gives [False]. *)
Theorem import_database_fails_closed self uid w :
  bound self uid ->
  (import_database self None w = (Ok false, w))
  /\ (forall c e,
        decrypt_data (auth_manager self) c = Raise e ->
        import_database self (Some c) w = (Ok false, w))
  /\ (forall c s,
        decrypt_data (auth_manager self) c = Ok s ->
        json_loads s = None ->
        import_database self (Some c) w = (Ok false, w))
  /\ (forall backup_file, exists b w',
        import_database self backup_file w = (Ok b, w'))
  /\ (forall backup_file w',
        import_database self backup_file w = (Ok true, w') ->
        exists c s data,
          backup_file = Some c
          /\ decrypt_data (auth_manager self) c = Ok s
          /\ json_loads s = Some data
          /\ restore self uid data w = (Ok tt, w'))
  /\ (forall c s data e w',
        decrypt_data (auth_manager self) c = Ok s ->
        json_loads s = Some data ->
        restore self uid data w = (Raise e, w') ->
        import_database self (Some c) w = (Ok false, w')).
Proof.
  intros B.
  assert (Run : forall backup_file,
             import_database self backup_file w
             = catch (import_body self uid backup_file) (fun _ => ret false) w).
  { intros f. unfold import_database, bind.
    rewrite (require_user_bound self uid w B). reflexivity. }
  split; [|split; [|split; [|split; [|split]]]].
  - rewrite Run. reflexivity.
  - intros c e H. rewrite Run. unfold catch, import_body, bind, decrypt, lift.
    rewrite H. reflexivity.
  - intros c s H J. rewrite Run. unfold catch, import_body, bind, decrypt, lift.
    rewrite H, J. reflexivity.
  - intros f. rewrite Run. unfold catch.
    destruct (import_body self uid f w) as [[b|e] w1]; eexists _, _; reflexivity.
  - intros f w' H. rewrite Run in H. unfold catch in H.
    destruct (import_body self uid f w) as [[b|e] w1] eqn:E;
      [|inversion H].
    inversion H; subst b w1. clear H.
    unfold import_body, bind, decrypt, lift in E.
    destruct f as [c|]; [|discriminate].
    destruct (decrypt_data (auth_manager self) c) as [s|e] eqn:D; [|discriminate].
    destruct (json_loads s) as [data|] eqn:J; [|discriminate].
    destruct (restore self uid data w) as [[[]|e] w1] eqn:R; [|discriminate].
    inversion E; subst w1.
    exists c, s, data. repeat split; assumption.
  - intros c s data e w' H J R. rewrite Run.
    unfold catch, import_body, bind, decrypt, lift. rewrite H, J, R. reflexivity.
Qed.

End Restore.

(** * The concrete instance meets the laws *)

Lemma take_nat_put_nat n rest : Toy.take_nat (Toy.put_nat n rest) = Some (n, rest).
Proof.
  induction n as [|n IH]; simpl; [reflexivity|]. rewrite IH. reflexivity.
Qed.

Lemma take_Z_put_Z z rest : Toy.take_Z (Toy.put_Z z rest) = Some (z, rest).
Proof.
  unfold Toy.take_Z, Toy.put_Z. rewrite !take_nat_put_nat.
  destruct (z <? 0) eqn:E.
  - apply Z.ltb_lt in E. rewrite Zabs2Nat.id_abs. f_equal. f_equal. lia.
  - apply Z.ltb_ge in E. rewrite Zabs2Nat.id_abs. f_equal. f_equal. lia.
Qed.

Lemma split_at_append a rest :
  Toy.split_at (String.length a) (a ++ rest)%string = Some (a, rest).
Proof.
  induction a as [|c a IH]; simpl; [reflexivity|]. rewrite IH. reflexivity.
Qed.

Lemma take_str_put_str a rest : Toy.take_str (Toy.put_str a rest) = Some (a, rest).
Proof.
  unfold Toy.take_str, Toy.put_str. rewrite take_nat_put_nat.
  apply split_at_append.
Qed.

Lemma byte_eqb_true x y : Byte.eqb x y = true <-> x = y.
Proof.
  split.
  - apply Byte.byte_dec_bl.
  - apply Byte.byte_dec_lb.
Qed.

Lemma bytes_eqb_refl b : Toy.bytes_eqb b b = true.
Proof.
  induction b as [|x b IH]; simpl; [reflexivity|].
  rewrite IH, (proj2 (byte_eqb_true x x) eq_refl). reflexivity.
Qed.

Lemma toy_bcrypt_laws : @BcryptLaws Toy.bcrypt.
Proof. constructor. intros p s. simpl. apply bytes_eqb_refl. Qed.

Lemma toy_fernet_laws : @FernetLaws Toy.fernet.
Proof.
  constructor.
  - intros k n x. simpl. rewrite (proj2 (byte_eqb_true k k) eq_refl). reflexivity.
  - intros k c x. simpl. destruct c as [|k' [|n c]]; try discriminate.
    destruct (Byte.eqb k k') eqn:E; [|discriminate].
    apply byte_eqb_true in E. subst k'. intros H. inversion H; subst.
    exists n. reflexivity.
  - intros k k' n n' x x'. simpl. intros H. inversion H. reflexivity.
Qed.

Lemma toy_jwt_laws : @JWTLaws Toy.jwt.
Proof.
  constructor; intros c s; simpl; unfold Toy.toy_decode, Toy.toy_encode.
  - intros now. rewrite take_str_put_str, !take_Z_put_Z, take_str_put_str.
    rewrite String.eqb_refl. cbn [negb]. destruct c; reflexivity.
  - intros s' now Hs.
    rewrite take_str_put_str, !take_Z_put_Z, take_str_put_str.
    apply String.eqb_neq in Hs. rewrite Hs. reflexivity.
Qed.

Lemma toy_pyfloat_laws : @PyFloatLaws Toy.pyfloat.
Proof. constructor. intros x. simpl. rewrite take_Z_put_Z. reflexivity. Qed.

Lemma toy_environment_laws : @EnvironmentLaws Toy.bcrypt Toy.fernet Toy.environment.
Proof.
  constructor. intros i j Hij. simpl. intros H. apply Hij.
  assert (E : Toy.take_nat (Toy.put_nat i "") = Toy.take_nat (Toy.put_nat j ""))
    by (rewrite H; reflexivity).
  rewrite !take_nat_put_nat in E. inversion E. reflexivity.
Qed.

(** * The statements on the concrete instance *)

Section Witnesses.

#[local] Existing Instances Toy.bcrypt Toy.fernet Toy.jwt Toy.pyfloat
  Toy.environment Toy.runtime.

Lemma toy_db_bound : bound Toy.db 1.
Proof. split; [reflexivity | discriminate]. Defined.

(** alice mistypes her password five times, the fifth time at instant 10. *)
Lemma five_failures_lock_for_thirty_minutes_witness :
  let run :=
    login_attempts Toy.auth "alice"
      ([("a", 1, 1); ("b", 2, 2); ("c", 3, 3); ("d", 4, 4)] ++ [("e", 10, 10)])
      Toy.registered in
  Forall (eq invalid_credentials) (fst run)
  /\ (exists u5,
        fetch_user "alice" (snd run) = Some u5
        /\ Users.failed_attempts u5 = 5
        /\ Users.locked_until u5 = Some (10 + minutes 30))
  /\ (forall p now utcnow,
        now < 10 + minutes 30 ->
        login Toy.auth "alice" p now utcnow (snd run) = (account_locked, snd run))
  /\ (forall p now utcnow,
        10 + minutes 30 <= now ->
        verify_password p (Users.password_hash Toy.alice) = true ->
        exists token w6 u6,
          login Toy.auth "alice" p now utcnow (snd run) = ((true, token), w6)
          /\ fetch_user "alice" w6 = Some u6
          /\ Users.failed_attempts u6 = 0
          /\ Users.locked_until u6 = None).
Proof.
  apply (five_failures_lock_for_thirty_minutes Toy.auth "alice" Toy.registered
           Toy.alice [("a", 1, 1); ("b", 2, 2); ("c", 3, 3); ("d", 4, 4)] "e" 10 10).
  - vm_compute. reflexivity.
  - reflexivity.
  - reflexivity.
  - reflexivity.
  - repeat constructor.
Defined.

Lemma login_hides_unknown_usernames_witness :
  fst (login Toy.auth "alice" "bad" 0 0 Toy.registered)
  = fst (login Toy.auth "bob" "pw" 0 0 Toy.registered).
Proof.
  refine (proj1 (proj2 (login_hides_unknown_usernames Toy.auth Toy.registered
                          "bob" "alice" Toy.alice "pw" "bad" 0 0 _ _ _ _)));
    vm_compute; reflexivity.
Defined.

(** alice registered the answer "Rex" and resets with "rex". *)
Lemma reset_password_checks_the_answer_without_case_witness :
  exists w' u',
    reset_password Toy.auth "alice" "rex" "fresh" Toy.registered = (true, w')
    /\ fetch_user "alice" w' = Some u'
    /\ verify_password "fresh" (Users.password_hash u') = true
    /\ Users.failed_attempts u' = Users.failed_attempts Toy.alice
    /\ Users.locked_until u' = Users.locked_until Toy.alice.
Proof.
  refine (proj1 (reset_password_checks_the_answer_without_case toy_bcrypt_laws
                   Toy.auth "alice" Toy.registered)
            Toy.alice "Rex" ("000"%byte : @salt Toy.bcrypt) "rex" "fresh" _ _ _);
    vm_compute; reflexivity.
Defined.

(** alice logs in at an instant two seconds short of a day before the
    epoch, so that her token expires at second 2. *)
Lemma verify_token_needs_signature_and_row_witness :
  let issued := login Toy.auth "alice" "pw" 0 (2 * second - hours 24) Toy.registered in
  exists c,
    claim_exp c = (2 * second - hours 24 + hours 24) / second
    /\ verify_token Toy.auth (snd (fst issued)) (2 * second - hours 24) (snd issued)
       = (true, Payload c)
    /\ (forall t, t < claim_exp c * second ->
          verify_token Toy.auth (snd (fst issued)) t (snd issued) = (true, Payload c))
    /\ (forall t w'', claim_exp c * second <= t ->
          verify_token Toy.auth (snd (fst issued)) t w''
          = (false, Message "Token has expired"))
    /\ (forall t w'', t < claim_exp c * second ->
          verify_token Toy.auth (snd (fst issued)) t
                       (snd (logout Toy.auth (snd (fst issued)) w''))
          = (false, NoInfo)).
Proof.
  intros issued.
  refine (proj2 (proj2 (verify_token_needs_signature_and_row toy_jwt_laws Toy.auth))
            "alice" "pw" 0 (2 * second - hours 24) Toy.registered
            (snd (fst issued)) (snd issued) _).
  vm_compute. reflexivity.
Defined.

Lemma decrypt_data_inverts_encrypt_data_witness :
  decrypt_data Toy.auth (fst (encrypt_data Toy.auth "rent" Toy.registered)) = Ok "rent"
  /\ decrypt_data Toy.auth (fst (encrypt_data Toy.auth "" Toy.registered)) = Ok ""
  /\ decrypt_data Toy.auth (fst (encrypt_data Toy.stranger "rent" Toy.registered))
     = Raise InvalidToken.
Proof.
  pose proof (decrypt_data_inverts_encrypt_data toy_fernet_laws Toy.auth)
    as [Same [Empty [Other _]]].
  split; [apply Same | split; [apply Empty | apply Other]].
  vm_compute. discriminate.
Defined.


Lemma get_salary_returns_the_salary_set_witness :
  get_salary Toy.db Toy.registered = (Ok 0, Toy.registered)
  /\ get_salary Toy.db (snd (update_salary Toy.db (1234 : @float Toy.pyfloat) Toy.registered))
     = (Ok 1234, snd (update_salary Toy.db (1234 : @float Toy.pyfloat) Toy.registered)).
Proof.
  pose proof (get_salary_returns_the_salary_set toy_fernet_laws toy_pyfloat_laws
                Toy.db 1 Toy.registered toy_db_bound) as [Zero Stored].
  split.
  - apply Zero. reflexivity.
  - apply (Stored (1234 : @float Toy.pyfloat)).
Defined.

Lemma toy_ledger_sealed :
  Forall (sealed (encryption_key (auth_manager Toy.db)))
         (filter (fun t => Transactions.user_id t =? 1) (transactions Toy.ledger)).
Proof.
  constructor; [|constructor].
  exists ("000"%byte : @nonce Toy.fernet), ("000"%byte : @nonce Toy.fernet),
         (50 : @float Toy.pyfloat), "rent".
  split; reflexivity.
Defined.

Lemma get_transactions_lists_own_rows_latest_first_witness :
  exists l,
    get_transactions Toy.db (Some 1) (Some 5) Toy.ledger = (Ok l, Toy.ledger)
    /\ Forall (fun t => Transactions.user_id (row t) = 1) l
    /\ (forall s e, Some 1 = Some s -> Some 5 = Some e ->
          Permutation (map row l)
            (filter (fun t => (Transactions.user_id t =? 1)
                              && ((s <=? Transactions.date t)
                                  && (Transactions.date t <=? e)))
                    (transactions Toy.ledger))
          /\ Forall (fun t => s <= Transactions.date (row t) <= e) l)
    /\ (Some 1 = None \/ Some 5 = None ->
        Permutation (map row l)
          (filter (fun t => Transactions.user_id t =? 1) (transactions Toy.ledger)))
    /\ StronglySorted later_first (map row l)
    /\ Forall (opened (encryption_key (auth_manager Toy.db))) l.
Proof.
  exact (get_transactions_lists_own_rows_latest_first
           toy_fernet_laws toy_pyfloat_laws Toy.db 1 (Some 1) (Some 5) Toy.ledger
           toy_db_bound toy_ledger_sealed).
Defined.

(** C7 as worded, with each date a bound of its own, fails: asked for
    the transactions from day 100 on, with no end date,
    [get_transactions] lists alice's transaction of day 3. *)
Lemma a_lone_start_date_is_not_applied :
  ~ (forall start_date end_date l,
        get_transactions Toy.db start_date end_date Toy.ledger = (Ok l, Toy.ledger) ->
        Forall (fun t => bounded_by_each_date start_date end_date (row t)) l).
Proof.
  intros H.
  destruct (get_transactions_sealed toy_fernet_laws toy_pyfloat_laws Toy.db 1
              (Some 100) None Toy.ledger toy_db_bound toy_ledger_sealed)
    as [l [Hl [Hrows _]]].
  specialize (H (Some 100) None l Hl).
  assert (Hd : Forall (fun r => 100 <= Transactions.date r) (map row l)).
  { apply Forall_map. eapply Forall_impl; [|exact H].
    intros t [Hs _]. apply (Hs 100 eq_refl). }
  rewrite Hrows in Hd. vm_compute in Hd.
  inversion Hd as [|r rs Hr _]. apply Hr. reflexivity.
Qed.

Lemma add_transaction_always_encrypts_a_description_witness :
  exists t w',
    add_transaction Toy.db 3 (50 : @float Toy.pyfloat) (PStr "Needs") None Toy.registered
    = (Ok tt, w')
    /\ transactions w' = transactions Toy.registered ++ [t]
    /\ Transactions.description_encrypted t
       = Some (fernet_encrypt (encryption_key (auth_manager Toy.db))
                 (fernet_nonce (S (draws Toy.registered))) (encode "")).
Proof.
  refine (proj1 (proj2 (add_transaction_always_encrypts_a_description
                          toy_fernet_laws toy_pyfloat_laws Toy.db 1 toy_db_bound))
            3 (50 : @float Toy.pyfloat) (PStr "Needs") "Needs" Toy.registered _).
  reflexivity.
Defined.

(** A missing file, bytes that are no ciphertext, and a ciphertext of
    text that is not JSON. *)
Lemma import_database_fails_closed_witness :
  import_database Toy.db None Toy.ledger = (Ok false, Toy.ledger)
  /\ import_database Toy.db (Some []) Toy.ledger = (Ok false, Toy.ledger)
  /\ import_database Toy.db (Some (fst (encrypt_data Toy.auth "oops" Toy.ledger)))
                     Toy.ledger
     = (Ok false, Toy.ledger).
Proof.
  pose proof (import_database_fails_closed Toy.db 1 Toy.ledger toy_db_bound)
    as [Missing [Undecryptable [Unparsable _]]].
  split; [exact Missing | split].
  - apply (Undecryptable [] InvalidToken). reflexivity.
  - apply (Unparsable _ "oops"); reflexivity.
Defined.

End Witnesses.

(** * Further properties of auth_manager.py *)

Lemma next_id_above {A} (id_of : A -> Z) (rows : list A) (r : A) :
  In r rows -> id_of r < next_id id_of rows.
Proof.
  unfold next_id. induction rows as [|a rows IH]; cbn [fold_right In]; [tauto|].
  intros [E|H]; [subst; lia | specialize (IH H); lia].
Qed.

Lemma next_id_positive {A} (id_of : A -> Z) (rows : list A) :
  0 < next_id id_of rows.
Proof.
  unfold next_id.
  assert (H : 0 <= fold_right (fun r m => Z.max (id_of r) m) 0 rows)
    by (induction rows as [|a rows IH]; cbn [fold_right]; lia).
  lia.
Qed.

Lemma NoDup_map_same {A B} (f : A -> B) (l : list A) (a b : A) :
  NoDup (map f l) -> In a l -> In b l -> f a = f b -> a = b.
Proof.
  induction l as [|x l IH]; simpl; [tauto|].
  intros N Ha Hb E. inversion N as [|y ys Hnot Hrest]; subst.
  destruct Ha as [Ha|Ha], Hb as [Hb|Hb]; subst; auto.
  - exfalso. apply Hnot. rewrite E. apply in_map. exact Hb.
  - exfalso. apply Hnot. rewrite <- E. apply in_map. exact Ha.
Qed.

Lemma NoDup_app_intro_last {A} (l : list A) (x : A) :
  NoDup l -> ~ In x l -> NoDup (l ++ [x]).
Proof.
  induction l as [|a l IH]; simpl; intros N Hx.
  - constructor; [tauto | constructor].
  - inversion N as [|y ys Hnot Hrest]; subst. constructor.
    + intros Hin. apply in_app_or in Hin. destruct Hin as [Hin|[Hin|[]]].
      * exact (Hnot Hin).
      * apply Hx. left. symmetry. exact Hin.
    + apply IH; [exact Hrest | tauto].
Qed.

Lemma map_update_same {A B} (g : A -> B) (p : A -> bool) (f : A -> A) (l : list A) :
  (forall a, g (f a) = g a) ->
  map g (map (fun a => if p a then f a else a) l) = map g l.
Proof.
  intros H. rewrite map_map. apply map_ext. intros a.
  destruct (p a); [apply H | reflexivity].
Qed.

Lemma find_filter_kept {A} (p q : A -> bool) (l : list A) :
  (forall a, p a = true -> q a = true) ->
  find p (filter q l) = find p l.
Proof.
  intros H. induction l as [|a l IH]; simpl; [reflexivity|].
  destruct (q a) eqn:Q; simpl.
  - destruct (p a); [reflexivity | exact IH].
  - destruct (p a) eqn:P; [rewrite (H a P) in Q; discriminate | exact IH].
Qed.

Section Accounts.

Context {BC : Bcrypt} {FN : Fernet} {JW : JWT} {PF : PyFloat}
        {EN : Environment} {RT : Runtime}.

Lemma fetch_user_found name w u :
  fetch_user name w = Some u -> In u (users w) /\ Users.username u = name.
Proof.
  unfold fetch_user. intros H. apply find_some in H. destruct H as [Hin He].
  split; [exact Hin | apply String.eqb_eq; exact He].
Qed.

Lemma create_user_outcome self name password email question answer w :
  let r := create_user self name password email question answer w in
  (fst r = true <->
   forall u, In u (users w) -> Users.username u <> name /\ Users.email u <> email)
  /\ (fst r = true ->
      exists u,
        users (snd r) = users w ++ [u]
        /\ Users.id u = next_id Users.id (users w)
        /\ Users.username u = name /\ Users.email u = email
        /\ Users.failed_attempts u = 0 /\ Users.locked_until u = None)
  /\ (fst r = false ->
      users (snd r) = users w /\ sessions (snd r) = sessions w
      /\ salary (snd r) = salary w /\ transactions (snd r) = transactions w)
  /\ sessions (snd r) = sessions w.
Proof.
  unfold create_user, hash_password. cbn [draws drawn users].
  destruct (existsb _ (users w)) eqn:E; cbn [fst snd].
  - split; [|split; [discriminate | split; [intros _; repeat split | reflexivity]]].
    split; [discriminate|]. intros Hfree. exfalso.
    apply existsb_exists in E. destruct E as [u [Hin Hu]].
    destruct (Hfree u Hin) as [Hn He].
    apply orb_true_iff in Hu. destruct Hu as [Hu|Hu]; apply String.eqb_eq in Hu; auto.
  - split; [|split; [|split; [discriminate | reflexivity]]].
    + split; [|reflexivity]. intros _ u Hin.
      assert (F : (Users.username u =? name)%string
                  || (Users.email u =? email)%string = false).
      { destruct ((Users.username u =? name)%string
                  || (Users.email u =? email)%string) eqn:X; [|reflexivity].
        rewrite <- E. symmetry. apply existsb_exists. exists u. split; assumption. }
      apply orb_false_iff in F. destruct F as [Fn Fe].
      split; apply String.eqb_neq; assumption.
    + intros _. eexists. split; [reflexivity|]. repeat split.
Qed.

(** X1. [create_user] returns [True] exactly when no row has the
    username or the email; then it appends one row with the next id, a
    zero counter and no lock. When it returns [False] no table has
    changed. *)
Theorem create_user_succeeds_iff_names_are_free
    self name password email question answer w :
  let r := create_user self name password email question answer w in
  (fst r = true <->
   forall u, In u (users w) -> Users.username u <> name /\ Users.email u <> email)
  /\ (fst r = true ->
      exists u,
        users (snd r) = users w ++ [u]
        /\ Users.id u = next_id Users.id (users w)
        /\ Users.username u = name /\ Users.email u = email
        /\ Users.failed_attempts u = 0 /\ Users.locked_until u = None)
  /\ (fst r = false ->
      users (snd r) = users w /\ sessions (snd r) = sessions w
      /\ salary (snd r) = salary w /\ transactions (snd r) = transactions w)
  /\ sessions (snd r) = sessions w.
Proof. exact (create_user_outcome self name password email question answer w). Qed.

Lemma unique_users_update uid f w :
  (forall u, Users.id (f u) = Users.id u) ->
  (forall u, Users.username (f u) = Users.username u) ->
  (forall u, Users.email (f u) = Users.email u) ->
  unique_users w -> unique_users (update_users uid f w).
Proof.
  intros Hi Hn He [Ni [Nn [Ne Pos]]]. unfold unique_users, update_users.
  cbn [users set_users].
  rewrite !map_update_same by assumption.
  repeat split; try assumption.
  apply Forall_map. eapply Forall_impl; [|exact Pos].
  intros u Hu. cbn beta. destruct (Users.id u =? uid); [rewrite Hi|]; exact Hu.
Qed.

(** X2. The users table keeps ids, usernames and emails pairwise
    distinct and ids positive through [create_user], [login],
    [reset_password] and [logout], whatever their arguments. *)
Theorem users_stay_unique self w :
  unique_users w ->
  (forall name password email question answer,
      unique_users (snd (create_user self name password email question answer w)))
  /\ (forall name password now utcnow,
        unique_users (snd (login self name password now utcnow w)))
  /\ (forall name answer new_password,
        unique_users (snd (reset_password self name answer new_password w)))
  /\ (forall token, unique_users (snd (logout self token w))).
Proof.
  intros U. split; [|split; [|split]].
  - intros name password email question answer.
    pose proof (create_user_outcome
                  self name password email question answer w) as [Iff [Added [Same _]]].
    cbv zeta in *.
    destruct (fst (create_user self name password email question answer w)) eqn:R.
    + destruct (Added eq_refl) as [u [Hu [Hid [Hn [He _]]]]].
      destruct U as [Ni [Nn [Ne Pos]]]. unfold unique_users. rewrite Hu.
      rewrite !map_app. cbn [map].
      pose proof (proj1 Iff eq_refl) as Hfree.
      repeat split.
      * apply NoDup_app_intro_last; [exact Ni|]. rewrite Hid. intros Hin.
        apply in_map_iff in Hin. destruct Hin as [v [Hv Hin]].
        pose proof (next_id_above Users.id (users w) v Hin). lia.
      * apply NoDup_app_intro_last; [exact Nn|]. intros Hin.
        apply in_map_iff in Hin. destruct Hin as [v [Hv Hin]].
        destruct (Hfree v Hin) as [X _]. apply X. rewrite Hv. exact Hn.
      * apply NoDup_app_intro_last; [exact Ne|]. intros Hin.
        apply in_map_iff in Hin. destruct Hin as [v [Hv Hin]].
        destruct (Hfree v Hin) as [_ X]. apply X. rewrite Hv. exact He.
      * apply Forall_app. split; [exact Pos|]. constructor; [|constructor].
        rewrite Hid. apply next_id_positive.
    + destruct (Same eq_refl) as [Hu _]. unfold unique_users. rewrite Hu. exact U.
  - intros name password now utcnow. unfold login.
    destruct (fetch_user name w) as [u|]; [|exact U].
    destruct (is_locked u now); [exact U|].
    destruct (negb _); cbn [snd].
    + apply unique_users_update; auto.
    + apply (unique_users_update (Users.id u) (set_success now) w) in U; auto.
  - intros name answer new_password. unfold reset_password.
    destruct (fetch_user name w) as [u|]; [|exact U].
    destruct (negb _); [exact U|]. cbn [hash_password snd].
    apply (unique_users_update (Users.id u)); auto.
  - intros token. exact U.
Qed.

End Accounts.

Section Logins.

Context {BC : Bcrypt} {FN : Fernet} {JW : JWT} {PF : PyFloat}
        {EN : Environment} {RT : Runtime}.

(** A token over a table whose last row carries it verifies until the
    signed expiry. *)
Lemma issued_token_verifies (JL : JWTLaws) self c token utcnow rows w' s t :
  token = jwt_encode c (jwt_secret self) ->
  claim_exp c = (utcnow + hours 24) / second ->
  sessions w' = rows ++ [s] ->
  Sessions.token s = token ->
  Sessions.expires_at s = utcnow + hours 24 ->
  t < claim_exp c * second ->
  verify_token self token t w' = (true, Payload c).
Proof.
  intros Htok Hexp Hsess Hs He Ht.
  destruct (exp_bounds utcnow) as [_ Hhi].
  unfold verify_token. rewrite Htok, jwt_decode_encode.
  replace (claim_exp c * second <=? t) with false
    by (symmetry; apply Z.leb_gt; exact Ht).
  rewrite <- Htok. unfold fetch_session. rewrite Hsess.
  destruct (find_app_last
              (fun r => (Sessions.token r =? token)%string
                        && (t <? Sessions.expires_at r)) rows s) as [y Hy].
  - rewrite Hs, He, String.eqb_refl. apply Z.ltb_lt. rewrite Hexp in Ht. lia.
  - rewrite Hy. reflexivity.
Qed.

(** What a successful [login] read and what it left. *)
Lemma login_success_row self name password now utcnow w token w' :
  login self name password now utcnow w = ((true, token), w') ->
  exists u,
    fetch_user name w = Some u
    /\ fetch_user name w' = Some (set_success now u)
    /\ token = jwt_encode {| claim_user_id := Users.id u;
                             claim_username := Users.username u;
                             claim_exp := (utcnow + hours 24) / second |}
                          (jwt_secret self)
    /\ sessions w' = sessions w ++
         [ {| Sessions.id := next_id Sessions.id (sessions w);
              Sessions.user_id := Users.id u;
              Sessions.token := token;
              Sessions.expires_at := utcnow + hours 24 |} ].
Proof.
  intros H. pose proof H as H0. unfold login in H.
  destruct (fetch_user name w) as [u|] eqn:Hu; [|discriminate].
  destruct (is_locked u now) eqn:L; [discriminate|].
  destruct (verify_password password (Users.password_hash u)) eqn:V;
    [|discriminate]. clear H.
  destruct (login_right_password self name password now utcnow w u Hu L V)
    as [token' [w'' [Hrun [Hrow [Htok Hsess]]]]].
  rewrite Hrun in H0. injection H0 as Et Ew.
  exists u. repeat split; congruence.
Qed.

(** X3. After [create_user] has returned [True], [login] with the same
    username and password succeeds at any instant, and [verify_token]
    accepts the token at the instant of issue with a payload that names
    the new row: its id and the username. *)
Theorem registered_user_can_log_in (BL : BcryptLaws) (JL : JWTLaws)
    self name password email question answer w w1 now utcnow :
  create_user self name password email question answer w = (true, w1) ->
  exists token w2 c u,
    login self name password now utcnow w1 = ((true, token), w2)
    /\ verify_token self token utcnow w2 = (true, Payload c)
    /\ fetch_user name w1 = Some u
    /\ claim_user_id c = Users.id u
    /\ claim_username c = name.
Proof.
  intros Hc.
  destruct (create_user_registers self name password email question answer w w1 Hc)
    as [u [Hu [Hph [_ [_ Hl]]]]].
  assert (L : is_locked u now = false) by (unfold is_locked; rewrite Hl; reflexivity).
  assert (V : verify_password password (Users.password_hash u) = true)
    by (unfold verify_password; rewrite Hph; apply checkpw_hashpw).
  destruct (login_right_password self name password now utcnow w1 u Hu L V)
    as [token [w2 [Hrun [_ [Htok Hsess]]]]].
  exists token, w2,
    {| claim_user_id := Users.id u;
       claim_username := Users.username u;
       claim_exp := (utcnow + hours 24) / second |}, u.
  split; [exact Hrun|].
  split; [|split; [exact Hu | split; [reflexivity|]]].
  - eapply issued_token_verifies; try eassumption; try reflexivity.
    apply (exp_bounds utcnow).
  - cbn. apply (fetch_user_found name w1 u Hu).
Qed.

(** X4. A [login] for one username changes no row of another username
    and no ledger table: wrong passwords typed for one account cannot
    raise the counter of, or lock, another. *)
Theorem login_leaves_other_accounts_alone self name password now utcnow w :
  NoDup (map Users.id (users w)) ->
  let w' := snd (login self name password now utcnow w) in
  (forall other, other <> name -> fetch_user other w' = fetch_user other w)
  /\ salary w' = salary w
  /\ transactions w' = transactions w
  /\ key_file w' = key_file w.
Proof.
  intros N w'.
  assert (Upd : forall u f,
             fetch_user name w = Some u ->
             (forall r, Users.username (f r) = Users.username r) ->
             forall other, other <> name ->
             fetch_user other (update_users (Users.id u) f w) = fetch_user other w).
  { intros u f Hu Hf other Hne. unfold fetch_user, update_users.
    cbn [users set_users]. rewrite find_map_preserving.
    - destruct (find _ (users w)) as [v|] eqn:Hv; [|reflexivity]. cbn.
      destruct (Users.id v =? Users.id u) eqn:E; [|reflexivity].
      exfalso. apply Z.eqb_eq in E.
      destruct (fetch_user_found other w v Hv) as [Hin Hn].
      destruct (fetch_user_found name w u Hu) as [Hin' Hn'].
      pose proof (NoDup_map_same Users.id (users w) v u N Hin Hin' E). subst v.
      apply Hne. rewrite <- Hn, Hn'. reflexivity.
    - intros r. destruct (Users.id r =? Users.id u); [rewrite Hf|]; reflexivity. }
  unfold w', login.
  destruct (fetch_user name w) as [u|] eqn:Hu; [|repeat split].
  destruct (is_locked u now); [repeat split|].
  destruct (negb _); cbn [snd]; (split; [|repeat split]).
  - apply Upd; auto.
  - intros other Hne. unfold fetch_user. cbn [users set_sessions].
    apply (Upd u (set_success now) eq_refl (fun r => eq_refl) other Hne).
Qed.

(** X5. A [login] that fails adds no session. One that succeeds appends
    exactly one row to the sessions table, for the user found, with the
    token returned and an expiry 24 hours after [utcnow]; the rows that
    were there stay. *)
Theorem login_opens_a_session_only_on_success self name password now utcnow w :
  let r := login self name password now utcnow w in
  (fst (fst r) = false -> sessions (snd r) = sessions w)
  /\ (fst (fst r) = true ->
      exists u s,
        fetch_user name w = Some u
        /\ sessions (snd r) = sessions w ++ [s]
        /\ Sessions.user_id s = Users.id u
        /\ Sessions.token s = snd (fst r)
        /\ Sessions.expires_at s = utcnow + hours 24).
Proof.
  cbv zeta. split.
  - unfold login. destruct (fetch_user name w) as [u|]; [|reflexivity].
    destruct (is_locked u now); [reflexivity|].
    destruct (negb _); [reflexivity | discriminate].
  - intros Hs.
    destruct (login self name password now utcnow w) as [[ok token] w'] eqn:R.
    cbn [fst snd] in *. subst ok.
    destruct (login_success_row self name password now utcnow w token w' R)
      as [u [Hu [_ [_ Hsess]]]].
    eexists u, _. split; [exact Hu|]. split; [exact Hsess|]. repeat split.
Qed.

(** X6. The counter is not cleared when a lock runs out: for an account
    whose counter is five or more and whose lock has passed, one wrong
    password is answered "Invalid username or password" and locks the
    account again for thirty minutes. *)
Theorem one_failure_locks_again_after_expiry
    self name password now utcnow w u :
  fetch_user name w = Some u ->
  5 <= Users.failed_attempts u ->
  is_locked u now = false ->
  verify_password password (Users.password_hash u) = false ->
  exists u',
    fst (login self name password now utcnow w) = invalid_credentials
    /\ fetch_user name (snd (login self name password now utcnow w)) = Some u'
    /\ Users.failed_attempts u' = Users.failed_attempts u + 1
    /\ Users.locked_until u' = Some (now + minutes 30)
    /\ forall p t t',
         t < now + minutes 30 ->
         fst (login self name p t t' (snd (login self name password now utcnow w)))
         = account_locked.
Proof.
  intros Hu H5 L V.
  rewrite (login_wrong_password self name password now utcnow w u Hu L V).
  replace (5 <=? Users.failed_attempts u + 1) with true
    by (symmetry; apply Z.leb_le; lia).
  cbn [fst snd]. eexists. split; [reflexivity|].
  split; [apply fetch_user_update_users; [reflexivity | exact Hu]|].
  split; [reflexivity|]. split; [reflexivity|].
  intros p t t' Ht.
  erewrite login_locked; [reflexivity | |].
  - apply fetch_user_update_users; [reflexivity | exact Hu].
  - unfold is_locked. cbn. apply Z.ltb_lt. exact Ht.
Qed.

(** X7. [reset_password] does not lift a lock: when the account is
    locked at [now] and the answer is right, the password is replaced,
    and a [login] at [now] is still answered "Account is locked", with
    the new password as with any other. *)
Theorem reset_password_does_not_unlock (BL : BcryptLaws)
    self name w u registered s answer new_password now :
  fetch_user name w = Some u ->
  Users.security_answer_hash u = hashpw (encode (lower registered)) s ->
  lower answer = lower registered ->
  is_locked u now = true ->
  exists w',
    reset_password self name answer new_password w = (true, w')
    /\ forall p utcnow, login self name p now utcnow w' = (account_locked, w').
Proof.
  intros Hu Hreg Hcase L.
  unfold reset_password, verify_password. rewrite Hu, Hreg, Hcase.
  rewrite checkpw_hashpw. cbn [negb hash_password].
  eexists. split; [reflexivity|]. intros p utcnow.
  eapply login_locked.
  - apply fetch_user_update_users; [reflexivity | exact Hu].
  - exact L.
Qed.

(** X8. The token is a function of the user, the secret and the second
    of expiry: two successful logins of one username whose expiries fall
    in the same second return the same token and leave two rows with it,
    and one [logout] with it deletes both. *)
Theorem logins_in_one_second_share_a_token
    self name p1 p2 now1 now2 utc1 utc2 w t1 w1 t2 w2 :
  login self name p1 now1 utc1 w = ((true, t1), w1) ->
  login self name p2 now2 utc2 w1 = ((true, t2), w2) ->
  (utc1 + hours 24) / second = (utc2 + hours 24) / second ->
  t1 = t2
  /\ (exists s1 s2,
        sessions w2 = sessions w ++ [s1; s2]
        /\ Sessions.token s1 = t1 /\ Sessions.token s2 = t1)
  /\ (forall t, fetch_session t2 t (snd (logout self t1 w2)) = None)
  /\ Forall (fun s => Sessions.token s <> t2) (sessions (snd (logout self t1 w2))).
Proof.
  intros H1 H2 Hsec.
  destruct (login_success_row self name p1 now1 utc1 w t1 w1 H1)
    as [u [Hu [Hu1 [Ht1 Hs1]]]].
  destruct (login_success_row self name p2 now2 utc2 w1 t2 w2 H2)
    as [u' [Hu' [_ [Ht2 Hs2]]]].
  rewrite Hu1 in Hu'. inversion Hu'; subst u'. cbn in Ht2.
  assert (E : t1 = t2) by (rewrite Ht1, Ht2, Hsec; reflexivity).
  split; [exact E|]. split; [|split].
  - eexists _, _. split; [rewrite Hs2, Hs1, <- app_assoc; reflexivity|].
    split; [reflexivity | symmetry; exact E].
  - intros t. rewrite <- E. apply fetch_session_logout.
  - rewrite <- E. unfold logout. cbn [snd sessions set_sessions].
    apply Forall_forall. intros s Hs. apply filter_In in Hs.
    destruct Hs as [_ Hs]. apply negb_true_iff in Hs.
    apply String.eqb_neq. exact Hs.
Qed.

(** X9. [logout] returns [True], touches no user row, and deletes only
    the rows of its token: every other token finds the same session and
    gets the same answer from [verify_token] as before; the token itself
    finds none; a second [logout] with it changes nothing. *)
Theorem logout_revokes_only_its_token self token w :
  let w' := snd (logout self token w) in
  fst (logout self token w) = true
  /\ users w' = users w
  /\ (forall other t, other <> token ->
        fetch_session other t w' = fetch_session other t w)
  /\ (forall (a : AuthManager) other t, other <> token ->
        verify_token a other t w' = verify_token a other t w)
  /\ (forall t, fetch_session token t w' = None)
  /\ snd (logout self token w') = w'.
Proof.
  cbv zeta.
  assert (F : forall other t, other <> token ->
              fetch_session other t (snd (logout self token w))
              = fetch_session other t w).
  { intros other t Hne. unfold fetch_session, logout.
    cbn [snd sessions set_sessions]. apply find_filter_kept.
    intros s Hs. apply andb_true_iff in Hs. destruct Hs as [Hs _].
    apply String.eqb_eq in Hs. apply negb_true_iff. apply String.eqb_neq.
    rewrite Hs. exact Hne. }
  split; [reflexivity|]. split; [reflexivity|]. split; [exact F|].
  split; [|split].
  - intros a other t Hne. unfold verify_token. rewrite (F other t Hne). reflexivity.
  - intros t. apply fetch_session_logout.
  - unfold logout. cbn [snd sessions set_sessions]. unfold set_sessions.
    cbn [users sessions salary transactions key_file draws].
    rewrite (filter_negb_filter_negb (fun s => (Sessions.token s =? token)%string)).
    reflexivity.
Qed.

(** X10. With JWT_SECRET set, every instance signs with that secret,
    whatever it draws: two instances give the same answer to every
    token, and a token that [login] of one returned is accepted by the
    other over the same tables. *)
Theorem instances_with_JWT_SECRET_accept_each_other (JL : JWTLaws) secret w0 :
  let a := fst (AuthManager_init (Some secret) w0) in
  let b := fst (AuthManager_init (Some secret) (snd (AuthManager_init (Some secret) w0))) in
  jwt_secret a = secret
  /\ jwt_secret b = secret
  /\ (forall token t w, verify_token b token t w = verify_token a token t w)
  /\ (forall name password now utcnow w token w',
        login a name password now utcnow w = ((true, token), w') ->
        exists c, verify_token b token utcnow w' = (true, Payload c)).
Proof.
  intros a b.
  assert (Ha : jwt_secret a = secret)
    by (unfold a, AuthManager_init; destruct (key_file w0); reflexivity).
  assert (Hb : jwt_secret b = secret).
  { unfold b. generalize (snd (AuthManager_init (Some secret) w0)). intros w.
    unfold AuthManager_init. destruct (key_file w); reflexivity. }
  assert (Same : forall token t w, verify_token b token t w = verify_token a token t w)
    by (intros; unfold verify_token; rewrite Ha, Hb; reflexivity).
  split; [exact Ha|]. split; [exact Hb|]. split; [exact Same|].
  intros name password now utcnow w token w' Hlogin.
  destruct (login_success_row a name password now utcnow w token w' Hlogin)
    as [u [_ [_ [Htok Hsess]]]].
  eexists. rewrite Same.
  eapply issued_token_verifies; try eassumption; try reflexivity.
  apply (exp_bounds utcnow).
Qed.

End Logins.

(** * Further properties of database.py *)

Lemma filter_all {A} (p : A -> bool) (l : list A) :
  Forall (fun a => p a = true) l -> filter p l = l.
Proof.
  induction 1 as [|a l Ha _ IH]; simpl; [reflexivity|].
  rewrite Ha, IH. reflexivity.
Qed.

Lemma filter_none {A} (p : A -> bool) (l : list A) :
  Forall (fun a => p a = false) l -> filter p l = [].
Proof.
  induction 1 as [|a l Ha _ IH]; simpl; [reflexivity|].
  rewrite Ha, IH. reflexivity.
Qed.

Section Books.

Context {BC : Bcrypt} {FN : Fernet} {JW : JWT} {PF : PyFloat}
        {EN : Environment} {RT : Runtime} {FA : PyFloatAdd} {FM : Formatting}.

Lemma require_user_unbound self w :
  user_id self = None \/ user_id self = Some 0 ->
  require_user self w = (Raise ValueError, w).
Proof. intros [H|H]; unfold require_user; rewrite H; reflexivity. Qed.

(** X11. A [BudgetDatabase] whose [user_id] is [None] or [0] raises
    [ValueError] from every method and changes nothing;
    [import_database] too raises it, from before its [try], and does
    not return [False]. *)
Theorem unbound_ledger_raises_ValueError self w :
  user_id self = None \/ user_id self = Some 0 ->
  (forall a, update_salary self a w = (Raise ValueError, w))
  /\ get_salary self w = (Raise ValueError, w)
  /\ (forall d a c s, add_transaction self d a c s w = (Raise ValueError, w))
  /\ (forall s e, get_transactions self s e w = (Raise ValueError, w))
  /\ (forall s e, get_category_totals self s e w = (Raise ValueError, w))
  /\ (forall n t, export_database self n t w = (Raise ValueError, w))
  /\ (forall f, import_database self f w = (Raise ValueError, w))
  /\ (forall l, list_backups self l w = (Raise ValueError, w)).
Proof.
  intros U. pose proof (require_user_unbound self w U) as R.
  repeat split; intros;
    unfold update_salary, get_salary, add_transaction, get_transactions,
           get_category_totals, export_database, import_database, list_backups, bind;
    rewrite R; reflexivity.
Qed.

Lemma import_database_bound self uid backup_file w :
  bound self uid ->
  import_database self backup_file w
  = catch (import_body self uid backup_file) (fun _ => ret false) w.
Proof.
  intros B. unfold import_database, bind.
  rewrite (require_user_bound self uid w B). reflexivity.
Qed.

(** Whatever the deletes, [update_salary] and [add_transaction] carry
    along, [import_database] carries along. *)
Lemma import_database_keeps (P : world -> Prop) self uid backup_file :
  bound self uid ->
  (forall w, P w -> P (delete_salary uid w)) ->
  (forall w, P w -> P (delete_transactions uid w)) ->
  (forall x, preserves P (update_salary self x)) ->
  (forall d a c s, preserves P (add_transaction self d a c s)) ->
  preserves P (import_database self backup_file).
Proof.
  intros B HdS HdT Hsal Hadd w r w' H Pw.
  rewrite (import_database_bound self uid backup_file w B) in H.
  revert w r w' H Pw. change (preserves P (catch (import_body self uid backup_file)
                                                 (fun _ => ret false))).
  apply preserves_catch; [|intros e; apply preserves_ret].
  unfold import_body.
  apply preserves_bind; [apply preserves_lift | intros c].
  apply preserves_bind; [unfold decrypt; apply preserves_lift | intros s].
  apply preserves_bind; [apply preserves_lift | intros data].
  apply preserves_bind; [|intros _; apply preserves_ret].
  unfold restore.
  apply preserves_bind; [apply preserves_modify; exact HdS | intros _].
  apply preserves_bind; [apply preserves_modify; exact HdT | intros _].
  apply preserves_bind; [apply preserves_lift | intros sv].
  apply preserves_bind.
  { destruct (truthy sv); [|apply preserves_ret].
    apply preserves_bind; [apply preserves_lift | intros x]. apply Hsal. }
  intros _.
  apply preserves_bind; [apply preserves_lift | intros ts].
  apply preserves_bind; [apply preserves_lift | intros items].
  apply preserves_for_each. intros trans. unfold import_transaction.
  repeat (apply preserves_bind; [apply preserves_lift | intros ?]).
  apply Hadd.
Qed.

Lemma others_delete_salary uid w : others uid (delete_salary uid w) = others uid w.
Proof.
  unfold others, delete_salary. cbn [salary transactions users sessions set_salary].
  rewrite (filter_negb_filter_negb (fun r => Salary.user_id r =? uid)). reflexivity.
Qed.

Lemma others_delete_transactions uid w :
  others uid (delete_transactions uid w) = others uid w.
Proof.
  unfold others, delete_transactions.
  cbn [salary transactions users sessions set_transactions].
  rewrite (filter_negb_filter_negb (fun t => Transactions.user_id t =? uid)).
  reflexivity.
Qed.

Lemma others_update_salary self uid x w :
  bound self uid -> others uid (snd (update_salary self x w)) = others uid w.
Proof.
  intros B. rewrite (update_salary_bound self uid x w B). cbn [snd].
  unfold others, insert_salary, delete_salary.
  cbn [salary transactions users sessions set_salary drawn].
  rewrite filter_app. cbn [filter Salary.user_id]. rewrite Z.eqb_refl. cbn [negb].
  rewrite app_nil_r.
  rewrite (filter_negb_filter_negb (fun r => Salary.user_id r =? uid)). reflexivity.
Qed.

Lemma others_add_transaction self uid d a c s w :
  bound self uid -> others uid (snd (add_transaction self d a c s w)) = others uid w.
Proof.
  intros B. rewrite (add_transaction_bound self uid d a c s w B).
  destruct (as_str _); [|reflexivity].
  destruct (bind_category c); [|reflexivity]. cbn [snd].
  unfold others, insert_transaction.
  cbn [salary transactions users sessions set_transactions drawn].
  rewrite filter_app. cbn [filter Transactions.user_id]. rewrite Z.eqb_refl.
  cbn [negb]. rewrite app_nil_r. reflexivity.
Qed.

(** X12. For a bound user, [update_salary], [add_transaction] and
    [import_database] leave alone, whatever they are given and whether
    they return or raise, every salary and transaction row of another
    user and the whole users and sessions tables. *)
Theorem ledger_writes_stay_with_their_user self uid w :
  bound self uid ->
  (forall x, others uid (snd (update_salary self x w)) = others uid w)
  /\ (forall d a c s, others uid (snd (add_transaction self d a c s w)) = others uid w)
  /\ (forall f, others uid (snd (import_database self f w)) = others uid w).
Proof.
  intros B. split; [|split].
  - intros x. apply others_update_salary. exact B.
  - intros d a c s. apply others_add_transaction. exact B.
  - intros f.
    destruct (import_database self f w) as [r w'] eqn:R. cbn [snd].
    refine (import_database_keeps (fun v => others uid v = others uid w)
              self uid f B _ _ _ _ w r w' R eq_refl).
    + intros v Hv. rewrite others_delete_salary. exact Hv.
    + intros v Hv. rewrite others_delete_transactions. exact Hv.
    + intros x v r0 v' H Hv.
      pose proof (others_update_salary self uid x v B) as E.
      rewrite H in E. cbn [snd] in E. rewrite E. exact Hv.
    + intros d a c s v r0 v' H Hv.
      pose proof (others_add_transaction self uid d a c s v B) as E.
      rewrite H in E. cbn [snd] in E. rewrite E. exact Hv.
Qed.

(** X13. A blob that decrypts and parses to a value without a 'salary'
    entry (a list, a number, null, a dict lacking the key) makes
    [import_database] return [False] only after the two DELETE
    statements: the user's salary and transaction rows are gone, those
    of others are as before. *)
Theorem import_of_a_misshapen_snapshot_empties_the_ledger
    self uid w c s data e :
  bound self uid ->
  decrypt_data (auth_manager self) c = Ok s ->
  json_loads s = Some data ->
  getitem data "salary" = Raise e ->
  exists w',
    import_database self (Some c) w = (Ok false, w')
    /\ filter (fun r => Salary.user_id r =? uid) (salary w') = []
    /\ filter (fun t => Transactions.user_id t =? uid) (transactions w') = []
    /\ others uid w' = others uid w.
Proof.
  intros B D J G. exists (delete_transactions uid (delete_salary uid w)).
  split; [|split; [|split]].
  - rewrite (import_database_bound self uid (Some c) w B).
    unfold catch, import_body, bind, decrypt, lift. rewrite D, J.
    unfold restore, bind, modify, lift. rewrite G. reflexivity.
  - unfold delete_transactions, delete_salary.
    cbn [salary set_salary set_transactions].
    apply (filter_filter_negb (fun r => Salary.user_id r =? uid)).
  - unfold delete_transactions, delete_salary.
    cbn [transactions set_salary set_transactions].
    apply (filter_filter_negb (fun t => Transactions.user_id t =? uid)).
  - rewrite others_delete_transactions, others_delete_salary. reflexivity.
Qed.

End Books.

Section Entries.

Context {BC : Bcrypt} {FN : Fernet} {JW : JWT} {PF : PyFloat}
        {EN : Environment} {RT : Runtime} {FA : PyFloatAdd} {FM : Formatting}.

Lemma decrypt_transaction_columns self r w t w' :
  decrypt_transaction self r w = (Ok t, w') ->
  w' = w /\ row t = r /\ shown t = columns self r.
Proof.
  unfold decrypt_transaction, bind, decrypt, lift, parse_float, ret, raise,
         shown, columns.
  destruct (decrypt_data (auth_manager self) (Transactions.amount_encrypted r))
    as [text|e]; [|discriminate].
  destruct (float_of_string text) as [x|]; [|discriminate].
  destruct (Transactions.description_encrypted r) as [c|]; [|discriminate].
  destruct (decrypt_data (auth_manager self) c) as [d|e]; [|discriminate].
  intros H. inversion H; subst. repeat split.
Qed.

Lemma decrypt_all_columns self rows : forall w l w',
  decrypt_all self rows w = (Ok l, w') ->
  w' = w /\ map row l = rows /\ map shown l = map (columns self) rows.
Proof.
  induction rows as [|r rows IH]; intros w l w' H.
  - inversion H; subst. repeat split.
  - cbn [decrypt_all] in H. unfold bind at 1 in H.
    destruct (decrypt_transaction self r w) as [[t|e] w1] eqn:T; [|discriminate].
    apply decrypt_transaction_columns in T. destruct T as [-> [Hr Hs]].
    unfold bind at 1 in H.
    destruct (decrypt_all self rows w) as [[ts|e] w2] eqn:A; [|discriminate].
    destruct (IH w ts w2 A) as [-> [Hrows Hshown]].
    unfold ret in H. injection H as El Ew. rewrite <- El, <- Ew.
    cbn [map]. rewrite Hr, Hs, Hrows, Hshown. repeat split.
Qed.

Lemma get_transactions_columns self uid s e w l w' :
  bound self uid ->
  get_transactions self s e w = (Ok l, w') ->
  w' = w
  /\ map row l = select_transactions uid s e w
  /\ map shown l = map (columns self) (select_transactions uid s e w).
Proof.
  intros B H. unfold get_transactions, bind, get in H.
  rewrite (require_user_bound self uid w B) in H.
  exact (decrypt_all_columns self _ w l w' H).
Qed.

Lemma columns_stores (FL : FernetLaws) (PL : PyFloatLaws) self uid r e :
  stores (encryption_key (auth_manager self)) uid r e -> columns self r = e.
Proof.
  destruct e as [[[d a] c] s]. intros [_ [Hd [Hc [[n Ha] [n' Hs]]]]].
  unfold columns, decrypt_data. rewrite Ha, Hs, Hd, Hc.
  rewrite !fernet_correct, !decode_encode, float_str_roundtrip. reflexivity.
Qed.

Lemma select_all_permutation uid w :
  Permutation (select_transactions uid None None w)
              (filter (fun t => Transactions.user_id t =? uid) (transactions w)).
Proof. apply order_by_date_desc_permutation. Qed.

(** X14. Over a ledger whose rows of the user are sealed, a transaction
    added with a text category and a text description is listed by the
    next [get_transactions()] with the date, amount, category and
    description that were given, beside the entries listed before. *)
Theorem added_transaction_is_listed (FL : FernetLaws) (PL : PyFloatLaws)
    self uid d a c s w :
  bound self uid ->
  Forall (sealed (encryption_key (auth_manager self)))
         (filter (fun t => Transactions.user_id t =? uid) (transactions w)) ->
  exists w' l l',
    add_transaction self d a (PStr c) (Some (PStr s)) w = (Ok tt, w')
    /\ get_transactions self None None w = (Ok l, w)
    /\ get_transactions self None None w' = (Ok l', w')
    /\ Permutation (map shown l') ((d, a, c, s) :: map shown l).
Proof.
  intros B Hs.
  rewrite (add_transaction_bound self uid d a (PStr c) (Some (PStr s)) w B).
  cbn [as_str bind_category].
  set (t := {| Transactions.id := next_id Transactions.id (transactions (drawn (drawn w)));
               Transactions.user_id := uid;
               Transactions.date := d;
               Transactions.amount_encrypted :=
                 fernet_encrypt (encryption_key (auth_manager self))
                                (fernet_nonce (draws w)) (encode (float_str a));
               Transactions.category := c;
               Transactions.description_encrypted :=
                 Some (fernet_encrypt (encryption_key (auth_manager self))
                                      (fernet_nonce (S (draws w))) (encode s));
               Transactions.created_at := current_timestamp (draws (drawn (drawn w))) |}).
  set (w' := insert_transaction uid d _ c _ (drawn (drawn w))).
  assert (Hrows : filter (fun r => Transactions.user_id r =? uid) (transactions w')
                  = filter (fun r => Transactions.user_id r =? uid) (transactions w)
                    ++ [t]).
  { unfold w', insert_transaction. cbn [transactions set_transactions drawn].
    rewrite filter_app. cbn [filter Transactions.user_id]. rewrite Z.eqb_refl.
    reflexivity. }
  assert (Ht : stores (encryption_key (auth_manager self)) uid t (d, a, c, s)).
  { repeat split; eexists; reflexivity. }
  assert (Hs' : Forall (sealed (encryption_key (auth_manager self)))
                       (filter (fun r => Transactions.user_id r =? uid) (transactions w'))).
  { rewrite Hrows. apply Forall_app. split; [exact Hs|].
    constructor; [|constructor]. eexists _, _, _, _. split; reflexivity. }
  destruct (get_transactions_sealed FL PL self uid None None w B Hs) as [l [Hl _]].
  destruct (get_transactions_sealed FL PL self uid None None w' B Hs') as [l' [Hl' _]].
  exists w', l, l'. split; [reflexivity|]. split; [exact Hl|]. split; [exact Hl'|].
  destruct (get_transactions_columns self uid None None w l w B Hl) as [_ [_ Sl]].
  destruct (get_transactions_columns self uid None None w' l' w' B Hl') as [_ [_ Sl']].
  rewrite Sl, Sl'.
  rewrite <- (columns_stores FL PL self uid t (d, a, c, s) Ht).
  change (columns self t :: map (columns self) (select_transactions uid None None w))
    with (map (columns self) (t :: select_transactions uid None None w)).
  apply Permutation_map.
  eapply Permutation_trans; [apply select_all_permutation|]. rewrite Hrows.
  eapply Permutation_trans; [apply Permutation_app_comm|]. cbn [app].
  apply perm_skip. apply Permutation_sym. apply select_all_permutation.
Qed.

Lemma latest_some (rows : list Salary.row) :
  rows <> [] -> exists r, latest rows = Some r /\ In r rows.
Proof.
  unfold latest.
  assert (G : forall l b, In b rows -> (forall x, In x l -> In x rows) ->
              exists r, fold_left (fun best r =>
                          match best with
                          | None => Some r
                          | Some b => if Salary.updated_at b <? Salary.updated_at r
                                      then Some r else Some b
                          end) l (Some b) = Some r /\ In r rows).
  { induction l as [|x l IH]; intros b Hb Hl; cbn [fold_left].
    - exists b. split; [reflexivity | exact Hb].
    - destruct (Salary.updated_at b <? Salary.updated_at x); apply IH;
        try (intros y Hy; apply Hl; right; exact Hy); auto.
      apply Hl. left. reflexivity. }
  destruct rows as [|a rows]; [congruence|]. intros _. cbn [fold_left].
  apply G; [left; reflexivity | intros x Hx; right; exact Hx].
Qed.

(** X15. A ledger opened with another key than the one its rows were
    written under cannot be read at all: [get_transactions] raises
    [InvalidToken] as soon as the query selects one row, and
    [get_salary] raises it as soon as the user has a salary row. Neither
    changes anything. *)
Theorem another_key_aborts_every_read (FL : FernetLaws) self k uid w :
  bound self uid ->
  k <> encryption_key (auth_manager self) ->
  (forall s e t,
      Forall (sealed k) (filter (fun t => Transactions.user_id t =? uid) (transactions w)) ->
      In t (transactions w) ->
      selected uid s e t = true ->
      get_transactions self s e w = (Raise InvalidToken, w))
  /\ (forall r,
        Forall (sealed_salary k) (filter (fun r => Salary.user_id r =? uid) (salary w)) ->
        In r (salary w) ->
        Salary.user_id r = uid ->
        get_salary self w = (Raise InvalidToken, w)).
Proof.
  intros B Hk. split.
  - intros s e t Hs Hin Hsel.
    pose proof (select_transactions_selected uid s e w) as Hperm.
    unfold get_transactions, bind, get. rewrite (require_user_bound self uid w B).
    destruct (select_transactions uid s e w) as [|t0 rest] eqn:S.
    + exfalso. apply Permutation_nil in Hperm.
      assert (X : In t (filter (selected uid s e) (transactions w)))
        by (apply filter_In; split; assumption).
      rewrite Hperm in X. exact X.
    + assert (X : In t0 (filter (selected uid s e) (transactions w)))
        by (eapply Permutation_in; [exact Hperm | left; reflexivity]).
      apply filter_In in X. destruct X as [Hin0 Hsel0].
      unfold selected in Hsel0. apply andb_true_iff in Hsel0.
      destruct Hsel0 as [Hu0 _].
      assert (Hs0 : sealed k t0).
      { apply (proj1 (Forall_forall _ _) Hs). apply filter_In. split; assumption. }
      destruct Hs0 as [n [n' [x [d [Ha _]]]]].
      cbn [decrypt_all]. unfold bind at 1. unfold decrypt_transaction, bind at 1.
      unfold decrypt, lift, decrypt_data. rewrite Ha.
      rewrite (fernet_decrypt_other_key FL k _ n _ Hk). reflexivity.
  - intros r Hs Hin Hu.
    unfold get_salary, bind, get. rewrite (require_user_bound self uid w B).
    destruct (latest_some (filter (fun r => Salary.user_id r =? uid) (salary w)))
      as [r0 [Hl Hin0]].
    { intros E. assert (X : In r (filter (fun r => Salary.user_id r =? uid) (salary w)))
        by (apply filter_In; split; [exact Hin | apply Z.eqb_eq; exact Hu]).
      rewrite E in X. exact X. }
    rewrite Hl.
    destruct (proj1 (Forall_forall _ _) Hs r0 Hin0) as [n [x Ha]].
    unfold decrypt, lift, decrypt_data. rewrite Ha.
    rewrite (fernet_decrypt_other_key FL k _ n _ Hk). reflexivity.
Qed.

End Entries.

Section Snapshots.

Context {BC : Bcrypt} {FN : Fernet} {JW : JWT} {PF : PyFloat}
        {EN : Environment} {RT : Runtime} {FA : PyFloatAdd} {FM : Formatting}.

Lemma import_transaction_reads self uid trans d a c s w :
  bound self uid ->
  reads_as trans (d, a, c, s) ->
  import_transaction self trans w
  = (Ok tt,
     insert_transaction uid d
       (fernet_encrypt (encryption_key (auth_manager self))
                       (fernet_nonce (draws w)) (encode (float_str a)))
       c
       (fernet_encrypt (encryption_key (auth_manager self))
                       (fernet_nonce (S (draws w))) (encode s))
       (drawn (drawn w))).
Proof.
  intros B [dv [av [cv [G1 [P1 [G2 [P2 [G3 [P3 G4]]]]]]]]].
  unfold import_transaction, bind, lift.
  rewrite G1, P1, G2, P2, G3, G4.
  rewrite (add_transaction_bound self uid d a cv (Some (PStr s)) w B).
  cbn [as_str]. rewrite P3. reflexivity.
Qed.

Lemma import_loop self uid items entries :
  bound self uid ->
  Forall2 reads_as items entries ->
  forall w, exists rows w',
    for_each items (import_transaction self) w = (Ok tt, w')
    /\ transactions w' = transactions w ++ rows
    /\ Forall2 (stores (encryption_key (auth_manager self)) uid) rows entries
    /\ salary w' = salary w.
Proof.
  intros B F. induction F as [|trans e items entries Hr F IH]; intros w.
  - exists [], w. cbn [for_each]. rewrite app_nil_r. repeat split. constructor.
  - destruct e as [[[d a] c] s].
    cbn [for_each]. unfold bind at 1.
    rewrite (import_transaction_reads self uid trans d a c s w B Hr).
    match goal with |- context [for_each items _ ?v] => destruct (IH v) as [rows [w' [Hrun [Htx [Hst Hsal]]]]] end.
    eexists (_ :: rows), w'. split; [exact Hrun|]. split; [|split].
    + rewrite Htx. unfold insert_transaction. cbn [transactions set_transactions drawn].
      rewrite <- app_assoc. reflexivity.
    + constructor; [|exact Hst]. repeat split; eexists; reflexivity.
    + rewrite Hsal. reflexivity.
Qed.

Lemma get_salary_single (FL : FernetLaws) (PL : PyFloatLaws) self uid w r n x :
  bound self uid ->
  filter (fun r => Salary.user_id r =? uid) (salary w) = [r] ->
  Salary.amount_encrypted r
  = fernet_encrypt (encryption_key (auth_manager self)) n (encode (float_str x)) ->
  get_salary self w = (Ok x, w).
Proof.
  intros B Hr Ha. unfold get_salary, bind, get.
  rewrite (require_user_bound self uid w B). rewrite Hr.
  cbn [latest fold_left]. rewrite Ha, (decrypt_sealed FL).
  unfold lift, parse_float. rewrite float_str_roundtrip. reflexivity.
Qed.

Lemma get_salary_none self uid w :
  bound self uid ->
  filter (fun r => Salary.user_id r =? uid) (salary w) = [] ->
  get_salary self w = (Ok float_zero, w).
Proof.
  intros B Hr. unfold get_salary, bind, get.
  rewrite (require_user_bound self uid w B). rewrite Hr. reflexivity.
Qed.

Lemma import_body_parsed self uid c text data w :
  decrypt_data (auth_manager self) c = Ok text ->
  json_loads text = Some data ->
  import_body self uid (Some c) w
  = match restore self uid data w with
    | (Ok _, w') => (Ok true, w')
    | (Raise e, w') => (Raise e, w')
    end.
Proof.
  intros D J. unfold import_body, bind, decrypt, lift. rewrite D, J.
  destruct (restore self uid data w) as [[[]|e] w']; reflexivity.
Qed.

Lemma import_database_restores (FL : FernetLaws) (PL : PyFloatLaws)
    self uid w c text data sv tv items entries :
  bound self uid ->
  decrypt_data (auth_manager self) c = Ok text ->
  json_loads text = Some data ->
  getitem data "salary" = Ok sv ->
  (truthy sv = true -> exists x, to_float sv = Ok x) ->
  getitem data "transactions" = Ok tv ->
  iterate tv = Ok items ->
  Forall2 reads_as items entries ->
  exists w' l,
    import_database self (Some c) w = (Ok true, w')
    /\ get_transactions self None None w' = (Ok l, w')
    /\ Permutation (map shown l) entries
    /\ (forall x, truthy sv = true -> to_float sv = Ok x ->
          get_salary self w' = (Ok x, w'))
    /\ (truthy sv = false -> get_salary self w' = (Ok float_zero, w')).
Proof.
  intros B D J Gs Hf Gt It F.
  set (w1 := delete_transactions uid (delete_salary uid w)).
  assert (Salary1 : filter (fun r => Salary.user_id r =? uid) (salary w1) = []).
  { unfold w1, delete_transactions, delete_salary. cbn [salary set_salary set_transactions].
    apply (filter_filter_negb (fun r => Salary.user_id r =? uid)). }
  assert (Tx1 : filter (fun t => Transactions.user_id t =? uid) (transactions w1) = []).
  { unfold w1, delete_transactions, delete_salary.
    cbn [transactions set_salary set_transactions].
    apply (filter_filter_negb (fun t => Transactions.user_id t =? uid)). }
  (* the salary step *)
  assert (Sal : exists w2,
             (if truthy sv
              then bind (lift (to_float sv)) (fun x => update_salary self x)
              else ret tt) w1 = (Ok tt, w2)
             /\ transactions w2 = transactions w1
             /\ (forall x, truthy sv = true -> to_float sv = Ok x ->
                   exists r n,
                     filter (fun r => Salary.user_id r =? uid) (salary w2) = [r]
                     /\ Salary.amount_encrypted r
                        = fernet_encrypt (encryption_key (auth_manager self)) n
                                         (encode (float_str x)))
             /\ (truthy sv = false ->
                 filter (fun r => Salary.user_id r =? uid) (salary w2) = [])).
  { destruct (truthy sv) eqn:T.
    - destruct (Hf eq_refl) as [x Hx]. unfold bind, lift. rewrite Hx.
      rewrite (update_salary_bound self uid x w1 B).
      eexists. split; [reflexivity|]. split; [reflexivity|]. split; [|discriminate].
      intros x' _ Hx'. assert (Ex : x' = x) by congruence. subst x'.
      eexists _, _. split.
      { unfold insert_salary. cbn [salary set_salary].
        rewrite filter_app. unfold delete_salary at 1. cbn [salary set_salary drawn].
        rewrite (filter_filter_negb (fun r => Salary.user_id r =? uid)).
        cbn. rewrite Z.eqb_refl. reflexivity. }
      reflexivity.
    - exists w1. split; [reflexivity|]. split; [reflexivity|].
      split; [discriminate | intros _; exact Salary1]. }
  destruct Sal as [w2 [Hsal [Htx2 [Hsome Hnone]]]].
  destruct (import_loop self uid items entries B F w2)
    as [rows [w3 [Hloop [Htx3 [Hst Hsal3]]]]].
  assert (Run : restore self uid data w = (Ok tt, w3)).
  { unfold restore. unfold bind at 1. unfold modify at 1.
    unfold bind at 1. unfold modify at 1. fold w1.
    unfold bind at 1. unfold lift at 1. rewrite Gs.
    unfold bind at 1. rewrite Hsal.
    unfold bind at 1. unfold lift at 1. rewrite Gt.
    unfold bind at 1. unfold lift at 1. rewrite It. exact Hloop. }
  assert (Mine : filter (fun t => Transactions.user_id t =? uid) (transactions w3) = rows).
  { rewrite Htx3, Htx2, filter_app, Tx1. cbn [app].
    apply filter_all. clear -Hst. induction Hst as [|t e ts es H _ IH]; constructor; auto.
    destruct e as [[[d a] c0] s]. destruct H as [H _]. apply Z.eqb_eq. exact H. }
  assert (Sealed3 : Forall (sealed (encryption_key (auth_manager self)))
                           (filter (fun t => Transactions.user_id t =? uid)
                                   (transactions w3))).
  { rewrite Mine. clear -Hst. induction Hst as [|t e ts es H _ IH]; constructor; auto.
    destruct e as [[[d a] c0] s]. destruct H as [_ [_ [_ [[n Ha] [n' Hs]]]]].
    exists n, n', a, s. split; assumption. }
  destruct (get_transactions_sealed FL PL self uid None None w3 B Sealed3) as [l [Hl _]].
  exists w3, l. split; [|split; [exact Hl|]; split; [|split]].
  - rewrite (import_database_bound self uid (Some c) w B). unfold catch.
    rewrite (import_body_parsed self uid c text data w D J), Run. reflexivity.
  - destruct (get_transactions_columns self uid None None w3 l w3 B Hl) as [_ [_ Sl]].
    rewrite Sl.
    apply Permutation_trans with (map (columns self) rows).
    + apply Permutation_map. rewrite <- Mine. apply select_all_permutation.
    + replace (map (columns self) rows) with entries; [apply Permutation_refl|].
      clear -Hst FL PL. induction Hst as [|t e ts es H _ IH]; [reflexivity|].
      cbn [map]. rewrite <- IH, (columns_stores FL PL self uid t e H). reflexivity.
  - intros x T Hx. destruct (Hsome x T Hx) as [r [n [Hr Ha]]].
    apply (get_salary_single FL PL self uid w3 r n x B); [|exact Ha].
    rewrite Hsal3. exact Hr.
  - intros T. apply (get_salary_none self uid w3 B). rewrite Hsal3. apply Hnone. exact T.
Qed.

(** X16. A blob that decrypts and parses to a dict with a 'salary' and
    a list of 'transactions', each with a date, an amount, a category
    and a text description that read, is restored whole:
    [import_database] returns [True]; [get_transactions()] then lists
    exactly the snapshot's transactions, whatever the user had before;
    and [get_salary] returns the snapshot's salary, or [0.0] when the
    snapshot's salary is false. *)
Theorem import_database_restores_the_snapshot
    (FL : FernetLaws) (PL : PyFloatLaws)
    self uid w c text data sv tv items entries :
  bound self uid ->
  decrypt_data (auth_manager self) c = Ok text ->
  json_loads text = Some data ->
  getitem data "salary" = Ok sv ->
  (truthy sv = true -> exists x, to_float sv = Ok x) ->
  getitem data "transactions" = Ok tv ->
  iterate tv = Ok items ->
  Forall2 reads_as items entries ->
  exists w' l,
    import_database self (Some c) w = (Ok true, w')
    /\ get_transactions self None None w' = (Ok l, w')
    /\ Permutation (map shown l) entries
    /\ (forall x, truthy sv = true -> to_float sv = Ok x ->
          get_salary self w' = (Ok x, w'))
    /\ (truthy sv = false -> get_salary self w' = (Ok float_zero, w')).
Proof.
  exact (import_database_restores FL PL self uid w c text data sv tv items entries).
Qed.

End Snapshots.

Section Totals.

Context {BC : Bcrypt} {FN : Fernet} {JW : JWT} {PF : PyFloat}
        {EN : Environment} {RT : Runtime} {FA : PyFloatAdd} {FM : Formatting}.

Lemma dict_get_set k v d c :
  dict_get c (dict_set k v d) = if (k =? c)%string then Some v else dict_get c d.
Proof.
  unfold dict_get. induction d as [|[k' v'] d IH]; cbn [dict_set find fst snd].
  - destruct (k =? c)%string; reflexivity.
  - destruct (k' =? k)%string eqn:E; cbn [find fst snd].
    + apply String.eqb_eq in E. subst k'. destruct (k =? c)%string; reflexivity.
    + destruct (k' =? c)%string eqn:E'; [|exact IH].
      apply String.eqb_eq in E'. subst k'.
      rewrite String.eqb_sym in E. rewrite E. reflexivity.
Qed.

Lemma dict_set_keys k v d k' :
  In k' (map fst (dict_set k v d)) <-> k' = k \/ In k' (map fst d).
Proof.
  induction d as [|[k0 v0] d IH]; cbn [dict_set map fst In].
  - intuition.
  - destruct (k0 =? k)%string eqn:E; cbn [map fst In].
    + apply String.eqb_eq in E. subst k0. intuition.
    + rewrite IH. intuition.
Qed.

Lemma dict_set_NoDup k v d : NoDup (map fst d) -> NoDup (map fst (dict_set k v d)).
Proof.
  induction d as [|[k0 v0] d IH]; cbn [dict_set map fst]; intros N.
  - constructor; [intros [] | constructor].
  - inversion N as [|x xs Hnot Hrest]; subst.
    destruct (k0 =? k)%string eqn:E; cbn [map fst].
    + apply String.eqb_eq in E. subst k0. constructor; assumption.
    + constructor; [|apply IH; exact Hrest].
      rewrite dict_set_keys. intros [X|X]; [|exact (Hnot X)].
      apply String.eqb_neq in E. exact (E X).
Qed.

(** The running total of one category over the listing. *)
Lemma totals_lookup c (l : list transaction) : forall d,
  dict_get c (fold_left add_to_totals l d)
  = fold_left (fun acc t =>
                 if (Transactions.category (row t) =? c)%string
                 then Some (float_add (match acc with Some x => x | None => float_zero end)
                                      (amount t))
                 else acc) l (dict_get c d).
Proof.
  induction l as [|t l IH]; intros d; cbn [fold_left]; [reflexivity|].
  rewrite IH. f_equal. unfold add_to_totals. rewrite dict_get_set.
  destruct (Transactions.category (row t) =? c)%string eqn:E; [|reflexivity].
  apply String.eqb_eq in E. rewrite E. reflexivity.
Qed.

Lemma running_total_some c (l : list transaction) : forall x,
  fold_left (fun acc t =>
               if (Transactions.category (row t) =? c)%string
               then Some (float_add (match acc with Some x => x | None => float_zero end)
                                    (amount t))
               else acc) l (Some x)
  = Some (fold_left (fun acc t =>
                       if (Transactions.category (row t) =? c)%string
                       then float_add acc (amount t) else acc) l x).
Proof.
  induction l as [|t l IH]; intros x; cbn [fold_left]; [reflexivity|].
  destruct (Transactions.category (row t) =? c)%string; apply IH.
Qed.

Lemma running_total_none c (l : list transaction) :
  fold_left (fun acc t =>
               if (Transactions.category (row t) =? c)%string
               then Some (float_add (match acc with Some x => x | None => float_zero end)
                                    (amount t))
               else acc) l None
  = if existsb (fun t => (Transactions.category (row t) =? c)%string) l
    then Some (category_sum c l) else None.
Proof.
  unfold category_sum. induction l as [|t l IH]; cbn [fold_left existsb]; [reflexivity|].
  destruct (Transactions.category (row t) =? c)%string; cbn [orb].
  - apply running_total_some.
  - exact IH.
Qed.

Lemma totals_NoDup (l : list transaction) : forall d,
  NoDup (map fst d) -> NoDup (map fst (fold_left add_to_totals l d)).
Proof.
  induction l as [|t l IH]; intros d N; cbn [fold_left]; [exact N|].
  apply IH. unfold add_to_totals. apply dict_set_NoDup. exact N.
Qed.

(** X17. Where [get_transactions] returns a listing,
    [get_category_totals] for the same dates returns a dict with one
    entry for each category that occurs in the listing and none for any
    other; the entry is the amounts of that category added up in the
    order listed, starting from [0.0]. Where [get_transactions] raises,
    [get_category_totals] raises the same. *)
Theorem category_totals_add_up_the_listing self uid s e w :
  bound self uid ->
  (forall l,
      get_transactions self s e w = (Ok l, w) ->
      exists totals,
        get_category_totals self s e w = (Ok totals, w)
        /\ NoDup (map fst totals)
        /\ forall c,
             dict_get c totals
             = if existsb (fun t => (Transactions.category (row t) =? c)%string) l
               then Some (category_sum c l) else None)
  /\ (forall x w',
        get_transactions self s e w = (Raise x, w') ->
        get_category_totals self s e w = (Raise x, w')).
Proof.
  intros B. split.
  - intros l H. exists (fold_left add_to_totals l []).
    split; [|split].
    + unfold get_category_totals, bind. rewrite (require_user_bound self uid w B), H.
      reflexivity.
    + apply totals_NoDup. constructor.
    + intros c. rewrite totals_lookup. apply running_total_none.
  - intros x w' H. unfold get_category_totals, bind.
    rewrite (require_user_bound self uid w B), H. reflexivity.
Qed.

(** X18. The date range is applied only when both dates are given: with
    one of them left out [get_transactions] returns what it returns with
    none, so a transaction dated before [start_date] or after
    [end_date] is listed all the same. *)
Theorem one_date_alone_does_not_filter self start_date end_date w :
  get_transactions self (Some start_date) None w = get_transactions self None None w
  /\ get_transactions self None (Some end_date) w = get_transactions self None None w
  /\ forall uid t,
       In t (transactions w) ->
       Transactions.user_id t = uid ->
       In t (select_transactions uid (Some start_date) None w)
       /\ In t (select_transactions uid None (Some end_date) w).
Proof.
  split; [reflexivity|]. split; [reflexivity|].
  intros uid t Hin Hu.
  assert (X : In t (select_transactions uid None None w)).
  { eapply Permutation_in; [apply Permutation_sym; apply order_by_date_desc_permutation|].
    apply filter_In. split; [exact Hin | apply Z.eqb_eq; exact Hu]. }
  split; exact X.
Qed.

End Totals.

(** ** Backups *)

Lemma insert_newest_permutation b l : Permutation (insert_newest b l) (b :: l).
Proof.
  induction l as [|b' l IH]; cbn [insert_newest].
  - apply Permutation_refl.
  - destruct (created_at b' <=? created_at b).
    + apply Permutation_refl.
    + apply Permutation_trans with (b' :: b :: l);
        [apply perm_skip; exact IH | apply perm_swap].
Qed.

Lemma insert_newest_sorted b l :
  StronglySorted newer_first l -> StronglySorted newer_first (insert_newest b l).
Proof.
  induction l as [|b' l IH]; intros Hs; cbn [insert_newest].
  - constructor; constructor.
  - inversion Hs as [|x xs Hrest Hall]; subst.
    destruct (created_at b' <=? created_at b) eqn:E.
    + apply Z.leb_le in E. constructor; [exact Hs|].
      constructor; [exact E|].
      eapply Forall_impl; [|exact Hall].
      unfold newer_first. intros a Ha. lia.
    + apply Z.leb_gt in E. constructor; [apply IH; exact Hrest|].
      eapply Permutation_Forall;
        [apply Permutation_sym; apply insert_newest_permutation|].
      constructor; [unfold newer_first; lia | exact Hall].
Qed.

Lemma newest_first_permutation l : Permutation (newest_first l) l.
Proof.
  induction l as [|b l IH]; cbn [newest_first fold_right].
  - apply Permutation_refl.
  - eapply Permutation_trans; [apply insert_newest_permutation|].
    apply perm_skip. exact IH.
Qed.

Lemma newest_first_sorted l : StronglySorted newer_first (newest_first l).
Proof.
  induction l as [|b l IH]; cbn [newest_first fold_right].
  - constructor.
  - apply insert_newest_sorted. exact IH.
Qed.

Section Backups.

Context {BC : Bcrypt} {FN : Fernet} {JW : JWT} {PF : PyFloat}
        {EN : Environment} {RT : Runtime} {FA : PyFloatAdd} {FM : Formatting}.

(** X19. [export_database] puts the rows as [get_transactions] returns
    them into [json.dumps], encrypted columns included, and bytes are
    not serializable: whenever the user has a transaction to list,
    [export_database] raises [TypeError], before anything is encrypted
    or written. *)
Theorem export_database_raises_with_a_transaction
    self uid backup_name now w s t l :
  bound self uid ->
  get_salary self w = (Ok s, w) ->
  get_transactions self None None w = (Ok (t :: l), w) ->
  export_database self backup_name now w = (Raise TypeError, w).
Proof.
  intros B Hs Ht. unfold export_database. unfold bind at 1.
  rewrite (require_user_bound self uid w B).
  unfold bind at 1. rewrite Hs. unfold bind at 1. rewrite Ht.
  reflexivity.
Qed.

(** X20. With no transaction to list, [export_database] returns a path
    and writes a blob that [import_database] takes back: it returns
    [True], the listing is empty again, and [get_salary] returns the
    exported salary, or [0.0] when that salary is zero. The hypothesis
    on [json] is its round trip on the one value exported. *)
Theorem export_of_an_empty_ledger_imports_back
    (FL : FernetLaws) (PL : PyFloatLaws) self uid backup_name now w s :
  bound self uid ->
  get_salary self w = (Ok s, w) ->
  get_transactions self None None w = (Ok [], w) ->
  json_loads (json_dumps (PDict [("salary", PFloat s); ("transactions", PList [])]))
  = Some (PDict [("salary", PFloat s); ("transactions", PList [])]) ->
  exists backup_path blob w1 w2,
    export_database self backup_name now w = (Ok (backup_path, blob), w1)
    /\ salary w1 = salary w /\ transactions w1 = transactions w
    /\ import_database self (Some blob) w1 = (Ok true, w2)
    /\ get_transactions self None None w2 = (Ok [], w2)
    /\ (float_is_zero s = false -> get_salary self w2 = (Ok s, w2))
    /\ (float_is_zero s = true -> get_salary self w2 = (Ok float_zero, w2)).
Proof.
  intros B Hs Ht J.
  set (data := PDict [("salary", PFloat s); ("transactions", PList [])]) in *.
  set (blob := fernet_encrypt (encryption_key (auth_manager self))
                              (fernet_nonce (draws w)) (encode (json_dumps data))).
  assert (Hexp : exists backup_path,
             export_database self backup_name now w = (Ok (backup_path, blob), drawn w)).
  { eexists. unfold export_database. unfold bind at 1.
    rewrite (require_user_bound self uid w B).
    unfold bind at 1. rewrite Hs. unfold bind at 1. rewrite Ht. reflexivity. }
  destruct Hexp as [backup_path Hexp].
  assert (D : decrypt_data (auth_manager self) blob = Ok (json_dumps data)).
  { unfold decrypt_data, blob. rewrite fernet_correct, decode_encode. reflexivity. }
  destruct (import_database_restores FL PL self uid (drawn w) blob (json_dumps data)
              data (PFloat s) (PList []) [] [] B D J eq_refl)
    as [w2 [l [Himp [Hl [Hperm [Hsome Hnone]]]]]];
    [intros _; exists s; reflexivity | reflexivity | reflexivity | constructor |].
  apply Permutation_sym, Permutation_nil in Hperm. apply map_eq_nil in Hperm. subst l.
  exists backup_path, blob, (drawn w), w2.
  split; [exact Hexp|]. split; [reflexivity|]. split; [reflexivity|].
  split; [exact Himp|]. split; [exact Hl|]. split.
  - intros Z. apply Hsome; [cbn; rewrite Z; reflexivity | reflexivity].
  - intros Z. apply Hnone. cbn. rewrite Z. reflexivity.
Qed.

(** X21. For a bound user [list_backups] returns, from the files of the
    backup directory, exactly those whose name starts with
    [budget_backup_<user_id>_], each with its path under the directory,
    the most recently modified first. *)
Theorem list_backups_lists_own_files_newest_first self uid listing w :
  bound self uid ->
  let own := String.prefix ("budget_backup_" ++ str_of_int uid ++ "_")%string in
  exists l,
    list_backups self listing w = (Ok l, w)
    /\ Permutation (map (fun b => (filename b, created_at b)) l)
                   (filter (fun f => own (fst f)) listing)
    /\ Forall (fun b => own (filename b) = true
                        /\ path b = path_join "backups" (filename b)) l
    /\ StronglySorted newer_first l.
Proof.
  intros B own. eexists. split; [|split; [|split]].
  - unfold list_backups, bind. rewrite (require_user_bound self uid w B). reflexivity.
  - eapply Permutation_trans;
      [apply Permutation_map; apply newest_first_permutation|].
    rewrite map_map. cbn [filename created_at].
    erewrite map_ext; [rewrite map_id; apply Permutation_refl|].
    intros [n t]. reflexivity.
  - eapply Permutation_Forall;
      [apply Permutation_sym; apply newest_first_permutation|].
    apply Forall_map. apply Forall_forall. intros f Hf.
    apply filter_In in Hf. destruct Hf as [_ Hf]. cbn [filename path].
    split; [exact Hf | reflexivity].
  - apply newest_first_sorted.
Qed.

End Backups.

(** * Properties of the handlers of app.py *)

Section Handlers.

Context {BC : Bcrypt} {FN : Fernet} {JW : JWT} {PF : PyFloat}
        {EN : Environment} {RT : Runtime} {FA : PyFloatAdd} {FM : Formatting}.

(** X22. The Register and Reset Password buttons call [create_user] and
    [reset_password] only with a password of at least 8 characters that
    equals its confirmation: otherwise they show a message and the
    world, random draws included, is as it was. *)
Theorem forms_refuse_short_or_mismatched_passwords auth w :
  (forall user pw confirm email question answer,
      snd (register_submit auth user pw confirm email question answer w) <> w ->
      pw = confirm /\ (8 <= String.length pw)%nat)
  /\ (forall user answer pw confirm,
        snd (reset_submit auth user answer pw confirm w) <> w ->
        pw = confirm /\ (8 <= String.length pw)%nat)
  /\ (forall user pw confirm email question answer,
        pw <> confirm ->
        register_submit auth user pw confirm email question answer w
        = ("Passwords do not match!", w))
  /\ (forall user pw email question answer,
        (String.length pw < 8)%nat ->
        register_submit auth user pw pw email question answer w
        = ("Password must be at least 8 characters long!", w)).
Proof.
  split; [|split; [|split]].
  - intros user pw confirm email question answer. unfold register_submit.
    destruct (pw =? confirm)%string eqn:E; cbn [negb]; [|intros H; exfalso; apply H; reflexivity].
    destruct (String.length pw <? 8)%nat eqn:L; [intros H; exfalso; apply H; reflexivity|].
    intros _. split; [apply String.eqb_eq; exact E | apply Nat.ltb_ge; exact L].
  - intros user answer pw confirm. unfold reset_submit.
    destruct (pw =? confirm)%string eqn:E; cbn [negb]; [|intros H; exfalso; apply H; reflexivity].
    destruct (String.length pw <? 8)%nat eqn:L; [intros H; exfalso; apply H; reflexivity|].
    intros _. split; [apply String.eqb_eq; exact E | apply Nat.ltb_ge; exact L].
  - intros user pw confirm email question answer Hne. unfold register_submit.
    apply String.eqb_neq in Hne. rewrite Hne. reflexivity.
  - intros user pw email question answer Hl. unfold register_submit.
    rewrite String.eqb_refl. cbn [negb]. apply Nat.ltb_lt in Hl. rewrite Hl. reflexivity.
Qed.

(** X23. When the Login button succeeds, the session state holds the
    token and the id of the row that was found, taken from the payload
    of the verified token; for a positive id a [BudgetDatabase] built
    with that [user_id] is bound to it. When [login] fails the button
    shows its message and leaves the session state as it was. *)
Theorem login_submit_binds_the_ledger (JL : JWTLaws)
    auth name password now utcnow state w u :
  fetch_user name w = Some u ->
  0 < Users.id u ->
  is_locked u now = false ->
  verify_password password (Users.password_hash u) = true ->
  (exists token w',
      login_submit auth name password now utcnow state w
      = (("Login successful!",
          {| authenticated := true;
             state_user_id := Some (Users.id u);
             state_token := Some token |}), w')
      /\ login auth name password now utcnow w = ((true, token), w')
      /\ forall am,
           bound {| user_id := Some (Users.id u); auth_manager := am |} (Users.id u))
  /\ (forall p, verify_password p (Users.password_hash u) = false ->
        fst (login_submit auth name p now utcnow state w)
        = ("Invalid username or password", state)).
Proof.
  intros Hu Hpos L V. split.
  - destruct (login_right_password auth name password now utcnow w u Hu L V)
      as [token [w' [Hrun [_ [Htok Hsess]]]]].
    exists token, w'. split; [|split; [exact Hrun|]].
    + unfold login_submit. rewrite Hrun.
      erewrite issued_token_verifies; try eassumption; try reflexivity.
      apply (exp_bounds utcnow).
    + intros am. split; [reflexivity | cbn; lia].
  - intros p Hp. unfold login_submit.
    rewrite (login_wrong_password auth name p now utcnow w u Hu L Hp). reflexivity.
Qed.

(** X24. The Reports page asks for the transactions from 7, 30 or 365
    days before today up to today: over sealed rows of the user it lists
    every transaction of the user dated in that span and nothing dated
    before it or after today. *)
Theorem report_lists_the_period_only (FL : FernetLaws) (PL : PyFloatLaws)
    db uid report_period today w :
  bound db uid ->
  Forall (sealed (encryption_key (auth_manager db)))
         (filter (fun t => Transactions.user_id t =? uid) (transactions w)) ->
  let days := if (report_period =? "Weekly")%string then 7
              else if (report_period =? "Monthly")%string then 30 else 365 in
  exists l,
    report_transactions db report_period today w = (Ok l, w)
    /\ Forall (fun t => Transactions.user_id (row t) = uid
                        /\ today - days <= Transactions.date (row t) <= today) l
    /\ forall t,
         In t (transactions w) ->
         Transactions.user_id t = uid ->
         today - days <= Transactions.date t <= today ->
         In t (map row l).
Proof.
  intros B Hs days.
  assert (R : report_transactions db report_period today w
              = get_transactions db (Some (today - days)) (Some today) w).
  { unfold report_transactions, get_date_range, days.
    destruct (report_period =? "Weekly")%string; [reflexivity|].
    destruct (report_period =? "Monthly")%string; reflexivity. }
  destruct (get_transactions_sealed FL PL db uid (Some (today - days)) (Some today) w B Hs)
    as [l [Hl [Hrows _]]].
  pose proof (select_transactions_selected uid (Some (today - days)) (Some today) w)
    as Hperm.
  exists l. split; [rewrite R; exact Hl|]. split.
  - assert (X : Forall (fun r => Transactions.user_id r = uid
                                 /\ today - days <= Transactions.date r <= today)
                       (map row l)).
    { rewrite Hrows. eapply Permutation_Forall; [apply Permutation_sym; exact Hperm|].
      apply Forall_forall. intros t Ht. apply filter_In in Ht. destruct Ht as [_ Ht].
      unfold selected in Ht. apply andb_true_iff in Ht. destruct Ht as [H1 H2].
      apply andb_true_iff in H2. destruct H2 as [H2 H3].
      apply Z.eqb_eq in H1. apply Z.leb_le in H2. apply Z.leb_le in H3. auto. }
    rewrite Forall_map in X. exact X.
  - intros t Hin Hu Hd. rewrite Hrows.
    eapply Permutation_in; [apply Permutation_sym; exact Hperm|].
    apply filter_In. split; [exact Hin|]. unfold selected.
    apply andb_true_iff. split; [apply Z.eqb_eq; exact Hu|].
    apply andb_true_iff. split; apply Z.leb_le; lia.
Qed.

End Handlers.

(** * The further properties on the concrete instance *)

Section MoreWitnesses.

#[local] Existing Instances Toy.bcrypt Toy.fernet Toy.jwt Toy.pyfloat
  Toy.environment Toy.runtime Toy2.pyfloat_add Toy2.formatting.

Lemma toy_registered_unique : unique_users Toy.registered.
Proof.
  unfold unique_users.
  repeat split; vm_compute;
    repeat (constructor || (intros []) || reflexivity).
Defined.

Lemma users_stay_unique_witness :
  unique_users (snd (create_user Toy.auth "bob" "hunter22" "b@x" "pet" "Tom" Toy.registered))
  /\ unique_users (snd (login Toy.auth "alice" "bad" 0 0 Toy.registered)).
Proof.
  pose proof (users_stay_unique Toy.auth Toy.registered toy_registered_unique)
    as [Create [Login _]].
  split; [apply Create | apply Login].
Defined.

Lemma registered_user_can_log_in_witness :
  exists token w2 c u,
    login Toy.auth "bob" "hunter22" 0 Toy2.early
          (snd (create_user Toy.auth "bob" "hunter22" "b@x" "pet" "Tom" Toy.registered))
    = ((true, token), w2)
    /\ verify_token Toy.auth token Toy2.early w2 = (true, Payload c)
    /\ fetch_user "bob"
         (snd (create_user Toy.auth "bob" "hunter22" "b@x" "pet" "Tom" Toy.registered))
       = Some u
    /\ claim_user_id c = Users.id u
    /\ claim_username c = "bob".
Proof.
  apply (registered_user_can_log_in toy_bcrypt_laws toy_jwt_laws Toy.auth
           "bob" "hunter22" "b@x" "pet" "Tom" Toy.registered).
  vm_compute. reflexivity.
Defined.

Lemma login_leaves_other_accounts_alone_witness :
  let w := snd (create_user Toy.auth "bob" "hunter22" "b@x" "pet" "Tom" Toy.registered) in
  let w' := snd (login Toy.auth "alice" "bad" 0 0 w) in
  (forall other, other <> "alice" -> fetch_user other w' = fetch_user other w)
  /\ salary w' = salary w
  /\ transactions w' = transactions w
  /\ key_file w' = key_file w.
Proof.
  intros w.
  apply (login_leaves_other_accounts_alone Toy.auth "alice" "bad" 0 0 w).
  vm_compute. repeat (constructor || (intros [H|H]; try discriminate H; try exact H)
                      || (intros [])).
Defined.

Lemma one_failure_locks_again_after_expiry_witness :
  let now := 10 + minutes 30 in
  exists u',
    fst (login Toy.auth "alice" "bad" now now Toy2.locked) = invalid_credentials
    /\ fetch_user "alice" (snd (login Toy.auth "alice" "bad" now now Toy2.locked)) = Some u'
    /\ Users.failed_attempts u' = Users.failed_attempts Toy2.alice_locked + 1
    /\ Users.locked_until u' = Some (now + minutes 30)
    /\ forall p t t',
         t < now + minutes 30 ->
         fst (login Toy.auth "alice" p t t'
                    (snd (login Toy.auth "alice" "bad" now now Toy2.locked)))
         = account_locked.
Proof.
  intros now.
  apply (one_failure_locks_again_after_expiry Toy.auth "alice" "bad" now now
           Toy2.locked Toy2.alice_locked); vm_compute; try reflexivity.
  discriminate.
Defined.

Lemma reset_password_does_not_unlock_witness :
  exists w',
    reset_password Toy.auth "alice" "REX" "fresh-pw" Toy2.locked = (true, w')
    /\ forall p utcnow, login Toy.auth "alice" p 11 utcnow w' = (account_locked, w').
Proof.
  apply (reset_password_does_not_unlock toy_bcrypt_laws Toy.auth "alice" Toy2.locked
           Toy2.alice_locked "Rex" ("000"%byte : @salt Toy.bcrypt) "REX" "fresh-pw" 11);
    vm_compute; reflexivity.
Defined.

Lemma logins_in_one_second_share_a_token_witness :
  let first := login Toy.auth "alice" "pw" 0 Toy2.early Toy.registered in
  let second := login Toy.auth "alice" "pw" 0 Toy2.early' (snd first) in
  snd (fst first) = snd (fst second)
  /\ (exists s1 s2,
        sessions (snd second) = sessions Toy.registered ++ [s1; s2]
        /\ Sessions.token s1 = snd (fst first)
        /\ Sessions.token s2 = snd (fst first))
  /\ (forall t, fetch_session (snd (fst second)) t
                  (snd (logout Toy.auth (snd (fst first)) (snd second))) = None)
  /\ Forall (fun s => Sessions.token s <> snd (fst second))
            (sessions (snd (logout Toy.auth (snd (fst first)) (snd second)))).
Proof.
  intros first second.
  apply (logins_in_one_second_share_a_token Toy.auth "alice" "pw" "pw" 0 0
           Toy2.early Toy2.early' Toy.registered
           (snd (fst first)) (snd first) (snd (fst second)) (snd second));
    vm_compute; reflexivity.
Defined.

Lemma instances_with_JWT_SECRET_accept_each_other_witness :
  let a := fst (AuthManager_init (Some "shared") Toy.empty_world) in
  let b := fst (AuthManager_init (Some "shared")
                  (snd (AuthManager_init (Some "shared") Toy.empty_world))) in
  jwt_secret a = "shared"
  /\ jwt_secret b = "shared"
  /\ (forall token t w, verify_token b token t w = verify_token a token t w)
  /\ (forall name password now utcnow w token w',
        login a name password now utcnow w = ((true, token), w') ->
        exists c, verify_token b token utcnow w' = (true, Payload c)).
Proof.
  exact (instances_with_JWT_SECRET_accept_each_other toy_jwt_laws "shared"
           Toy.empty_world).
Defined.

Lemma toy_rekeyed_bound : bound Toy2.rekeyed 1.
Proof. split; [reflexivity | discriminate]. Defined.

Lemma another_key_aborts_every_read_witness :
  get_transactions Toy2.rekeyed None None Toy.ledger = (Raise InvalidToken, Toy.ledger).
Proof.
  refine (proj1 (another_key_aborts_every_read toy_fernet_laws Toy2.rekeyed
                   (encryption_key Toy.auth) 1 Toy.ledger toy_rekeyed_bound _)
            None None Toy2.rent_row toy_ledger_sealed _ _).
  - vm_compute. discriminate.
  - vm_compute. left. reflexivity.
  - vm_compute. reflexivity.
Defined.

Lemma unbound_ledger_raises_ValueError_witness :
  get_salary Toy2.nobody Toy.ledger = (Raise ValueError, Toy.ledger)
  /\ import_database Toy2.nobody None Toy.ledger = (Raise ValueError, Toy.ledger).
Proof.
  pose proof (unbound_ledger_raises_ValueError Toy2.nobody Toy.ledger
                (or_introl eq_refl))
    as [_ [Salary [_ [_ [_ [_ [Import _]]]]]]].
  split; [exact Salary | apply Import].
Defined.

Lemma added_transaction_is_listed_witness :
  exists w' l l',
    add_transaction Toy.db 9 (20 : @float Toy.pyfloat) (PStr "Wants")
                    (Some (PStr "film")) Toy.ledger = (Ok tt, w')
    /\ get_transactions Toy.db None None Toy.ledger = (Ok l, Toy.ledger)
    /\ get_transactions Toy.db None None w' = (Ok l', w')
    /\ Permutation (map shown l')
                   ((9, (20 : @float Toy.pyfloat), "Wants", "film") :: map shown l).
Proof.
  exact (added_transaction_is_listed toy_fernet_laws toy_pyfloat_laws Toy.db 1
           9 (20 : @float Toy.pyfloat) "Wants" "film" Toy.ledger
           toy_db_bound toy_ledger_sealed).
Defined.

Lemma ledger_writes_stay_with_their_user_witness :
  (forall x, others 1 (snd (update_salary Toy.db x Toy.ledger)) = others 1 Toy.ledger)
  /\ (forall d a c s,
        others 1 (snd (add_transaction Toy.db d a c s Toy.ledger)) = others 1 Toy.ledger)
  /\ (forall f, others 1 (snd (import_database Toy.db f Toy.ledger)) = others 1 Toy.ledger).
Proof.
  exact (ledger_writes_stay_with_their_user Toy.db 1 Toy.ledger toy_db_bound).
Defined.

(** A blob that holds the text of an empty JSON list. *)
Lemma import_of_a_misshapen_snapshot_empties_the_ledger_witness :
  exists w',
    import_database Toy.db (Some (fst (encrypt_data Toy.auth "[]" Toy.ledger))) Toy.ledger
    = (Ok false, w')
    /\ filter (fun r => Salary.user_id r =? 1) (salary w') = []
    /\ filter (fun t => Transactions.user_id t =? 1) (transactions w') = []
    /\ others 1 w' = others 1 Toy.ledger.
Proof.
  apply (import_of_a_misshapen_snapshot_empties_the_ledger Toy.db 1 Toy.ledger
           (fst (encrypt_data Toy.auth "[]" Toy.ledger)) "[]" (PList []) TypeError
           toy_db_bound); reflexivity.
Defined.

(** A blob that holds the text the parser of the instance reads as a
    salary of 7 and one transaction. *)
Lemma import_database_restores_the_snapshot_witness :
  exists w' l,
    import_database Toy.db (Some (fst (encrypt_data Toy.auth "one" Toy.ledger))) Toy.ledger
    = (Ok true, w')
    /\ get_transactions Toy.db None None w' = (Ok l, w')
    /\ Permutation (map shown l) [(3, (50 : @float Toy.pyfloat), "Needs", "rent")]
    /\ (forall x, true = true -> Ok (7 : @float Toy.pyfloat) = Ok x ->
          get_salary Toy.db w' = (Ok x, w'))
    /\ (true = false -> get_salary Toy.db w' = (Ok float_zero, w')).
Proof.
  refine (import_database_restores_the_snapshot toy_fernet_laws toy_pyfloat_laws
            Toy.db 1 Toy.ledger (fst (encrypt_data Toy.auth "one" Toy.ledger)) "one"
            (PDict [("salary", PFloat (7 : @float Toy.pyfloat));
                    ("transactions",
                     PList [PDict [("date", PStr "d01110"); ("amount", PInt 50);
                                   ("category", PStr "Needs");
                                   ("description", PStr "rent")]])])
            (PFloat (7 : @float Toy.pyfloat))
            (PList [PDict [("date", PStr "d01110"); ("amount", PInt 50);
                           ("category", PStr "Needs");
                           ("description", PStr "rent")]])
            [PDict [("date", PStr "d01110"); ("amount", PInt 50);
                    ("category", PStr "Needs");
                    ("description", PStr "rent")]]
            [(3, (50 : @float Toy.pyfloat), "Needs", "rent")]
            toy_db_bound _ _ _ _ _ _ _); try reflexivity.
  - intros _. exists (7 : @float Toy.pyfloat). reflexivity.
  - constructor; [|constructor].
    exists (PStr "d01110"), (PInt 50), (PStr "Needs"). repeat split.
Defined.

Lemma category_totals_add_up_the_listing_witness :
  exists l totals,
    get_transactions Toy.db None None Toy.ledger = (Ok l, Toy.ledger)
    /\ get_category_totals Toy.db None None Toy.ledger = (Ok totals, Toy.ledger)
    /\ NoDup (map fst totals)
    /\ forall c,
         dict_get c totals
         = if existsb (fun t => (Transactions.category (row t) =? c)%string) l
           then Some (category_sum c l) else None.
Proof.
  destruct (get_transactions_sealed toy_fernet_laws toy_pyfloat_laws Toy.db 1
              None None Toy.ledger toy_db_bound toy_ledger_sealed) as [l [Hl _]].
  destruct (proj1 (category_totals_add_up_the_listing Toy.db 1 None None Toy.ledger
                     toy_db_bound) l Hl) as [totals H].
  exists l, totals. split; [exact Hl | exact H].
Defined.

Lemma export_database_raises_with_a_transaction_witness :
  export_database Toy.db None 0 Toy.ledger = (Raise TypeError, Toy.ledger).
Proof.
  eapply (export_database_raises_with_a_transaction Toy.db 1 None 0 Toy.ledger
            (0 : @float Toy.pyfloat) _ []).
  - exact toy_db_bound.
  - reflexivity.
  - reflexivity.
Defined.

Lemma list_backups_lists_own_files_newest_first_witness :
  let listing := [("budget_backup_010_a", 5); ("notes", 9); ("budget_backup_010_b", 7)] in
  let own := String.prefix ("budget_backup_" ++ str_of_int 1 ++ "_")%string in
  exists l,
    list_backups Toy.db listing Toy.ledger = (Ok l, Toy.ledger)
    /\ Permutation (map (fun b => (filename b, created_at b)) l)
                   (filter (fun f => own (fst f)) listing)
    /\ Forall (fun b => own (filename b) = true
                        /\ path b = path_join "backups" (filename b)) l
    /\ StronglySorted newer_first l.
Proof.
  intros listing.
  exact (list_backups_lists_own_files_newest_first Toy.db 1 listing Toy.ledger
           toy_db_bound).
Defined.

Lemma login_submit_binds_the_ledger_witness :
  let state := {| authenticated := false; state_user_id := None; state_token := None |} in
  (exists token w',
      login_submit Toy.auth "alice" "pw" 0 Toy2.early state Toy.registered
      = (("Login successful!",
          {| authenticated := true;
             state_user_id := Some (Users.id Toy.alice);
             state_token := Some token |}), w')
      /\ login Toy.auth "alice" "pw" 0 Toy2.early Toy.registered = ((true, token), w')
      /\ forall am,
           bound {| user_id := Some (Users.id Toy.alice); auth_manager := am |}
                 (Users.id Toy.alice))
  /\ (forall p, verify_password p (Users.password_hash Toy.alice) = false ->
        fst (login_submit Toy.auth "alice" p 0 Toy2.early state Toy.registered)
        = ("Invalid username or password", state)).
Proof.
  intros state.
  apply (login_submit_binds_the_ledger toy_jwt_laws Toy.auth "alice" "pw" 0 Toy2.early
           state Toy.registered Toy.alice); vm_compute; reflexivity.
Defined.

Lemma report_lists_the_period_only_witness :
  exists l,
    report_transactions Toy.db "Weekly" 5 Toy.ledger = (Ok l, Toy.ledger)
    /\ Forall (fun t => Transactions.user_id (row t) = 1
                        /\ 5 - 7 <= Transactions.date (row t) <= 5) l
    /\ forall t,
         In t (transactions Toy.ledger) ->
         Transactions.user_id t = 1 ->
         5 - 7 <= Transactions.date t <= 5 ->
         In t (map row l).
Proof.
  exact (report_lists_the_period_only toy_fernet_laws toy_pyfloat_laws Toy.db 1
           "Weekly" 5 Toy.ledger toy_db_bound toy_ledger_sealed).
Defined.

End MoreWitnesses.

Section RoundTripWitness.

#[local] Existing Instances Toy.bcrypt Toy.fernet Toy.jwt Toy.pyfloat
  Toy.environment Toy2.runtime Toy2.pyfloat_add Toy2.formatting.

Lemma export_of_an_empty_ledger_imports_back_witness :
  exists backup_path blob w1 w2,
    export_database Toy.db None 0 Toy2.salaried = (Ok (backup_path, blob), w1)
    /\ salary w1 = salary Toy2.salaried /\ transactions w1 = transactions Toy2.salaried
    /\ import_database Toy.db (Some blob) w1 = (Ok true, w2)
    /\ get_transactions Toy.db None None w2 = (Ok [], w2)
    /\ (float_is_zero (7 : @float Toy.pyfloat) = false ->
        get_salary Toy.db w2 = (Ok (7 : @float Toy.pyfloat), w2))
    /\ (float_is_zero (7 : @float Toy.pyfloat) = true ->
        get_salary Toy.db w2 = (Ok float_zero, w2)).
Proof.
  apply (export_of_an_empty_ledger_imports_back toy_fernet_laws toy_pyfloat_laws
           Toy.db 1 None 0 Toy2.salaried (7 : @float Toy.pyfloat) toy_db_bound);
    reflexivity.
Defined.

End RoundTripWitness.
